(** * Multi-tenant time tracking: QR scan state machine and directory operations

    Shallow embedding of the request handlers of
    [src/deployment/api/server.py] (SQLite deployment) and
    [src/backend/server_mysql_part2.py] (SQLAlchemy/MySQL backend).

    Conventions of the embedding.
    - Text columns and identifiers are [string]s (byte strings).
    - A [datetime] is the number of microseconds on the naive local time
      line, a [Z]; [(a - b).total_seconds()] is [(a - b) / 10^6], so the
      comparison with the 5 second cooldown and the truncation [int(...)] are
      computed on microseconds.
    - Every value a handler draws from its environment ([uuid.uuid4()],
      [datetime.now()], the password hash) is an explicit input, one input
      per call made by the source.
    - A handler runs inside one connection: statements act on the pending
      transaction, [commit] publishes it, and an exception leaving the handler
      discards it. *)

From Stdlib Require Import String Ascii List ZArith Lia Bool Arith.
Import ListNotations.

Open Scope string_scope.
Open Scope list_scope.

(** ** Python string primitives used by the handlers *)

Module Py.

(** [s.startswith(p)] *)
Definition startswith (s p : string) : bool := String.prefix p s.

(** [s.split(sep)] for a one-character separator: the pieces between the
    occurrences of [sep], always at least one piece. *)
Fixpoint split (sep : ascii) (s : string) : list string :=
  match s with
  | EmptyString => [EmptyString]
  | String c rest =>
      if Ascii.eqb c sep then EmptyString :: split sep rest
      else match split sep rest with
           | [] => [String c EmptyString]
           | p :: ps => String c p :: ps
           end
  end.

(** [sep in s] *)
Fixpoint contains (sep : ascii) (s : string) : bool :=
  match s with
  | EmptyString => false
  | String c rest => Ascii.eqb c sep || contains sep rest
  end.

End Py.

(** ** Exceptions *)

(** The [detail] of an [HTTPException]: a fixed text, or the cooldown
    f-string [f"Poczekaj {remaining_seconds} sekund przed kolejnym
    skanowaniem"] with its hole kept as a number. *)
Inductive Detail : Type :=
| Text (msg : string)
| Poczekaj (remaining_seconds : Z).

Inductive Exn : Type :=
| HTTPException (status_code : Z) (detail : Detail)
| IntegrityError         (* a PRIMARY KEY or UNIQUE constraint rejects a row *)
| MultipleResultsFound.  (* SQLAlchemy's scalar_one_or_none on several rows *)

(** ** QR identity codec *)

Module Codec.

Definition underscore : ascii := "_"%char.

(** [create_employee]:
    [qr_data = f"EMP_{company_id}_{employee_data.number}_{str(uuid.uuid4())[:8]}"];
    [suffix] stands for the eight characters taken from the fresh uuid. *)
Definition qr_data (company_id number suffix : string) : string :=
  "EMP_" ++ company_id ++ "_" ++ number ++ "_" ++ suffix.

(** The decoding steps of [scan_qr]: the prefix test, the split, the length
    test, and the two fields read from the pieces. *)
Definition decode (qr_data : string) : Exn + (string * string) :=
  if negb (Py.startswith qr_data "EMP_")
  then inl (HTTPException 400 (Text "Invalid QR code"))
  else
    let parts := Py.split underscore qr_data in
    if (length parts <? 3)%nat
    then inl (HTTPException 400 (Text "Invalid QR code format"))
    else
      let qr_company_id := nth 1 parts "" in
      let employee_number := nth 2 parts "" in
      inr (qr_company_id, employee_number).

(** Number of underscore-separated fields of a payload. *)
Definition field_count (qr_data : string) : nat :=
  length (Py.split underscore qr_data).

End Codec.

(** ** Stored rows

    One record per table of [DATABASE_SCHEMA] (and of the SQLAlchemy models,
    which have the same columns).  The [owners] table is read only by the
    authentication dependencies, which run before the handlers below. *)

Record Company : Type := mkCompany {
  co_id : string;
  co_name : string;
  co_owner_id : string;
  co_created_at : Z
}.

Record User : Type := mkUser {
  us_id : string;
  us_username : string;
  us_email : string;
  us_password_hash : string;
  us_role : string;
  us_company_id : string;
  us_created_at : Z
}.

Record Employee : Type := mkEmployee {
  em_id : string;
  em_name : string;
  em_surname : string;
  em_position : string;
  em_number : string;
  em_qr_code : string;
  em_company_id : string;
  em_created_at : Z
}.

Record TimeEntry : Type := mkTimeEntry {
  te_id : string;
  te_employee_id : string;
  te_check_in : option Z;
  te_check_out : option Z;
  te_date : string;
  te_status : string;
  te_last_scan_time : option Z
}.

(** The database: each table is the list of its rows in insertion (rowid)
    order. *)
Record DB : Type := mkDB {
  companies : list Company;
  users : list User;
  employees : list Employee;
  time_entries : list TimeEntry
}.

(** ** Connections, transactions and the handler monad *)

Inductive Table : Type := Companies | Users | Employees | TimeEntries.

(** The statements a handler sends to the store, in the order it sends them. *)
Inductive Stmt : Type :=
| SELECT (t : Table)
| INSERT (t : Table)
| UPDATE (t : Table)
| DELETE (t : Table)
| COMMIT.

(** Objects handed to [db.add] of a SQLAlchemy session. *)
Inductive Row : Type :=
| CompanyRow (c : Company)
| UserRow (u : User).

Record Conn : Type := mkConn {
  committed : DB;          (* what other connections see *)
  pending : DB;            (* the open transaction of this connection *)
  session_new : list Row;  (* SQLAlchemy unit of work: added, not yet flushed *)
  log : list Stmt
}.

Definition M (A : Type) : Type := Conn -> Conn * (Exn + A).

Definition ret {A} (a : A) : M A := fun c => (c, inr a).

Definition raise {A} (e : Exn) : M A := fun c => (c, inl e).

Definition bind {A B} (m : M A) (k : A -> M B) : M B :=
  fun c =>
    match m c with
    | (c', inr a) => k a c'
    | (c', inl e) => (c', inl e)
    end.

Notation "x <- m ;; k" := (bind m (fun x => k))
  (at level 61, m at next level, right associativity).
Notation "m ;;; k" := (bind m (fun _ => k))
  (at level 61, right associativity).

Definition connect (db : DB) : Conn := mkConn db db [] [].

(** Running a handler on a database: its result (or the exception that left
    it), the database as committed when the connection closes, and the
    statements it executed. *)
Definition run {A} (m : M A) (db : DB) : (Exn + A) * DB * list Stmt :=
  let '(c, r) := m (connect db) in (r, committed c, log c).

Definition outcome {A} (r : (Exn + A) * DB * list Stmt) : Exn + A :=
  fst (fst r).

Definition db_after {A} (r : (Exn + A) * DB * list Stmt) : DB := snd (fst r).

Definition statements {A} (r : (Exn + A) * DB * list Stmt) : list Stmt :=
  snd r.

Definition tell (s : Stmt) (c : Conn) : Conn :=
  mkConn (committed c) (pending c) (session_new c) (log c ++ [s]).

(** A table of the schema: where its rows live in [DB] and which rows its
    PRIMARY KEY and UNIQUE constraints admit next to the rows present. *)
Record table (R : Type) : Type := mkTable {
  tbl : Table;
  rows : DB -> list R;
  with_rows : list R -> DB -> DB;
  admits : list R -> R -> bool
}.
Arguments tbl {R}.
Arguments rows {R}.
Arguments with_rows {R}.
Arguments admits {R}.

(** [companies]: [id TEXT PRIMARY KEY]. *)
Definition companies_t : table Company :=
  mkTable Company Companies companies
    (fun l d => mkDB l (users d) (employees d) (time_entries d))
    (fun l r => negb (existsb (fun x => co_id x =? co_id r) l)).

(** [users]: [id TEXT PRIMARY KEY], [username TEXT UNIQUE]. *)
Definition users_t : table User :=
  mkTable User Users users
    (fun l d => mkDB (companies d) l (employees d) (time_entries d))
    (fun l r => negb (existsb (fun x => us_id x =? us_id r) l)
             && negb (existsb (fun x => us_username x =? us_username r) l)).

(** [employees]: [id TEXT PRIMARY KEY], [UNIQUE(number, company_id)] (the
    SQLite schema; no handler below inserts an employee). *)
Definition employees_t : table Employee :=
  mkTable Employee Employees employees
    (fun l d => mkDB (companies d) (users d) l (time_entries d))
    (fun l r =>
       negb (existsb (fun x => em_id x =? em_id r) l)
       && negb (existsb (fun x => (em_number x =? em_number r)
                                  && (em_company_id x =? em_company_id r))
                  l)).

(** [time_entries]: [id TEXT PRIMARY KEY]. *)
Definition time_entries_t : table TimeEntry :=
  mkTable TimeEntry TimeEntries time_entries
    (fun l d => mkDB (companies d) (users d) (employees d) l)
    (fun l r => negb (existsb (fun x => te_id x =? te_id r) l)).

Definition set_pending (d : DB) (c : Conn) : Conn :=
  mkConn (committed c) d (session_new c) (log c).

(** [SELECT ... FROM t WHERE where_]: the matching rows, in table order. *)
Definition select {R} (t : table R) (where_ : R -> bool) : M (list R) :=
  fun c => (tell (SELECT (tbl t)) c, inr (filter where_ (rows t (pending c)))).

(** [INSERT INTO t VALUES r]: rejected when a key of [r] is already there. *)
Definition insert {R} (t : table R) (r : R) : M unit :=
  fun c =>
    let l := rows t (pending c) in
    if admits t l r
    then (tell (INSERT (tbl t))
            (set_pending (with_rows t (l ++ [r]) (pending c)) c),
          inr tt)
    else (tell (INSERT (tbl t)) c, inl IntegrityError).

(** [UPDATE t SET set WHERE where_] for a [set] that touches no key column. *)
Definition update {R} (t : table R) (set : R -> R) (where_ : R -> bool)
  : M unit :=
  fun c =>
    let l :=
      map (fun r => if where_ r then set r else r) (rows t (pending c)) in
    (tell (UPDATE (tbl t)) (set_pending (with_rows t l (pending c)) c),
     inr tt).

(** [DELETE FROM t WHERE where_]. *)
Definition delete {R} (t : table R) (where_ : R -> bool) : M unit :=
  fun c =>
    let l := filter (fun r => negb (where_ r)) (rows t (pending c)) in
    (tell (DELETE (tbl t)) (set_pending (with_rows t l (pending c)) c),
     inr tt).

(** [cursor.fetchone()]: the first row of the result, if any. *)
Definition fetchone {R} (cursor : list R) : option R := hd_error cursor.

(** [db.commit()] of the sqlite connection. *)
Definition commit : M unit :=
  fun c =>
    (tell COMMIT (mkConn (pending c) (pending c) (session_new c) (log c)),
     inr tt).

(** SQLAlchemy's [result.scalar_one_or_none()]. *)
Definition scalar_one_or_none {R} (result : list R) : M (option R) :=
  match result with
  | [] => ret None
  | [r] => ret (Some r)
  | _ :: _ :: _ => raise MultipleResultsFound
  end.

(** [db.add(obj)]: the object waits in the session until the flush. *)
Definition add (r : Row) : M unit :=
  fun c => (mkConn (committed c) (pending c) (session_new c ++ [r]) (log c),
            inr tt).

Definition insert_row (r : Row) : M unit :=
  match r with
  | CompanyRow c => insert companies_t c
  | UserRow u => insert users_t u
  end.

Fixpoint flush (new : list Row) : M unit :=
  match new with
  | [] => ret tt
  | r :: new' => insert_row r ;;; flush new'
  end.

(** [await db.commit()] of an [AsyncSession]: flush the added objects in the
    order they were added, then commit. *)
Definition session_commit : M unit :=
  fun c =>
    (flush (session_new c) ;;;
     (fun c' => (mkConn (committed c') (pending c') [] (log c'), inr tt)) ;;;
     commit) c.

(** ** WHERE and SET clauses of the scan statements *)

(** [WHERE number = ? AND company_id = ?] on [employees]. *)
Definition where_number (number company_id : string) (e : Employee) : bool :=
  (em_number e =? number) && (em_company_id e =? company_id).

(** [WHERE employee_id = ? AND date = ? AND status = ?] on [time_entries],
    the status being ["working"]. *)
Definition where_working (employee_id date : string) (t : TimeEntry) : bool :=
  (te_employee_id t =? employee_id) && (te_date t =? date)
  && (te_status t =? "working").

(** [SET check_out = ?, status = ?, last_scan_time = ?] with the check-out
    time, ["completed"] and the check-out time again. *)
Definition checked_out (check_out_time : Z) (t : TimeEntry) : TimeEntry :=
  mkTimeEntry (te_id t) (te_employee_id t) (te_check_in t)
    (Some check_out_time) (te_date t) "completed" (Some check_out_time).

(** ** Handlers of [src/deployment/api/server.py] *)

Module Server.

(** *** [scan_qr] *)

Record QRScanRequest : Type := mkQRScanRequest { qr_data : string }.

(** What one execution of [scan_qr] reads from its environment, in source
    order: [datetime.now().strftime("%Y-%m-%d")], [datetime.now()], then the
    [datetime.now()] of the branch taken ([check_out_time] or
    [check_in_time]) and [str(uuid.uuid4())]. *)
Record ScanEnv : Type := mkScanEnv {
  today : string;
  current_time : Z;
  stamp_time : Z;
  entry_id : string
}.

(** The JSON object returned by a scan; [time] is the datetime whose
    [%H:%M:%S] rendering the source sends. *)
Record ScanResponse : Type := mkScanResponse {
  action : string;
  employee : string;
  time : Z;
  message : string;
  cooldown_seconds : Z
}.

Definition COOLDOWN_SECONDS : Z := 5.

Definition microseconds : Z := 1000000.

(** [int(COOLDOWN_SECONDS - time_diff)], with [time_diff] the
    [total_seconds()] of a difference given here in microseconds. *)
Definition remaining_seconds (time_diff : Z) : Z :=
  Z.quot (COOLDOWN_SECONDS * microseconds - time_diff) microseconds.

(** [except HTTPException: raise] / [except Exception as e: raise
    HTTPException(status_code=400, detail="Invalid QR code format")]. *)
Definition try_except {A} (body : M A) : M A :=
  fun c =>
    match body c with
    | (c', inl (HTTPException s d)) => (c', inl (HTTPException s d))
    | (c', inl _) =>
        (c', inl (HTTPException 400 (Text "Invalid QR code format")))
    | (c', inr a) => (c', inr a)
    end.

Definition lift {A} (r : Exn + A) : M A :=
  match r with
  | inl e => raise e
  | inr a => ret a
  end.

(** [company_id] is the value of [Depends(get_company_context)], the company
    of the authenticated caller.  The prefix test of the source stands before
    its [try]; it is part of [Codec.decode] here, whose [HTTPException]s the
    [except] clauses pass on unchanged. *)
Definition scan_qr (scan_data : QRScanRequest) (company_id : string)
  (env : ScanEnv) : M ScanResponse :=
  let qr_data := qr_data scan_data in
  employee <- try_except (
    fields <- lift (Codec.decode qr_data) ;;
    let '(qr_company_id, employee_number) := fields in
    if negb (qr_company_id =? company_id)
    then raise (HTTPException 403 (Text "QR kod nie należy do Twojej firmy"))
    else
      cursor <- select employees_t
                  (where_number employee_number company_id) ;;
      match fetchone cursor with
      | None => raise (HTTPException 404 (Text "Employee not found"))
      | Some employee => ret employee
      end) ;;
  let today := today env in
  let current_time := current_time env in
  cursor <- select time_entries_t
              (where_working (em_id employee) today) ;;
  match fetchone cursor with
  | Some existing_entry =>
      let check_out :=
        let check_out_time := stamp_time env in
        update time_entries_t (checked_out check_out_time)
          (fun t => te_id t =? te_id existing_entry) ;;;
        commit ;;;
        ret (mkScanResponse "check_out"
               (em_name employee ++ " " ++ em_surname employee)
               check_out_time
               "Pomyślnie zakończono pracę"
               COOLDOWN_SECONDS) in
      match te_last_scan_time existing_entry with
      | Some last_scan =>
          let time_diff := (current_time - last_scan)%Z in
          if (time_diff <? COOLDOWN_SECONDS * microseconds)%Z
          then
            let remaining_seconds := remaining_seconds time_diff in
            raise (HTTPException 429 (Poczekaj remaining_seconds))
          else check_out
      | None => check_out
      end
  | None =>
      let check_in_time := stamp_time env in
      let entry_id := entry_id env in
      insert time_entries_t
        (mkTimeEntry entry_id (em_id employee) (Some check_in_time) None
           today "working" (Some check_in_time)) ;;;
      commit ;;;
      ret (mkScanResponse "check_in"
             (em_name employee ++ " " ++ em_surname employee)
             check_in_time
             "Pomyślnie rozpoczęto pracę"
             COOLDOWN_SECONDS)
  end.

(** *** [delete_employee] *)

Definition delete_employee (employee_id company_id : string) : M string :=
  delete employees_t
    (fun e => (em_id e =? employee_id) && (em_company_id e =? company_id)) ;;;
  delete time_entries_t (fun t => te_employee_id t =? employee_id) ;;;
  commit ;;;
  ret "Employee deleted successfully".

(** *** [register_company] *)

Record CompanyRegistration : Type := mkCompanyRegistration {
  company_name : string;
  admin_username : string;
  admin_email : string;
  admin_password : string
}.

(** Environment of one [register_company]: the two uuids, the two
    [datetime.utcnow()] readings and the bcrypt hash of the password. *)
Record RegisterEnv : Type := mkRegisterEnv {
  company_uuid : string;
  company_created_at : Z;
  admin_user_uuid : string;
  password_hash : string;
  admin_created_at : Z
}.

(** The claims put into the access token (its expiry and signature are left
    out) and the [user] object of the [Token] response. *)
Record Claims : Type := mkClaims {
  sub : string;
  claim_company_id : string;
  claim_role : string;
  claim_type : string
}.

Record TokenUser : Type := mkTokenUser {
  tu_id : string;
  tu_username : string;
  tu_email : string;
  tu_role : string;
  tu_company_id : string;
  tu_type : string
}.

Record Token : Type := mkToken {
  access_token : Claims;
  token_type : string;
  user : TokenUser
}.

Definition register_company (company_data : CompanyRegistration)
  (env : RegisterEnv) : M Token :=
  cursor <- select companies_t
              (fun c => co_name c =? company_name company_data) ;;
  match fetchone cursor with
  | Some existing_company =>
      raise (HTTPException 400 (Text "Firma o tej nazwie już istnieje"))
  | None =>
      cursor <- select users_t
                  (fun u => us_username u =? admin_username company_data) ;;
      match fetchone cursor with
      | Some existing_user =>
          raise (HTTPException 400 (Text "Nazwa użytkownika już istnieje"))
      | None =>
          let company_id := company_uuid env in
          insert companies_t
            (mkCompany company_id (company_name company_data) "system"
               (company_created_at env)) ;;;
          let admin_user_id := admin_user_uuid env in
          insert users_t
            (mkUser admin_user_id (admin_username company_data)
               (admin_email company_data) (password_hash env) "admin"
               company_id (admin_created_at env)) ;;;
          commit ;;;
          ret (mkToken
                 (mkClaims (admin_username company_data) company_id
                    "admin" "user")
                 "bearer"
                 (mkTokenUser admin_user_id (admin_username company_data)
                    (admin_email company_data) "admin" company_id "user"))
      end
  end.

End Server.

(** ** Handlers of [src/backend/server_mysql_part2.py] *)

Module ServerMysql.

Record Owner : Type := mkOwner {
  ow_id : string;
  ow_username : string;
  ow_email : string;
  ow_password_hash : string;
  ow_created_at : Z
}.

Record CompanyCreate : Type := mkCompanyCreate {
  name : string;
  admin_username : string;
  admin_email : string;
  admin_password : string
}.

(** Environment of one [create_company]: the uuids, the bcrypt hash, and the
    [datetime.utcnow] column defaults taken at the flush. *)
Record CreateEnv : Type := mkCreateEnv {
  company_uuid : string;
  admin_user_uuid : string;
  password_hash : string;
  company_created_at : Z;
  admin_created_at : Z
}.

Record CompanyInfo : Type := mkCompanyInfo {
  ci_id : string;
  ci_name : string;
  ci_owner_id : string;
  ci_created_at : Z
}.

Record AdminInfo : Type := mkAdminInfo {
  ai_id : string;
  ai_username : string;
  ai_email : string;
  ai_role : string
}.

Record CreateResponse : Type := mkCreateResponse {
  cr_message : string;
  cr_company : CompanyInfo;
  cr_admin_user : AdminInfo
}.

Definition create_company (company_data : CompanyCreate)
  (current_owner : Owner) (env : CreateEnv) : M CreateResponse :=
  existing_company_result <-
    select companies_t (fun c => co_name c =? name company_data) ;;
  existing_company <- scalar_one_or_none existing_company_result ;;
  match existing_company with
  | Some _ =>
      raise (HTTPException 400 (Text "Firma o tej nazwie już istnieje"))
  | None =>
      existing_user_result <-
        select users_t
          (fun u => us_username u =? admin_username company_data) ;;
      existing_user <- scalar_one_or_none existing_user_result ;;
      match existing_user with
      | Some _ =>
          raise (HTTPException 400 (Text "Nazwa użytkownika już istnieje"))
      | None =>
          let company_id := company_uuid env in
          let new_company :=
            mkCompany company_id (name company_data) (ow_id current_owner)
              (company_created_at env) in
          add (CompanyRow new_company) ;;;
          let admin_user_id := admin_user_uuid env in
          let admin_user :=
            mkUser admin_user_id (admin_username company_data)
              (admin_email company_data) (password_hash env) "admin"
              company_id (admin_created_at env) in
          add (UserRow admin_user) ;;;
          session_commit ;;;
          ret (mkCreateResponse "Company created successfully"
                 (mkCompanyInfo company_id (name company_data)
                    (ow_id current_owner) (co_created_at new_company))
                 (mkAdminInfo admin_user_id (admin_username company_data)
                    (admin_email company_data) "admin"))
      end
  end.

Definition delete_company (company_id : string) (current_owner : Owner)
  : M string :=
  company_result <- select companies_t (fun c => co_id c =? company_id) ;;
  company <- scalar_one_or_none company_result ;;
  match company with
  | None => raise (HTTPException 404 (Text "Company not found"))
  | Some _ =>
      employees_result <-
        select employees_t (fun e => em_company_id e =? company_id) ;;
      let employee_ids := map em_id employees_result in
      match employee_ids with
      | _ :: _ =>
          delete time_entries_t
            (fun t => existsb (String.eqb (te_employee_id t)) employee_ids)
      | [] => ret tt
      end ;;;
      delete users_t (fun u => us_company_id u =? company_id) ;;;
      delete employees_t (fun e => em_company_id e =? company_id) ;;;
      delete companies_t (fun c => co_id c =? company_id) ;;;
      session_commit ;;;
      ret "Company and all its data deleted successfully"
  end.

End ServerMysql.

(** ** Queries and invariants used to state the properties *)

(** The row that [scan_qr] fetches from [employees]. *)
Definition employee_by_number (db : DB) (number company_id : string)
  : option Employee :=
  fetchone (filter (where_number number company_id) (employees db)).

(** The row that [scan_qr] fetches from [time_entries]: the open session of
    the employee today, if any. *)
Definition working_entry (db : DB) (employee_id date : string)
  : option TimeEntry :=
  fetchone (filter (where_working employee_id date) (time_entries db)).



(** The PRIMARY KEY of [time_entries]. *)
Definition entry_ids_unique (db : DB) : Prop :=
  NoDup (map te_id (time_entries db)).

(** The cooldown test of [scan_qr] on the open entry it found: the entry
    has a [last_scan_time] and less than [COOLDOWN_SECONDS] have passed. *)
Definition cooling_down (current_time : Z) (existing_entry : TimeEntry)
  : bool :=
  match te_last_scan_time existing_entry with
  | Some last_scan =>
      (current_time - last_scan
       <? Server.COOLDOWN_SECONDS * Server.microseconds)%Z
  | None => false
  end.

(** The row a check-in INSERTs and the table after a check-out UPDATE. *)
Definition check_in_entry (employee : Employee) (env : Server.ScanEnv)
  : TimeEntry :=
  mkTimeEntry (Server.entry_id env) (em_id employee)
    (Some (Server.stamp_time env)) None (Server.today env) "working"
    (Some (Server.stamp_time env)).

Definition check_out_rows (existing_entry : TimeEntry) (env : Server.ScanEnv)
  (l : list TimeEntry) : list TimeEntry :=
  map (fun t => if te_id t =? te_id existing_entry
                then checked_out (Server.stamp_time env) t else t) l.

Definition employee_label (employee : Employee) : string :=
  em_name employee ++ " " ++ em_surname employee.

(** The database after a sequence of scans, each one run to completion
    before the next starts. *)
Fixpoint scans (l : list (Server.QRScanRequest * string * Server.ScanEnv))
  (db : DB) : DB :=
  match l with
  | [] => db
  | (scan_data, company_id, env) :: l' =>
      scans l' (snd (fst (run (Server.scan_qr scan_data company_id env) db)))
  end.

(** Whether a company of that name, or a user of that username, is stored:
    the two existence checks of company creation. *)
Definition name_taken (db : DB) (name : string) : bool :=
  existsb (fun c => co_name c =? name) (companies db).

Definition username_taken (db : DB) (username : string) : bool :=
  existsb (fun u => us_username u =? username) (users db).

(** Company names are unique (kept by the creation handlers); usernames are
    unique (the UNIQUE constraint of [users]); company ids are unique (the
    primary key). *)
Definition company_names_unique (db : DB) : Prop :=
  NoDup (map co_name (companies db)).

Definition usernames_unique (db : DB) : Prop :=
  NoDup (map us_username (users db)).

Definition company_ids_unique (db : DB) : Prop :=
  NoDup (map co_id (companies db)).

(** A company has an admin: some user of the company has the role admin. *)
Definition has_admin (db : DB) (c : Company) : Prop :=
  exists u, In u (users db) /\ us_company_id u = co_id c /\ us_role u = "admin".

Definition every_company_has_admin (db : DB) : Prop :=
  forall c, In c (companies db) -> has_admin db c.

(** The two rows [register_company] inserts, and the two [create_company]
    adds to its session. *)
Definition registered_company (company_data : Server.CompanyRegistration)
  (env : Server.RegisterEnv) : Company :=
  mkCompany (Server.company_uuid env) (Server.company_name company_data)
    "system" (Server.company_created_at env).

Definition registered_admin (company_data : Server.CompanyRegistration)
  (env : Server.RegisterEnv) : User :=
  mkUser (Server.admin_user_uuid env) (Server.admin_username company_data)
    (Server.admin_email company_data) (Server.password_hash env) "admin"
    (Server.company_uuid env) (Server.admin_created_at env).

Definition created_company (company_data : ServerMysql.CompanyCreate)
  (current_owner : ServerMysql.Owner) (env : ServerMysql.CreateEnv)
  : Company :=
  mkCompany (ServerMysql.company_uuid env) (ServerMysql.name company_data)
    (ServerMysql.ow_id current_owner) (ServerMysql.company_created_at env).

Definition created_admin (company_data : ServerMysql.CompanyCreate)
  (env : ServerMysql.CreateEnv) : User :=
  mkUser (ServerMysql.admin_user_uuid env)
    (ServerMysql.admin_username company_data)
    (ServerMysql.admin_email company_data) (ServerMysql.password_hash env)
    "admin" (ServerMysql.company_uuid env) (ServerMysql.admin_created_at env).

(** The [employee_ids] list of [delete_company]. *)
Definition company_employee_ids (db : DB) (company_id : string)
  : list string :=
  map em_id (filter (fun e => em_company_id e =? company_id) (employees db)).

(** The payload form [EMP_<companyId>_<employeeNumber>_<randomSuffix>] of
    the specification: the prefix and four underscore-separated fields. *)
Definition well_formed_payload_spec (qr_data : string) : Prop :=
  Py.startswith qr_data "EMP_" = true /\ Codec.field_count qr_data = 4%nat.

(** ** Employee management of [src/deployment/api/server.py] *)

Module ServerEmployees.

Record EmployeeCreate : Type := mkEmployeeCreate {
  name : string;
  surname : string;
  position : string;
  number : string
}.

(** Environment of one [create_employee]: the uuid whose first eight
    characters end the payload, the uuid of the row, the
    [datetime.utcnow()] of the INSERT and the one that the returned
    [Employee] model takes as its default. *)
Record CreateEnv : Type := mkCreateEnv {
  qr_uuid : string;
  employee_uuid : string;
  created_at : Z;
  response_created_at : Z
}.

(** [generate_qr_code]: the data URL around the base64 text of the rendered
    PNG; the rendering [png_base64] is the work of the qrcode library. *)
Definition generate_qr_code (png_base64 : string -> string) (data : string)
  : string :=
  "data:image/png;base64," ++ png_base64 data.

(** The payload [create_employee] renders: [str(uuid.uuid4())[:8]] is the
    suffix. *)
Definition qr_data (company_id : string) (employee_data : EmployeeCreate)
  (env : CreateEnv) : string :=
  Codec.qr_data company_id (number employee_data)
    (substring 0 8 (qr_uuid env)).

Definition create_employee (png_base64 : string -> string)
  (employee_data : EmployeeCreate) (company_id : string) (env : CreateEnv)
  : M Employee :=
  cursor <- select employees_t
              (where_number (number employee_data) company_id) ;;
  match fetchone cursor with
  | Some existing_employee =>
      raise (HTTPException 400
               (Text "Numer pracownika już istnieje w tej firmie"))
  | None =>
      let qr_data := qr_data company_id employee_data env in
      let qr_code := generate_qr_code png_base64 qr_data in
      let employee_id := employee_uuid env in
      insert employees_t
        (mkEmployee employee_id (name employee_data) (surname employee_data)
           (position employee_data) (number employee_data) qr_code
           company_id (created_at env)) ;;;
      commit ;;;
      ret (mkEmployee employee_id (name employee_data)
             (surname employee_data) (position employee_data)
             (number employee_data) qr_code company_id
             (response_created_at env))
  end.

(** The row [create_employee] inserts. *)
Definition new_employee (png_base64 : string -> string)
  (employee_data : EmployeeCreate) (company_id : string) (env : CreateEnv)
  : Employee :=
  mkEmployee (employee_uuid env) (name employee_data) (surname employee_data)
    (position employee_data) (number employee_data)
    (generate_qr_code png_base64 (qr_data company_id employee_data env))
    company_id (created_at env).

Record EmployeeUpdate : Type := mkEmployeeUpdate {
  new_name : option string;
  new_surname : option string;
  new_position : option string;
  new_number : option string
}.

(** The SET clause [update_employee] builds: one assignment per field that
    is not [None]. *)
Definition set_fields (employee_data : EmployeeUpdate) (e : Employee)
  : Employee :=
  mkEmployee (em_id e)
    (match new_name employee_data with Some v => v | None => em_name e end)
    (match new_surname employee_data with
     | Some v => v
     | None => em_surname e
     end)
    (match new_position employee_data with
     | Some v => v
     | None => em_position e
     end)
    (match new_number employee_data with
     | Some v => v
     | None => em_number e
     end)
    (em_qr_code e) (em_company_id e) (em_created_at e).

(** [if update_fields:] *)
Definition has_fields (employee_data : EmployeeUpdate) : bool :=
  match new_name employee_data, new_surname employee_data,
        new_position employee_data, new_number employee_data with
  | None, None, None, None => false
  | _, _, _, _ => true
  end.

(** [UNIQUE(number, company_id)] on a list of rows. *)
Fixpoint numbers_unique (l : list Employee) : bool :=
  match l with
  | [] => true
  | e :: l' =>
      negb (existsb (where_number (em_number e) (em_company_id e)) l')
      && numbers_unique l'
  end.

(** [UPDATE employees SET ... WHERE ...], which may assign [number]: the
    statement is rejected when it would break [UNIQUE(number, company_id)]. *)
Definition update_employees (set : Employee -> Employee)
  (where_ : Employee -> bool) : M unit :=
  fun c =>
    let old := employees (pending c) in
    let l := map (fun r => if where_ r then set r else r) old in
    if numbers_unique old && negb (numbers_unique l)
    then (tell (UPDATE Employees) c, inl IntegrityError)
    else (tell (UPDATE Employees)
            (set_pending (with_rows employees_t l (pending c)) c),
          inr tt).

(** Exceptions of [update_employee]: those of the store and the handlers,
    and the [TypeError] of [dict(None)]. *)
Inductive PyExn : Type :=
| Raised (e : Exn)
| TypeError.

Definition M' (A : Type) : Type := Conn -> Conn * (PyExn + A).

Definition run' {A} (m : M' A) (db : DB) : (PyExn + A) * DB * list Stmt :=
  let '(c, r) := m (connect db) in (r, committed c, log c).

(** A computation of [M] inside [M']. *)
Definition raised {A} (m : M A) : M' A :=
  fun c =>
    match m c with
    | (c', inr a) => (c', inr a)
    | (c', inl e) => (c', inl (Raised e))
    end.

(** The [Employee] model built from [dict(row)]; [dict(None)] raises. *)
Definition employee_of_row (row : option Employee) : M' Employee :=
  fun c =>
    match row with
    | Some e => (c, inr e)
    | None => (c, inl TypeError)
    end.

Definition where_id (employee_id company_id : string) (e : Employee) : bool :=
  (em_id e =? employee_id) && (em_company_id e =? company_id).

Definition update_employee (employee_id : string)
  (employee_data : EmployeeUpdate) (company_id : string) : M' Employee :=
  fun c =>
    match
      raised
        (cursor <- select employees_t (where_id employee_id company_id) ;;
         match fetchone cursor with
         | None => raise (HTTPException 404 (Text "Employee not found"))
         | Some employee =>
             match new_number employee_data with
             | Some number =>
                 cursor <- select employees_t
                             (fun e => where_number number company_id e
                                       && negb (em_id e =? employee_id)) ;;
                 match fetchone cursor with
                 | Some existing =>
                     raise (HTTPException 400
                              (Text "Numer pracownika już istnieje w tej firmie"))
                 | None => ret tt
                 end
             | None => ret tt
             end ;;;
             (if has_fields employee_data
              then update_employees (set_fields employee_data)
                     (where_id employee_id company_id) ;;;
                   commit
              else ret tt) ;;;
             cursor <- select employees_t (where_id employee_id company_id) ;;
             ret (fetchone cursor)
         end) c
    with
    | (c', inr updated_employee) => employee_of_row updated_employee c'
    | (c', inl e) => (c', inl e)
    end.

End ServerEmployees.

(** ** User management of [src/deployment/api/server.py] *)

Module ServerUsers.

Record UserCreate : Type := mkUserCreate {
  username : string;
  email : string;
  password : string;
  role : string        (* "user" when the request leaves it out *)
}.

Record CreateEnv : Type := mkCreateEnv {
  new_user_uuid : string;
  password_hash : string;
  created_at : Z
}.

Record UserInfo : Type := mkUserInfo {
  ui_id : string;
  ui_username : string;
  ui_email : string;
  ui_role : string;
  ui_company_id : string
}.

(** The row [create_company_user] inserts: the company is the admin's. *)
Definition new_user (user_data : UserCreate) (current_user : User)
  (env : CreateEnv) : User :=
  mkUser (new_user_uuid env) (username user_data) (email user_data)
    (password_hash env) (role user_data) (us_company_id current_user)
    (created_at env).

(** [current_user] is the row returned by [Depends(get_admin_user)]. *)
Definition create_company_user (user_data : UserCreate) (current_user : User)
  (env : CreateEnv) : M UserInfo :=
  cursor <- select users_t (fun u => us_username u =? username user_data) ;;
  match fetchone cursor with
  | Some existing_user =>
      raise (HTTPException 400 (Text "Nazwa użytkownika już istnieje"))
  | None =>
      let new_user_id := new_user_uuid env in
      insert users_t
        (mkUser new_user_id (username user_data) (email user_data)
           (password_hash env) (role user_data) (us_company_id current_user)
           (created_at env)) ;;;
      commit ;;;
      ret (mkUserInfo new_user_id (username user_data) (email user_data)
             (role user_data) (us_company_id current_user))
  end.

(** [WHERE id = ? AND company_id = ?] on [users]. *)
Definition where_user (user_id company_id : string) (u : User) : bool :=
  (us_id u =? user_id) && (us_company_id u =? company_id).

Definition delete_company_user (user_id : string) (current_user : User)
  : M string :=
  cursor <- select users_t
              (where_user user_id (us_company_id current_user)) ;;
  match fetchone cursor with
  | None => raise (HTTPException 404 (Text "User not found"))
  | Some user_to_delete =>
      if user_id =? us_id current_user
      then raise (HTTPException 400
                    (Text "Nie możesz usunąć własnego konta"))
      else
        delete users_t (where_user user_id (us_company_id current_user)) ;;;
        commit ;;;
        ret "User deleted successfully"
  end.

End ServerUsers.

(** ** Authentication dependencies of [src/deployment/api/server.py]

    The bearer token is taken as decoded: [None] when [jwt.decode] raises
    [PyJWTError], otherwise the claims it returns, each one absent or
    present.  The [owners] table, outside [DB], is passed as the list of its
    rows, and reading it leaves no entry in the statement log. *)

Module ServerAuth.

Record Payload : Type := mkPayload {
  p_sub : option string;
  p_type : option string;
  p_company_id : option string;
  p_role : option string
}.

(** [{"type": "owner", "data": ...}] or [{"type": "user", "data": ...}] *)
Inductive Auth : Type :=
| OwnerAuth (data : ServerMysql.Owner)
| UserAuth (data : User).

Definition credentials_exception : Exn :=
  HTTPException 401 (Text "Could not validate credentials").

Definition get_current_user (owners : list ServerMysql.Owner)
  (decoded : option Payload) : M Auth :=
  match decoded with
  | None => raise credentials_exception
  | Some payload =>
      match p_sub payload with
      | None => raise credentials_exception
      | Some username =>
          let user_type :=
            match p_type payload with
            | Some t => t
            | None => "user"
            end in
          if user_type =? "owner"
          then
            match fetchone
                    (filter (fun o => ServerMysql.ow_username o =? username)
                       owners) with
            | None => raise credentials_exception
            | Some owner_row => ret (OwnerAuth owner_row)
            end
          else
            match p_company_id payload with
            | None => raise credentials_exception
            | Some company_id =>
                cursor <- select users_t
                            (fun u => (us_username u =? username)
                                      && (us_company_id u =? company_id)) ;;
                match fetchone cursor with
                | None => raise credentials_exception
                | Some user_row => ret (UserAuth user_row)
                end
            end
      end
  end.

Definition get_current_owner (current_auth : Auth) : M ServerMysql.Owner :=
  match current_auth with
  | OwnerAuth data => ret data
  | UserAuth _ => raise (HTTPException 403 (Text "Owner access required"))
  end.

Definition get_current_regular_user (current_auth : Auth) : M User :=
  match current_auth with
  | UserAuth data => ret data
  | OwnerAuth _ =>
      raise (HTTPException 403 (Text "Regular user access required"))
  end.

Definition get_admin_user (current_user : User) : M User :=
  if negb (us_role current_user =? "admin")
  then raise (HTTPException 403 (Text "Not enough permissions"))
  else ret current_user.

Definition get_company_context (current_user : User) : M string :=
  ret (us_company_id current_user).

(** The dependencies of an admin endpoint, in the order of its parameters:
    [company_id = Depends(get_company_context)] and
    [current_user = Depends(get_admin_user)], both over the one
    [get_current_regular_user] of the request. *)
Definition admin_dependencies (owners : list ServerMysql.Owner)
  (decoded : option Payload) : M (string * User) :=
  current_auth <- get_current_user owners decoded ;;
  regular_user <- get_current_regular_user current_auth ;;
  company_id <- get_company_context regular_user ;;
  current_user <- get_admin_user regular_user ;;
  ret (company_id, current_user).

(** The claims of a token issued by [register_company], as [jwt.decode]
    returns them while the token is valid. *)
Definition decoded_claims (claims : Server.Claims) : Payload :=
  mkPayload (Some (Server.sub claims)) (Some (Server.claim_type claims))
    (Some (Server.claim_company_id claims)) (Some (Server.claim_role claims)).

Record UserLogin : Type := mkUserLogin {
  username : string;
  password : string
}.

Record LoginUser : Type := mkLoginUser {
  lu_id : string;
  lu_username : string;
  lu_email : string;
  lu_role : option string;
  lu_company_id : option string;
  lu_type : string
}.

(** The [Token] response of [login]; the access token is given by the claims
    put into it. *)
Record LoginToken : Type := mkLoginToken {
  access_token : Payload;
  token_type : string;
  user : LoginUser
}.

(** [verify_password] is passlib's [pwd_context.verify]. *)
Definition login (verify_password : string -> string -> bool)
  (owners : list ServerMysql.Owner) (user_data : UserLogin) : M LoginToken :=
  let as_user :=
    cursor <- select users_t (fun u => us_username u =? username user_data) ;;
    match fetchone cursor with
    | Some user_row =>
        if verify_password (password user_data) (us_password_hash user_row)
        then
          ret (mkLoginToken
                 (mkPayload (Some (us_username user_row)) (Some "user")
                    (Some (us_company_id user_row)) (Some (us_role user_row)))
                 "bearer"
                 (mkLoginUser (us_id user_row) (us_username user_row)
                    (us_email user_row) (Some (us_role user_row))
                    (Some (us_company_id user_row)) "user"))
        else raise (HTTPException 401 (Text "Incorrect username or password"))
    | None => raise (HTTPException 401 (Text "Incorrect username or password"))
    end in
  match fetchone
          (filter (fun o => ServerMysql.ow_username o =? username user_data)
             owners) with
  | Some owner_row =>
      if verify_password (password user_data)
           (ServerMysql.ow_password_hash owner_row)
      then
        ret (mkLoginToken
               (mkPayload (Some (ServerMysql.ow_username owner_row))
                  (Some "owner") None None)
               "bearer"
               (mkLoginUser (ServerMysql.ow_id owner_row)
                  (ServerMysql.ow_username owner_row)
                  (ServerMysql.ow_email owner_row) None None "owner"))
      else as_user
  | None => as_user
  end.

End ServerAuth.

(** ** Startup of [src/deployment/api/server.py] *)

Module ServerStartup.

Record OwnerEnv : Type := mkOwnerEnv {
  owner_id : string;       (* str(uuid.uuid4()) *)
  password_hash : string;  (* get_password_hash("owner123") *)
  created_at : Z           (* datetime.utcnow() *)
}.

(** [create_default_owner] on the rows of [owners] ([id] PRIMARY KEY,
    [username] UNIQUE): the rows after its commit, or the exception of the
    rejected INSERT. *)
Definition create_default_owner (owners : list ServerMysql.Owner)
  (env : OwnerEnv) : Exn + list ServerMysql.Owner :=
  match fetchone
          (filter (fun o => ServerMysql.ow_username o =? "owner") owners) with
  | Some existing => inr owners
  | None =>
      let row :=
        ServerMysql.mkOwner (owner_id env) "owner" "owner@system.com"
          (password_hash env) (created_at env) in
      if negb (existsb (fun o => ServerMysql.ow_id o =? owner_id env) owners)
         && negb (existsb (fun o => ServerMysql.ow_username o =? "owner")
                    owners)
      then inr (owners ++ [row])
      else inl IntegrityError
  end.

End ServerStartup.

(** ** Owner endpoints and authentication of
    [src/backend/server_mysql_part2.py] *)

Module ServerMysqlOwner.

(** [get_current_user] of the MySQL backend: the same decisions as in the
    SQLite file, its rows read with [scalar_one_or_none]. *)
Definition get_current_user (owners : list ServerMysql.Owner)
  (decoded : option ServerAuth.Payload) : M ServerAuth.Auth :=
  match decoded with
  | None => raise ServerAuth.credentials_exception
  | Some payload =>
      match ServerAuth.p_sub payload with
      | None => raise ServerAuth.credentials_exception
      | Some username =>
          let user_type :=
            match ServerAuth.p_type payload with
            | Some t => t
            | None => "user"
            end in
          if user_type =? "owner"
          then
            owner_row <-
              scalar_one_or_none
                (filter (fun o => ServerMysql.ow_username o =? username)
                   owners) ;;
            match owner_row with
            | None => raise ServerAuth.credentials_exception
            | Some owner_row => ret (ServerAuth.OwnerAuth owner_row)
            end
          else
            match ServerAuth.p_company_id payload with
            | None => raise ServerAuth.credentials_exception
            | Some company_id =>
                result <- select users_t
                            (fun u => (us_username u =? username)
                                      && (us_company_id u =? company_id)) ;;
                user_row <- scalar_one_or_none result ;;
                match user_row with
                | None => raise ServerAuth.credentials_exception
                | Some user_row => ret (ServerAuth.UserAuth user_row)
                end
            end
      end
  end.

(** One element of the list answered by [get_all_companies]. *)
Record CompanyLine : Type := mkCompanyLine {
  cl_id : string;
  cl_name : string;
  cl_owner_id : string;
  cl_created_at : Z;
  admin_count : nat;
  user_count : nat;
  employee_count : nat
}.

(** The loop [for company in companies] with its three counting queries. *)
Fixpoint company_lines (companies : list Company) : M (list CompanyLine) :=
  match companies with
  | [] => ret []
  | company :: companies' =>
      admins <- select users_t
                  (fun u => (us_company_id u =? co_id company)
                            && (us_role u =? "admin")) ;;
      let admin_count := length admins in
      all_users <- select users_t
                     (fun u => us_company_id u =? co_id company) ;;
      let user_count := length all_users in
      all_employees <- select employees_t
                         (fun e => em_company_id e =? co_id company) ;;
      let employee_count := length all_employees in
      let company_data :=
        mkCompanyLine (co_id company) (co_name company)
          (co_owner_id company) (co_created_at company) admin_count
          user_count employee_count in
      result_list <- company_lines companies' ;;
      ret (company_data :: result_list)
  end.

Definition get_all_companies (current_owner : ServerMysql.Owner)
  : M (list CompanyLine) :=
  companies <- select companies_t (fun _ => true) ;;
  company_lines companies.

End ServerMysqlOwner.

(** The line of a company in the owner's listing, read off a database. *)
Definition company_line (db : DB) (company : Company)
  : ServerMysqlOwner.CompanyLine :=
  ServerMysqlOwner.mkCompanyLine (co_id company) (co_name company)
    (co_owner_id company) (co_created_at company)
    (length (filter (fun u => (us_company_id u =? co_id company)
                              && (us_role u =? "admin")) (users db)))
    (length (filter (fun u => us_company_id u =? co_id company) (users db)))
    (length (filter (fun e => em_company_id e =? co_id company)
               (employees db))).

(** ** Invariants of the [employees] table *)

(** Whether the company already has an employee with that number: the
    existence check of [create_employee]. *)
Definition number_taken (db : DB) (number company_id : string) : bool :=
  existsb (where_number number company_id) (employees db).

(** [UNIQUE(number, company_id)] and the primary key of [employees]. *)
Definition employee_numbers_unique (db : DB) : Prop :=
  ServerEmployees.numbers_unique (employees db) = true.

Definition employee_ids_unique (db : DB) : Prop :=
  NoDup (map em_id (employees db)).

(** The columns of [UNIQUE(number, company_id)]. *)
Definition number_key (e : Employee) : string * string :=
  (em_number e, em_company_id e).

(** ** References between the tables *)

(** Every user and every employee belongs to a stored company; every time
    entry belongs to a stored employee. *)
Definition users_have_company (db : DB) : Prop :=
  forall u, In u (users db) -> In (us_company_id u) (map co_id (companies db)).

Definition employees_have_company (db : DB) : Prop :=
  forall e, In e (employees db) ->
            In (em_company_id e) (map co_id (companies db)).

Definition entries_have_employee (db : DB) : Prop :=
  forall t, In t (time_entries db) ->
            In (te_employee_id t) (map em_id (employees db)).

(** ** Codec lemmas *)

Lemma split_nonempty sep s : Py.split sep s <> [].
Proof.
  destruct s as [|c rest]; simpl; [discriminate|].
  destruct (Ascii.eqb c sep); [discriminate|].
  destruct (Py.split sep rest); discriminate.
Qed.

Lemma split_app_sep sep a b :
  Py.contains sep a = false ->
  Py.split sep (a ++ String sep b)%string = a :: Py.split sep b.
Proof.
  induction a as [|c a IH]; simpl; intros H.
  - now rewrite Ascii.eqb_refl.
  - apply orb_false_iff in H as [Hc Ha].
    rewrite Hc, (IH Ha). reflexivity.
Qed.

Lemma split_no_sep sep a :
  Py.contains sep a = false -> Py.split sep a = [a].
Proof.
  induction a as [|c a IH]; simpl; intros H; [reflexivity|].
  apply orb_false_iff in H as [Hc Ha].
  now rewrite Hc, (IH Ha).
Qed.

Lemma prefix_app p s : String.prefix p (p ++ s)%string = true.
Proof.
  induction p as [|c p IH]; simpl.
  - now destruct s.
  - destruct (ascii_dec c c); [exact IH | congruence].
Qed.

Lemma qr_data_split company_id number suffix :
  Py.contains Codec.underscore company_id = false ->
  Py.contains Codec.underscore number = false ->
  Py.split Codec.underscore (Codec.qr_data company_id number suffix)
  = "EMP" :: company_id :: number :: Py.split Codec.underscore suffix.
Proof.
  intros Hc Hn.
  change (Codec.qr_data company_id number suffix)
    with ("EMP" ++ String Codec.underscore
            (company_id ++ String Codec.underscore
               (number ++ String Codec.underscore suffix)))%string.
  rewrite split_app_sep by reflexivity.
  rewrite split_app_sep by exact Hc.
  rewrite split_app_sep by exact Hn.
  reflexivity.
Qed.

(** C4. Round trip of the QR identity codec: for a company id and an employee
    number that do not contain the separator [_], decoding the payload
    [EMP_<companyId>_<employeeNumber>_<suffix>] built by [create_employee]
    gives back exactly the pair (company id, employee number), whatever the
    suffix is. *)
Theorem decode_qr_data_roundtrip company_id number suffix :
  Py.contains Codec.underscore company_id = false ->
  Py.contains Codec.underscore number = false ->
  Codec.decode (Codec.qr_data company_id number suffix)
  = inr (company_id, number).
Proof.
  intros Hc Hn. unfold Codec.decode.
  rewrite (qr_data_split _ _ suffix Hc Hn).
  unfold Py.startswith, Codec.qr_data.
  rewrite prefix_app. simpl negb. cbv iota.
  destruct (Py.split Codec.underscore suffix) eqn:E.
  - now apply split_nonempty in E.
  - reflexivity.
Qed.

Lemma decode_qr_data_roundtrip_witness :
  Codec.decode
    (Codec.qr_data "3f2b8c1e-7a4d-4e0b-9c55-0d1e2f3a4b5c" "007" "a1b2c3d4")
  = inr ("3f2b8c1e-7a4d-4e0b-9c55-0d1e2f3a4b5c", "007").
Proof.
  apply (decode_qr_data_roundtrip
           "3f2b8c1e-7a4d-4e0b-9c55-0d1e2f3a4b5c" "007" "a1b2c3d4");
    reflexivity.
Defined.


(** The separator inside an employee number shifts the fields: the number
    [A_1] comes back as [A]. *)
Example decode_number_with_separator :
  Codec.decode (Codec.qr_data "co1" "A_1" "a1b2c3d4") = inr ("co1", "A").
Proof. reflexivity. Qed.

(** ** The handler monad *)

Lemma run_unfold {A} (m : M A) db :
  run m db = (snd (m (connect db)), committed (fst (m (connect db))),
              log (fst (m (connect db)))).
Proof. unfold run. now destruct (m (connect db)). Qed.

(** Evaluate the monadic skeleton of a handler, leaving the queries, the
    comparisons and the arithmetic of its body alone. *)
Ltac mred :=
  cbv beta iota delta
      [bind ret raise Server.lift Server.try_except
       select insert update delete commit add session_commit insert_row flush
       scalar_one_or_none tell set_pending connect
       committed pending log session_new
       tbl rows with_rows admits
       companies_t users_t employees_t time_entries_t];
  cbn [companies users employees time_entries fst snd app negb].

Ltac run_handler h := rewrite run_unfold; unfold h; mred.

(** ** [scan_qr], path by path *)

Lemma decode_error qr e :
  Codec.decode qr = inl e -> exists d, e = HTTPException 400 (Text d).
Proof.
  unfold Codec.decode.
  destruct (negb _); [intros [= <-]; eauto|].
  destruct (_ <? _)%nat; [intros [= <-]; eauto | discriminate].
Qed.

Section ScanPaths.

Import Server.

Variables (db : DB) (scan_data : QRScanRequest) (company_id : string)
          (env : ScanEnv).

Lemma scan_malformed e :
  Codec.decode (qr_data scan_data) = inl e ->
  run (scan_qr scan_data company_id env) db = (inl e, db, []).
Proof.
  intros H. destruct (decode_error _ _ H) as [d ->].
  run_handler scan_qr. rewrite H. mred. reflexivity.
Qed.

Lemma scan_cross_tenant qr_company_id employee_number :
  Codec.decode (qr_data scan_data) = inr (qr_company_id, employee_number) ->
  qr_company_id <> company_id ->
  run (scan_qr scan_data company_id env) db
  = (inl (HTTPException 403 (Text "QR kod nie należy do Twojej firmy")),
     db, []).
Proof.
  intros H Hne. apply String.eqb_neq in Hne.
  run_handler scan_qr. rewrite H. mred.
  rewrite Hne. mred. reflexivity.
Qed.

Lemma scan_unknown_employee employee_number :
  Codec.decode (qr_data scan_data) = inr (company_id, employee_number) ->
  employee_by_number db employee_number company_id = None ->
  run (scan_qr scan_data company_id env) db
  = (inl (HTTPException 404 (Text "Employee not found")), db,
     [SELECT Employees]).
Proof.
  intros H He. unfold employee_by_number in He.
  run_handler scan_qr. rewrite H. mred.
  rewrite String.eqb_refl. mred. rewrite He. reflexivity.
Qed.

(** From here on the payload decodes to the caller's company and the
    employee is found. *)
Variables (employee_number : string) (employee : Employee).
Hypothesis Hdecode :
  Codec.decode (qr_data scan_data) = inr (company_id, employee_number).
Hypothesis Hemployee :
  employee_by_number db employee_number company_id = Some employee.

Ltac to_entry_lookup :=
  run_handler scan_qr; rewrite Hdecode; mred;
  rewrite String.eqb_refl; mred;
  unfold employee_by_number in Hemployee; rewrite Hemployee; mred.

Lemma scan_cooldown existing_entry last_scan :
  working_entry db (em_id employee) (today env) = Some existing_entry ->
  te_last_scan_time existing_entry = Some last_scan ->
  (current_time env - last_scan < COOLDOWN_SECONDS * microseconds)%Z ->
  run (scan_qr scan_data company_id env) db
  = (inl (HTTPException 429
            (Poczekaj (remaining_seconds (current_time env - last_scan)))),
     db, [SELECT Employees; SELECT TimeEntries]).
Proof.
  intros Hw Hl Hlt. apply Z.ltb_lt in Hlt. unfold working_entry in Hw.
  to_entry_lookup. rewrite Hw, Hl, Hlt. reflexivity.
Qed.

Lemma scan_check_out existing_entry :
  working_entry db (em_id employee) (today env) = Some existing_entry ->
  cooling_down (current_time env) existing_entry = false ->
  run (scan_qr scan_data company_id env) db
  = (inr (mkScanResponse "check_out" (employee_label employee)
            (stamp_time env) "Pomyślnie zakończono pracę" COOLDOWN_SECONDS),
     with_rows time_entries_t
       (check_out_rows existing_entry env (time_entries db)) db,
     [SELECT Employees; SELECT TimeEntries; UPDATE TimeEntries; COMMIT]).
Proof.
  intros Hw Hc. unfold working_entry in Hw. unfold cooling_down in Hc.
  to_entry_lookup. rewrite Hw.
  destruct (te_last_scan_time existing_entry) as [last_scan|];
    [rewrite Hc|]; reflexivity.
Qed.

Lemma scan_check_in :
  working_entry db (em_id employee) (today env) = None ->
  admits time_entries_t (time_entries db) (check_in_entry employee env) = true ->
  run (scan_qr scan_data company_id env) db
  = (inr (mkScanResponse "check_in" (employee_label employee)
            (stamp_time env) "Pomyślnie rozpoczęto pracę" COOLDOWN_SECONDS),
     with_rows time_entries_t
       (time_entries db ++ [check_in_entry employee env]) db,
     [SELECT Employees; SELECT TimeEntries; INSERT TimeEntries; COMMIT]).
Proof.
  intros Hw Ha. unfold working_entry in Hw.
  to_entry_lookup. rewrite Hw.
  cbv beta iota delta [admits time_entries_t check_in_entry] in Ha.
  rewrite Ha. reflexivity.
Qed.

Lemma scan_id_collision :
  working_entry db (em_id employee) (today env) = None ->
  admits time_entries_t (time_entries db) (check_in_entry employee env) = false ->
  run (scan_qr scan_data company_id env) db
  = (inl IntegrityError, db,
     [SELECT Employees; SELECT TimeEntries; INSERT TimeEntries]).
Proof.
  intros Hw Ha. unfold working_entry in Hw.
  to_entry_lookup. rewrite Hw.
  cbv beta iota delta [admits time_entries_t check_in_entry] in Ha.
  rewrite Ha. reflexivity.
Qed.

End ScanPaths.

Lemma scan_bad_request db scan_data company_id env d :
  outcome (run (Server.scan_qr scan_data company_id env) db)
  = inl (HTTPException 400 d) ->
  exists e, Codec.decode (Server.qr_data scan_data) = inl e.
Proof.
  destruct (Codec.decode (Server.qr_data scan_data)) as [e|[qc n]] eqn:Hd;
    [eauto|].
  intros H. exfalso. revert H.
  destruct (String.eqb_spec qc company_id) as [->|Hne].
  2:{ now rewrite (scan_cross_tenant _ _ _ env _ _ Hd Hne). }
  destruct (employee_by_number db n company_id) as [employee|] eqn:He.
  2:{ now rewrite (scan_unknown_employee _ _ _ env _ Hd He). }
  destruct (working_entry db (em_id employee) (Server.today env))
    as [ex|] eqn:Hw.
  - destruct (cooling_down (Server.current_time env) ex) eqn:Hc.
    + unfold cooling_down in Hc.
      destruct (te_last_scan_time ex) as [last|] eqn:Hl; [|discriminate].
      apply Z.ltb_lt in Hc.
      now rewrite (scan_cooldown _ _ _ _ _ _ Hd He _ _ Hw Hl Hc).
    + now rewrite (scan_check_out _ _ _ _ _ _ Hd He _ Hw Hc).
  - destruct (admits time_entries_t (time_entries db)
                (check_in_entry employee env)) eqn:Ha.
    + now rewrite (scan_check_in _ _ _ _ _ _ Hd He Hw Ha).
    + now rewrite (scan_id_collision _ _ _ _ _ _ Hd He Hw Ha).
Qed.

(** ** Rejections of [scan_qr] *)

(** C3. Cross-tenant isolation: when the payload decodes to a company id
    different from the company of the authenticated caller, the scan fails
    with the 403 rejection, whatever the database holds (in particular when
    the encoded employee number exists under the caller's company); it has
    executed no statement and the database is unchanged. *)
Theorem scan_cross_tenant_forbidden
  (db : DB) (scan_data : Server.QRScanRequest) (company_id : string)
  (env : Server.ScanEnv) (qr_company_id employee_number : string) :
  Codec.decode (Server.qr_data scan_data)
  = inr (qr_company_id, employee_number) ->
  qr_company_id <> company_id ->
  run (Server.scan_qr scan_data company_id env) db
  = (inl (HTTPException 403 (Text "QR kod nie należy do Twojej firmy")),
     db, []).
Proof.
  intros Hd Hne.
  exact (scan_cross_tenant db scan_data company_id env _ _ Hd Hne).
Qed.

Lemma scan_cross_tenant_forbidden_witness :
  let db := mkDB [] []
              [mkEmployee "e1" "Jan" "Kowalski" "dev" "007" "png" "coB" 0] [] in
  employee_by_number db "007" "coB" <> None /\
  run (Server.scan_qr (Server.mkQRScanRequest "EMP_coA_007_a1b2c3d4") "coB"
         (Server.mkScanEnv "2024-01-01" 0 0 "t1")) db
  = (inl (HTTPException 403 (Text "QR kod nie należy do Twojej firmy")),
     db, []).
Proof.
  split; [discriminate|].
  apply (scan_cross_tenant_forbidden _ _ _ _ "coA" "007");
    [reflexivity | discriminate].
Defined.

(** C7, as the specification words it: a payload whose field count is not the
    four of the payload form is still decoded.  [EMP_co1_007] has three
    fields and decodes to (co1, 007). *)
Lemma decode_three_fields_counterexample :
  ~ well_formed_payload_spec "EMP_co1_007" /\
  Codec.decode "EMP_co1_007" = inr ("co1", "007").
Proof.
  split; [|reflexivity].
  intros [_ H]. vm_compute in H. discriminate.
Qed.

Lemma decode_fails_iff qr :
  (exists e, Codec.decode qr = inl e) <->
  (Py.startswith qr "EMP_" = false \/ (Codec.field_count qr < 3)%nat).
Proof.
  unfold Codec.decode, Codec.field_count.
  destruct (Py.startswith qr "EMP_"); simpl negb; cbv iota.
  - destruct (Nat.ltb_spec (length (Py.split Codec.underscore qr)) 3).
    + split; eauto.
    + split; [intros [e He]; discriminate | intros [?|?]; [discriminate|lia]].
  - split; eauto.
Qed.

(** C7, amended. Decoding fails exactly when the payload does not start with
    [EMP_] or has fewer than three underscore-separated fields; the failure is
    always a 400 rejection, a scan of such a payload returns it without
    executing a statement or changing the database, and (the store answering
    every query) a scan answers 400 for no other payload. *)
Theorem decode_malformed_iff (qr : string) :
  ((exists e, Codec.decode qr = inl e) <->
   (Py.startswith qr "EMP_" = false \/ (Codec.field_count qr < 3)%nat))
  /\ (forall e, Codec.decode qr = inl e ->
        (exists d, e = HTTPException 400 (Text d))
        /\ forall db company_id env,
             run (Server.scan_qr (Server.mkQRScanRequest qr) company_id env) db
             = (inl e, db, []))
  /\ (forall db company_id env,
        (exists d,
           outcome (run (Server.scan_qr (Server.mkQRScanRequest qr)
                           company_id env) db)
           = inl (HTTPException 400 d)) <->
        (Py.startswith qr "EMP_" = false \/ (Codec.field_count qr < 3)%nat)).
Proof.
  split; [apply decode_fails_iff|]. split.
  - intros e He. split; [exact (decode_error _ _ He)|].
    intros db company_id env. now apply scan_malformed.
  - intros db company_id env. rewrite <- decode_fails_iff. split.
    + intros [d Hd]. exact (scan_bad_request _ _ _ _ _ Hd).
    + intros [e He]. destruct (decode_error _ _ He) as [d ->].
      exists (Text d).
      now rewrite (scan_malformed db (Server.mkQRScanRequest qr) company_id
                     env _ He).
Qed.

Lemma decode_malformed_iff_witness :
  (Codec.field_count "EMP_co1" < 3)%nat /\
  forall db company_id env,
    run (Server.scan_qr (Server.mkQRScanRequest "EMP_co1") company_id env) db
    = (inl (HTTPException 400 (Text "Invalid QR code format")), db, []).
Proof.
  split; [vm_compute; lia|].
  apply (proj1 (proj2 (decode_malformed_iff "EMP_co1"))). reflexivity.
Defined.

(** ** Cooldown *)

Lemma remaining_seconds_div time_diff :
  (time_diff < Server.COOLDOWN_SECONDS * Server.microseconds)%Z ->
  Server.remaining_seconds time_diff
  = ((Server.COOLDOWN_SECONDS * Server.microseconds - time_diff)
     / Server.microseconds)%Z.
Proof.
  intros H. unfold Server.remaining_seconds.
  apply Z.quot_div_nonneg; unfold Server.microseconds in *; lia.
Qed.

Lemma remaining_seconds_bounds time_diff :
  (time_diff < Server.COOLDOWN_SECONDS * Server.microseconds)%Z ->
  (Server.remaining_seconds time_diff * Server.microseconds
   <= Server.COOLDOWN_SECONDS * Server.microseconds - time_diff
   < (Server.remaining_seconds time_diff + 1) * Server.microseconds)%Z.
Proof.
  intros H. rewrite (remaining_seconds_div _ H).
  unfold Server.COOLDOWN_SECONDS, Server.microseconds in *.
  pose proof (Z.div_mod (5 * 1000000 - time_diff) 1000000 ltac:(lia)).
  pose proof (Z.mod_pos_bound (5 * 1000000 - time_diff) 1000000 ltac:(lia)).
  lia.
Qed.

Lemma remaining_seconds_antitone d1 d2 :
  (d1 <= d2)%Z ->
  (d2 < Server.COOLDOWN_SECONDS * Server.microseconds)%Z ->
  (Server.remaining_seconds d2 <= Server.remaining_seconds d1)%Z.
Proof.
  intros Hle H2.
  rewrite !remaining_seconds_div by lia.
  apply Z.div_le_mono; unfold Server.microseconds; lia.
Qed.

(** C2, as stated, fails after a check-out: the scan of second 7 comes one
    second after the employee's last scan (the check-out of second 6), is
    accepted as a check-in and inserts a row. *)
Lemma scan_after_check_out_counterexample :
  let db0 := mkDB [] []
               [mkEmployee "e1" "Jan" "Kowalski" "dev" "007" "png" "co1" 0] [] in
  let scan_data := Server.mkQRScanRequest "EMP_co1_007_a1b2c3d4" in
  let at_second s id :=
    Server.mkScanEnv "2024-01-01" (s * 1000000) (s * 1000000) id in
  let r1 := run (Server.scan_qr scan_data "co1" (at_second 0%Z "t1")) db0 in
  let r2 := run (Server.scan_qr scan_data "co1" (at_second 6%Z "t2"))
              (db_after r1) in
  let r3 := run (Server.scan_qr scan_data "co1" (at_second 7%Z "t3"))
              (db_after r2) in
  outcome r2
  = inr (Server.mkScanResponse "check_out" "Jan Kowalski" 6000000
           "Pomyślnie zakończono pracę" 5)
  /\ outcome r3
     = inr (Server.mkScanResponse "check_in" "Jan Kowalski" 7000000
              "Pomyślnie rozpoczęto pracę" 5)
  /\ length (time_entries (db_after r2)) = 1%nat
  /\ length (time_entries (db_after r3)) = 2%nat.
Proof. vm_compute. repeat split. Qed.

(** C2, amended. While the employee has an open (working) entry for today
    whose last scan is less than 5 seconds before the scan's clock reading,
    the scan fails with the 429 cooldown rejection, changes nothing in the
    database, and reports the remaining time truncated to whole seconds; a
    later reading inside the window reports no more than an earlier one. *)
Theorem scan_cooldown_rejection
  (db : DB) (scan_data : Server.QRScanRequest) (company_id : string)
  (env : Server.ScanEnv) (employee_number : string) (employee : Employee)
  (existing_entry : TimeEntry) (last_scan : Z) :
  Codec.decode (Server.qr_data scan_data) = inr (company_id, employee_number) ->
  employee_by_number db employee_number company_id = Some employee ->
  working_entry db (em_id employee) (Server.today env) = Some existing_entry ->
  te_last_scan_time existing_entry = Some last_scan ->
  (Server.current_time env - last_scan
   < Server.COOLDOWN_SECONDS * Server.microseconds)%Z ->
  let remaining :=
    Server.remaining_seconds (Server.current_time env - last_scan) in
  run (Server.scan_qr scan_data company_id env) db
  = (inl (HTTPException 429 (Poczekaj remaining)), db,
     [SELECT Employees; SELECT TimeEntries])
  /\ (remaining * Server.microseconds
      <= Server.COOLDOWN_SECONDS * Server.microseconds
         - (Server.current_time env - last_scan)
      < (remaining + 1) * Server.microseconds)%Z
  /\ forall later stamp id,
       (Server.current_time env <= later)%Z ->
       (later - last_scan < Server.COOLDOWN_SECONDS * Server.microseconds)%Z ->
       (Server.remaining_seconds (later - last_scan) <= remaining)%Z
       /\ run (Server.scan_qr scan_data company_id
                 (Server.mkScanEnv (Server.today env) later stamp id)) db
          = (inl (HTTPException 429
                    (Poczekaj (Server.remaining_seconds (later - last_scan)))),
             db, [SELECT Employees; SELECT TimeEntries]).
Proof.
  intros Hd He Hw Hl Hlt remaining. repeat split.
  - now apply (scan_cooldown db scan_data company_id env employee_number
                 employee Hd He existing_entry last_scan).
  - now apply remaining_seconds_bounds.
  - now apply remaining_seconds_bounds.
  - apply remaining_seconds_antitone; lia.
  - exact (scan_cooldown db scan_data company_id
             (Server.mkScanEnv (Server.today env) later stamp id)
             employee_number employee Hd He existing_entry last_scan
             Hw Hl ltac:(assumption)).
Qed.

Lemma scan_cooldown_rejection_witness :
  let employee := mkEmployee "e1" "Jan" "Kowalski" "dev" "007" "png" "co1" 0 in
  let entry := mkTimeEntry "t1" "e1" (Some 0%Z) None "2024-01-01" "working"
                 (Some 0%Z) in
  let db := mkDB [] [] [employee] [entry] in
  run (Server.scan_qr (Server.mkQRScanRequest "EMP_co1_007_a1b2c3d4") "co1"
         (Server.mkScanEnv "2024-01-01" 1500000 1500001 "t2")) db
  = (inl (HTTPException 429 (Poczekaj 3)), db,
     [SELECT Employees; SELECT TimeEntries]).
Proof.
  intros employee entry db.
  apply (scan_cooldown_rejection db
           (Server.mkQRScanRequest "EMP_co1_007_a1b2c3d4") "co1"
           (Server.mkScanEnv "2024-01-01" 1500000 1500001 "t2")
           "007" employee entry 0%Z);
    try reflexivity.
Defined.

(** ** Lists of rows *)

Lemma fetchone_none {R} (p : R -> bool) l :
  fetchone (filter p l) = None -> filter p l = [].
Proof. unfold fetchone. now destruct (filter p l). Qed.

Lemma fetchone_some {R} (p : R -> bool) l x :
  fetchone (filter p l) = Some x -> In x l /\ p x = true.
Proof.
  unfold fetchone. intros H. apply filter_In.
  destruct (filter p l) as [|y l']; [discriminate|].
  injection H as ->. now left.
Qed.

Lemma existsb_eqb_In {R} (key : R -> string) k l :
  existsb (fun x => key x =? k) l = true <-> In k (map key l).
Proof.
  rewrite existsb_exists, in_map_iff. split.
  - intros [x [Hx He]]. apply String.eqb_eq in He. eauto.
  - intros [x [He Hx]]. exists x. split; [assumption|].
    now apply String.eqb_eq.
Qed.

Lemma key_unique {R} (key : R -> string) l x y :
  NoDup (map key l) -> In x l -> In y l -> key x = key y -> x = y.
Proof.
  induction l as [|z l IH]; simpl; [tauto|].
  intros Hnd Hx Hy Hk. inversion Hnd as [|? ? Hnotin Hnd']; subst.
  destruct Hx as [->|Hx], Hy as [->|Hy]; auto.
  - exfalso. apply Hnotin. rewrite Hk. now apply in_map.
  - exfalso. apply Hnotin. rewrite <- Hk. now apply in_map.
Qed.

Lemma admits_entry_fresh l t :
  admits time_entries_t l t = true <-> ~ In (te_id t) (map te_id l).
Proof.
  unfold admits, time_entries_t. rewrite negb_true_iff.
  rewrite <- (existsb_eqb_In te_id). now destruct (existsb _ l).
Qed.


Lemma check_out_rows_ids ex env l :
  map te_id (check_out_rows ex env l) = map te_id l.
Proof.
  unfold check_out_rows. rewrite map_map. apply map_ext.
  intros t. now destruct (te_id t =? te_id ex).
Qed.

Lemma check_out_rows_other ex env l :
  (forall t, In t l -> te_id t <> te_id ex) ->
  check_out_rows ex env l = l.
Proof.
  intros H. unfold check_out_rows.
  rewrite <- (map_id l) at 2. apply map_ext_in.
  intros t Ht. apply H, String.eqb_neq in Ht. now rewrite Ht.
Qed.

Lemma check_out_rows_split ex env l :
  NoDup (map te_id l) -> In ex l ->
  exists before after,
    l = before ++ ex :: after
    /\ check_out_rows ex env l
       = before ++ checked_out (Server.stamp_time env) ex :: after.
Proof.
  intros Hnd Hin. destruct (in_split _ _ Hin) as [before [after ->]].
  exists before, after. split; [reflexivity|].
  assert (Hother : forall t, In t (before ++ after) -> te_id t <> te_id ex).
  { intros t Ht Heq.
    rewrite map_app in Hnd. simpl in Hnd.
    apply NoDup_remove_2 in Hnd. apply Hnd.
    rewrite <- map_app, <- Heq. now apply in_map. }
  change (check_out_rows ex env (before ++ ex :: after))
    with (map (fun t => if te_id t =? te_id ex
                        then checked_out (Server.stamp_time env) t else t)
              (before ++ ex :: after)).
  rewrite map_app. simpl. rewrite String.eqb_refl.
  fold (check_out_rows ex env before). fold (check_out_rows ex env after).
  rewrite !check_out_rows_other; [reflexivity| |];
    intros t Ht; apply Hother, in_or_app; tauto.
Qed.


(** ** What a scan can do to the database *)

Lemma scan_db_cases db scan_data company_id env :
  let db' := db_after (run (Server.scan_qr scan_data company_id env) db) in
  db' = db
  \/ (exists employee,
        working_entry db (em_id employee) (Server.today env) = None
        /\ admits time_entries_t (time_entries db)
             (check_in_entry employee env) = true
        /\ db' = with_rows time_entries_t
                   (time_entries db ++ [check_in_entry employee env]) db)
  \/ (exists employee existing_entry,
        working_entry db (em_id employee) (Server.today env)
        = Some existing_entry
        /\ db' = with_rows time_entries_t
                   (check_out_rows existing_entry env (time_entries db)) db).
Proof.
  intros db'. subst db'.
  destruct (Codec.decode (Server.qr_data scan_data)) as [e|[qc n]] eqn:Hd.
  { left. now rewrite (scan_malformed _ _ company_id env e Hd). }
  destruct (String.eqb_spec qc company_id) as [->|Hne].
  2:{ left. now rewrite (scan_cross_tenant _ _ _ env _ _ Hd Hne). }
  destruct (employee_by_number db n company_id) as [employee|] eqn:He.
  2:{ left. now rewrite (scan_unknown_employee _ _ _ env _ Hd He). }
  destruct (working_entry db (em_id employee) (Server.today env))
    as [ex|] eqn:Hw.
  - destruct (cooling_down (Server.current_time env) ex) eqn:Hc.
    + left. unfold cooling_down in Hc.
      destruct (te_last_scan_time ex) as [last|] eqn:Hl; [|discriminate].
      apply Z.ltb_lt in Hc.
      now rewrite (scan_cooldown _ _ _ _ _ _ Hd He _ _ Hw Hl Hc).
    + right. right. exists employee, ex. split; [assumption|].
      now rewrite (scan_check_out _ _ _ _ _ _ Hd He _ Hw Hc).
  - destruct (admits time_entries_t (time_entries db)
                (check_in_entry employee env)) eqn:Ha.
    + right. left. exists employee. repeat split; try assumption.
      now rewrite (scan_check_in _ _ _ _ _ _ Hd He Hw Ha).
    + left. now rewrite (scan_id_collision _ _ _ _ _ _ Hd He Hw Ha).
Qed.

Lemma scan_keeps_ids_unique db scan_data company_id env :
  entry_ids_unique db ->
  entry_ids_unique (db_after (run (Server.scan_qr scan_data company_id env) db)).
Proof.
  intros Hu. unfold entry_ids_unique in *.
  destruct (scan_db_cases db scan_data company_id env)
    as [-> | [[employee [Hw [Ha ->]]] | [employee [ex [Hw ->]]]]];
    [assumption| |]; simpl.
  - apply admits_entry_fresh in Ha.
    rewrite map_app. simpl.
    apply NoDup_app; [assumption | repeat constructor; intros [] | ].
    intros x Hx [<-|[]]. now apply Ha.
  - now rewrite check_out_rows_ids.
Qed.

(** ** The open-session invariant *)



(** ** Postconditions of an accepted scan *)

(** C5. With the payload decoded to the caller's company and the employee
    found: when the employee has no working entry today, the scan appends the
    entry (fresh id, employee, check_in = stamp, no check_out, date = today,
    status working, last_scan_time = stamp) and answers check_in with the
    employee's name and the stamp; when a working entry exists and is not
    cooling down, the scan replaces exactly that entry (ids being unique, as
    the primary key makes them) by itself with check_out = stamp, status
    completed, last_scan_time = stamp, and answers check_out. *)
Theorem scan_postconditions
  (db : DB) (scan_data : Server.QRScanRequest) (company_id : string)
  (env : Server.ScanEnv) (employee_number : string) (employee : Employee) :
  Codec.decode (Server.qr_data scan_data) = inr (company_id, employee_number) ->
  employee_by_number db employee_number company_id = Some employee ->
  (working_entry db (em_id employee) (Server.today env) = None ->
   ~ In (Server.entry_id env) (map te_id (time_entries db)) ->
   run (Server.scan_qr scan_data company_id env) db
   = (inr (Server.mkScanResponse "check_in"
             (em_name employee ++ " " ++ em_surname employee)
             (Server.stamp_time env) "Pomyślnie rozpoczęto pracę" 5),
      mkDB (companies db) (users db) (employees db)
        (time_entries db
         ++ [mkTimeEntry (Server.entry_id env) (em_id employee)
               (Some (Server.stamp_time env)) None (Server.today env)
               "working" (Some (Server.stamp_time env))]),
      [SELECT Employees; SELECT TimeEntries; INSERT TimeEntries; COMMIT]))
  /\ (forall existing_entry,
        working_entry db (em_id employee) (Server.today env)
        = Some existing_entry ->
        cooling_down (Server.current_time env) existing_entry = false ->
        entry_ids_unique db ->
        exists before after,
          time_entries db = before ++ existing_entry :: after
          /\ run (Server.scan_qr scan_data company_id env) db
             = (inr (Server.mkScanResponse "check_out"
                       (em_name employee ++ " " ++ em_surname employee)
                       (Server.stamp_time env) "Pomyślnie zakończono pracę" 5),
                mkDB (companies db) (users db) (employees db)
                  (before
                   ++ mkTimeEntry (te_id existing_entry)
                        (te_employee_id existing_entry)
                        (te_check_in existing_entry)
                        (Some (Server.stamp_time env))
                        (te_date existing_entry) "completed"
                        (Some (Server.stamp_time env))
                   :: after),
                [SELECT Employees; SELECT TimeEntries; UPDATE TimeEntries;
                 COMMIT])).
Proof.
  intros Hd He. split.
  - intros Hw Hfresh.
    apply (admits_entry_fresh _ (check_in_entry employee env)) in Hfresh.
    exact (scan_check_in _ _ _ _ _ _ Hd He Hw Hfresh).
  - intros ex Hw Hc Hu.
    pose proof (fetchone_some _ _ _ Hw) as [Hin _].
    destruct (check_out_rows_split ex env _ Hu Hin)
      as [before [after [Hl Hrows]]].
    exists before, after. split; [assumption|].
    rewrite (scan_check_out _ _ _ _ _ _ Hd He _ Hw Hc).
    simpl. rewrite Hrows. reflexivity.
Qed.

Lemma scan_postconditions_witness :
  let employee := mkEmployee "e1" "Jan" "Kowalski" "dev" "007" "png" "co1" 0 in
  let scan_data := Server.mkQRScanRequest "EMP_co1_007_a1b2c3d4" in
  let opened := mkTimeEntry "t1" "e1" (Some 1%Z) None "2024-01-01" "working"
                  (Some 1%Z) in
  run (Server.scan_qr scan_data "co1" (Server.mkScanEnv "2024-01-01" 0 1 "t1"))
    (mkDB [] [] [employee] [])
  = (inr (Server.mkScanResponse "check_in" "Jan Kowalski" 1
            "Pomyślnie rozpoczęto pracę" 5),
     mkDB [] [] [employee] [opened],
     [SELECT Employees; SELECT TimeEntries; INSERT TimeEntries; COMMIT])
  /\ exists before after,
       [opened] = before ++ opened :: after
       /\ run (Server.scan_qr scan_data "co1"
                 (Server.mkScanEnv "2024-01-01" 9000000 9000002 "t2"))
            (mkDB [] [] [employee] [opened])
          = (inr (Server.mkScanResponse "check_out" "Jan Kowalski" 9000002
                    "Pomyślnie zakończono pracę" 5),
             mkDB [] [] [employee]
               (before
                ++ mkTimeEntry "t1" "e1" (Some 1%Z) (Some 9000002%Z)
                     "2024-01-01" "completed" (Some 9000002%Z)
                :: after),
             [SELECT Employees; SELECT TimeEntries; UPDATE TimeEntries;
              COMMIT]).
Proof.
  intros employee scan_data opened. split.
  - refine (proj1 (scan_postconditions (mkDB [] [] [employee] []) scan_data
                     "co1" (Server.mkScanEnv "2024-01-01" 0 1 "t1")
                     "007" employee _ _) _ _).
    + reflexivity.
    + reflexivity.
    + reflexivity.
    + simpl. tauto.
  - refine (proj2 (scan_postconditions (mkDB [] [] [employee] [opened])
                     scan_data "co1"
                     (Server.mkScanEnv "2024-01-01" 9000000 9000002 "t2")
                     "007" employee _ _) opened _ _ _).
    + reflexivity.
    + reflexivity.
    + reflexivity.
    + reflexivity.
    + repeat constructor. simpl. tauto.
Defined.

(** ** Completed sessions *)

Lemma scan_keeps_completed db scan_data company_id env i t :
  entry_ids_unique db ->
  nth_error (time_entries db) i = Some t ->
  te_status t = "completed" ->
  nth_error
    (time_entries (db_after (run (Server.scan_qr scan_data company_id env) db)))
    i = Some t.
Proof.
  intros Hu Hi Hs.
  destruct (scan_db_cases db scan_data company_id env)
    as [-> | [[employee [_ [_ ->]]] | [employee [ex [Hw ->]]]]];
    [assumption| |]; simpl.
  - rewrite nth_error_app1; [assumption|].
    apply nth_error_Some. congruence.
  - unfold check_out_rows. rewrite nth_error_map, Hi. simpl.
    destruct (String.eqb_spec (te_id t) (te_id ex)) as [Heq|]; [|reflexivity].
    exfalso.
    apply fetchone_some in Hw as [Hex Hworking].
    assert (t = ex) as ->
      by (apply (key_unique te_id (time_entries db)); auto;
          eapply nth_error_In; eassumption).
    unfold where_working in Hworking. rewrite Hs in Hworking.
    now rewrite andb_false_r in Hworking.
Qed.

Lemma scans_keep_ids_unique l : forall db,
  entry_ids_unique db -> entry_ids_unique (scans l db).
Proof.
  induction l as [|[[scan_data company_id] env] l IH]; intros db Hu;
    [assumption|].
  simpl. apply IH. now apply scan_keeps_ids_unique.
Qed.

(** C6. Completed sessions are immutable under scanning: with unique entry
    ids (the primary key), a row whose status is completed stays at its place
    with all its fields through any sequence of scans; and a scan of an
    employee with no open entry today appends a new row, leaving every
    stored row as it was. *)
Theorem completed_entries_immutable
  (l : list (Server.QRScanRequest * string * Server.ScanEnv)) (db : DB) :
  entry_ids_unique db ->
  (forall i t,
     nth_error (time_entries db) i = Some t ->
     te_status t = "completed" ->
     nth_error (time_entries (scans l db)) i = Some t)
  /\ (forall scan_data company_id env employee_number employee,
        Codec.decode (Server.qr_data scan_data)
        = inr (company_id, employee_number) ->
        employee_by_number db employee_number company_id = Some employee ->
        working_entry db (em_id employee) (Server.today env) = None ->
        ~ In (Server.entry_id env) (map te_id (time_entries db)) ->
        time_entries
          (db_after (run (Server.scan_qr scan_data company_id env) db))
        = time_entries db ++ [check_in_entry employee env]).
Proof.
  intros Hu. split.
  - revert db Hu.
    induction l as [|[[scan_data company_id] env] l IH]; intros db Hu i t Hi Hs;
      [assumption|].
    simpl. apply IH; [now apply scan_keeps_ids_unique| |assumption].
    now apply scan_keeps_completed.
  - intros scan_data company_id env employee_number employee Hd He Hw Hfresh.
    apply (admits_entry_fresh _ (check_in_entry employee env)) in Hfresh.
    now rewrite (scan_check_in _ _ _ _ _ _ Hd He Hw Hfresh).
Qed.

Lemma completed_entries_immutable_witness :
  let done := mkTimeEntry "t1" "e1" (Some 0%Z) (Some 6000000%Z) "2024-01-01"
                "completed" (Some 6000000%Z) in
  let db := mkDB [] []
              [mkEmployee "e1" "Jan" "Kowalski" "dev" "007" "png" "co1" 0]
              [done] in
  let scan_data := Server.mkQRScanRequest "EMP_co1_007_a1b2c3d4" in
  let db' := scans [(scan_data, "co1", Server.mkScanEnv "2024-01-01"
                                         7000000 7000000 "t2");
                    (scan_data, "co1", Server.mkScanEnv "2024-01-01"
                                         20000000 20000000 "t3")] db in
  length (time_entries db') = 2%nat /\ nth_error (time_entries db') 0 = Some done.
Proof.
  intros done db scan_data db'. split; [reflexivity|].
  refine (proj1 (completed_entries_immutable _ db _) 0%nat done _ _).
  - repeat constructor. simpl. tauto.
  - reflexivity.
  - reflexivity.
Defined.

(** ** [delete_employee] *)

Lemma filter_all {R} (p : R -> bool) l :
  (forall x, In x l -> p x = true) -> filter p l = l.
Proof.
  induction l as [|x l IH]; simpl; intros H; [reflexivity|].
  rewrite (H x) by now left. f_equal. apply IH. intros y Hy. apply H. now right.
Qed.

Lemma delete_employee_run db employee_id company_id :
  run (Server.delete_employee employee_id company_id) db
  = (inr "Employee deleted successfully",
     mkDB (companies db) (users db)
       (filter (fun e => negb ((em_id e =? employee_id)
                               && (em_company_id e =? company_id)))
          (employees db))
       (filter (fun t => negb (te_employee_id t =? employee_id))
          (time_entries db)),
     [DELETE Employees; DELETE TimeEntries; COMMIT]).
Proof. run_handler Server.delete_employee. reflexivity. Qed.

(** C10. For an employee id that names no employee of the caller's company
    (an employee of another company, or nobody), [delete_employee] leaves the
    employees table as it is, still deletes every time entry with that
    employee id, commits, and answers with the success message. *)
Theorem delete_employee_foreign_id
  (db : DB) (employee_id company_id : string) :
  (forall e, In e (employees db) ->
             em_id e = employee_id -> em_company_id e <> company_id) ->
  run (Server.delete_employee employee_id company_id) db
  = (inr "Employee deleted successfully",
     mkDB (companies db) (users db) (employees db)
       (filter (fun t => negb (te_employee_id t =? employee_id))
          (time_entries db)),
     [DELETE Employees; DELETE TimeEntries; COMMIT]).
Proof.
  intros Hforeign. rewrite delete_employee_run.
  rewrite filter_all; [reflexivity|].
  intros e He. apply negb_true_iff, andb_false_iff.
  destruct (String.eqb_spec (em_id e) employee_id) as [Hid|]; [right|now left].
  apply String.eqb_neq. now apply Hforeign.
Qed.

Lemma delete_employee_foreign_id_witness :
  let other := mkEmployee "e9" "Ola" "Nowak" "qa" "007" "png" "coA" 0 in
  let entry := mkTimeEntry "t1" "e9" (Some 0%Z) None "2024-01-01" "working"
                 (Some 0%Z) in
  run (Server.delete_employee "e9" "coB") (mkDB [] [] [other] [entry])
  = (inr "Employee deleted successfully", mkDB [] [] [other] [],
     [DELETE Employees; DELETE TimeEntries; COMMIT]).
Proof.
  intros other entry.
  apply (delete_employee_foreign_id (mkDB [] [] [other] [entry]) "e9" "coB").
  intros e [<-|[]] _. discriminate.
Defined.

(** ** Company creation *)

Lemma existsb_filter_nil {R} (p : R -> bool) l :
  existsb p l = false -> filter p l = [].
Proof.
  induction l as [|x l IH]; simpl; [reflexivity|].
  intros H. apply orb_false_iff in H as [Hx Hl]. rewrite Hx. now apply IH.
Qed.

Lemma filter_nil_existsb {R} (p : R -> bool) l :
  filter p l = [] -> existsb p l = false.
Proof.
  induction l as [|x l IH]; simpl; [reflexivity|].
  destruct (p x); [discriminate|]. exact IH.
Qed.

Lemma fetchone_nil {R} : @fetchone R [] = None.
Proof. reflexivity. Qed.

Lemma existsb_fetchone {R} (p : R -> bool) l :
  existsb p l = true -> exists x, fetchone (filter p l) = Some x.
Proof.
  induction l as [|x l IH]; simpl; [discriminate|].
  destruct (p x); simpl; eauto.
Qed.

Lemma unique_key_filter {R} (key : R -> string) k l :
  NoDup (map key l) ->
  existsb (fun x => key x =? k) l = true ->
  exists x, filter (fun x => key x =? k) l = [x].
Proof.
  induction l as [|y l IH]; simpl; [discriminate|].
  intros Hnd Hex. inversion Hnd as [|? ? Hnotin Hnd']; subst.
  destruct (String.eqb_spec (key y) k) as [<-|Hne].
  - exists y. f_equal. apply existsb_filter_nil.
    destruct (existsb _ l) eqn:E; [|reflexivity].
    apply existsb_eqb_In in E. contradiction.
  - simpl in Hex. now apply IH.
Qed.

Lemma admits_company db c :
  ~ In (co_id c) (map co_id (companies db)) ->
  admits companies_t (companies db) c = true.
Proof.
  intros H. unfold admits, companies_t. apply negb_true_iff.
  destruct (existsb _ _) eqn:E; [|reflexivity].
  apply existsb_eqb_In in E. contradiction.
Qed.

Lemma admits_user db u :
  ~ In (us_id u) (map us_id (users db)) ->
  username_taken db (us_username u) = false ->
  admits users_t (users db) u = true.
Proof.
  intros H Hu. unfold admits, users_t. unfold username_taken in Hu.
  rewrite Hu. apply andb_true_iff. split; [|reflexivity].
  apply negb_true_iff.
  destruct (existsb (fun x => us_id x =? us_id u) (users db)) eqn:E;
    [|reflexivity].
  apply existsb_eqb_In in E. contradiction.
Qed.

Lemma has_admin_grows db c companies' new_users :
  has_admin db c ->
  has_admin (mkDB companies' (users db ++ new_users) (employees db)
               (time_entries db)) c.
Proof.
  intros [u [Hu Hrest]]. exists u. split; [|assumption].
  simpl. apply in_or_app. now left.
Qed.

Lemma admin_added_keeps_invariant db c u :
  us_company_id u = co_id c -> us_role u = "admin" ->
  every_company_has_admin db ->
  every_company_has_admin
    (mkDB (companies db ++ [c]) (users db ++ [u]) (employees db)
       (time_entries db)).
Proof.
  intros Hc Hr Hinv c' Hin. simpl in Hin.
  apply in_app_or in Hin as [Hin|[<-|[]]].
  - now apply has_admin_grows, Hinv.
  - exists u. split; [|now split].
    simpl. apply in_or_app. right. now left.
Qed.

Section RegisterCompany.

Import Server.

Variables (db : DB) (company_data : CompanyRegistration) (env : RegisterEnv).

Lemma register_name_taken :
  name_taken db (company_name company_data) = true ->
  run (register_company company_data env) db
  = (inl (HTTPException 400 (Text "Firma o tej nazwie już istnieje")),
            db, [SELECT Companies]).
Proof.
  intros H. apply existsb_fetchone in H as [c Hc].
  run_handler register_company. rewrite Hc. reflexivity.
Qed.

Lemma register_username_taken :
  name_taken db (company_name company_data) = false ->
  username_taken db (admin_username company_data) = true ->
  run (register_company company_data env) db
  = (inl (HTTPException 400 (Text "Nazwa użytkownika już istnieje")),
            db, [SELECT Companies; SELECT Users]).
Proof.
  intros Hn Hu. apply existsb_filter_nil in Hn.
  apply existsb_fetchone in Hu as [u Hu].
  run_handler register_company.
  rewrite Hn, fetchone_nil. mred.
  rewrite Hu. reflexivity.
Qed.

Lemma register_inserts :
  name_taken db (company_name company_data) = false ->
  username_taken db (admin_username company_data) = false ->
  run (register_company company_data env) db
  = if admits companies_t (companies db)
         (registered_company company_data env)
    then if admits users_t (users db) (registered_admin company_data env)
         then (inr (mkToken
                      (mkClaims (admin_username company_data)
                         (company_uuid env) "admin" "user")
                      "bearer"
                      (mkTokenUser (admin_user_uuid env)
                         (admin_username company_data)
                         (admin_email company_data) "admin"
                         (company_uuid env) "user")),
               mkDB (companies db ++ [registered_company company_data env])
                 (users db ++ [registered_admin company_data env])
                 (employees db) (time_entries db),
               [SELECT Companies; SELECT Users; INSERT Companies;
                INSERT Users; COMMIT])
         else (inl IntegrityError, db,
               [SELECT Companies; SELECT Users; INSERT Companies;
                INSERT Users])
    else (inl IntegrityError, db,
          [SELECT Companies; SELECT Users; INSERT Companies]).
Proof.
  intros Hn Hu. apply existsb_filter_nil in Hn, Hu.
  run_handler register_company.
  rewrite Hn, fetchone_nil. mred.
  rewrite Hu, fetchone_nil. mred.
  unfold registered_company, registered_admin, admits, companies_t, users_t.
  destruct (negb (existsb _ (companies db))); mred; [|reflexivity].
  destruct (negb (existsb _ (users db)) && _); reflexivity.
Qed.

End RegisterCompany.

Section CreateCompany.

Import ServerMysql.

Variables (db : DB) (company_data : CompanyCreate) (current_owner : Owner)
          (env : CreateEnv).

Lemma create_name_taken :
  company_names_unique db ->
  name_taken db (name company_data) = true ->
  run (create_company company_data current_owner env) db
  = (inl (HTTPException 400 (Text "Firma o tej nazwie już istnieje")),
     db, [SELECT Companies]).
Proof.
  intros Hnd H. destruct (unique_key_filter co_name _ _ Hnd H) as [c Hc].
  run_handler create_company. rewrite Hc. reflexivity.
Qed.

Lemma create_username_taken :
  usernames_unique db ->
  name_taken db (name company_data) = false ->
  username_taken db (admin_username company_data) = true ->
  run (create_company company_data current_owner env) db
  = (inl (HTTPException 400 (Text "Nazwa użytkownika już istnieje")),
     db, [SELECT Companies; SELECT Users]).
Proof.
  intros Hnd Hn Hu. apply existsb_filter_nil in Hn.
  destruct (unique_key_filter us_username _ _ Hnd Hu) as [u Hu'].
  run_handler create_company.
  rewrite Hn. mred. rewrite Hu'. reflexivity.
Qed.

Lemma create_inserts :
  name_taken db (name company_data) = false ->
  username_taken db (admin_username company_data) = false ->
  run (create_company company_data current_owner env) db
  = if admits companies_t (companies db)
         (created_company company_data current_owner env)
    then if admits users_t (users db) (created_admin company_data env)
         then (inr (mkCreateResponse "Company created successfully"
                      (mkCompanyInfo (company_uuid env) (name company_data)
                         (ow_id current_owner) (company_created_at env))
                      (mkAdminInfo (admin_user_uuid env)
                         (admin_username company_data)
                         (admin_email company_data) "admin")),
               mkDB
                 (companies db
                  ++ [created_company company_data current_owner env])
                 (users db ++ [created_admin company_data env])
                 (employees db) (time_entries db),
               [SELECT Companies; SELECT Users; INSERT Companies;
                INSERT Users; COMMIT])
         else (inl IntegrityError, db,
               [SELECT Companies; SELECT Users; INSERT Companies;
                INSERT Users])
    else (inl IntegrityError, db,
          [SELECT Companies; SELECT Users; INSERT Companies]).
Proof.
  intros Hn Hu. apply existsb_filter_nil in Hn, Hu.
  run_handler create_company.
  rewrite Hn. mred. rewrite Hu. mred.
  unfold created_company, created_admin, admits, companies_t, users_t.
  destruct (negb (existsb _ (companies db))); mred; [|reflexivity].
  destruct (negb (existsb _ (users db)) && _); reflexivity.
Qed.

Lemma create_db_cases :
  db_after (run (create_company company_data current_owner env) db) = db
  \/ (name_taken db (name company_data) = false
      /\ username_taken db (admin_username company_data) = false
      /\ admits companies_t (companies db)
           (created_company company_data current_owner env) = true
      /\ db_after (run (create_company company_data current_owner env) db)
         = mkDB
             (companies db ++ [created_company company_data current_owner env])
             (users db ++ [created_admin company_data env]) (employees db)
             (time_entries db)).
Proof.
  destruct (filter (fun c => co_name c =? name company_data) (companies db))
    as [|c [|c' l]] eqn:Hn.
  - destruct (filter (fun u => us_username u =? admin_username company_data)
                (users db)) as [|u [|u' l]] eqn:Hu.
    + apply filter_nil_existsb in Hn, Hu.
      rewrite (create_inserts Hn Hu).
      destruct (admits companies_t _ _); [|now left].
      destruct (admits users_t _ _); [right; auto|now left].
    + left. run_handler create_company.
      rewrite Hn. mred. rewrite Hu. reflexivity.
    + left. run_handler create_company.
      rewrite Hn. mred. rewrite Hu. reflexivity.
  - left. run_handler create_company.
    rewrite Hn. reflexivity.
  - left. run_handler create_company.
    rewrite Hn. reflexivity.
Qed.

End CreateCompany.

Lemma register_db_cases db company_data env :
  db_after (run (Server.register_company company_data env) db) = db
  \/ (name_taken db (Server.company_name company_data) = false
      /\ username_taken db (Server.admin_username company_data) = false
      /\ admits companies_t (companies db)
           (registered_company company_data env) = true
      /\ db_after (run (Server.register_company company_data env) db)
         = mkDB (companies db ++ [registered_company company_data env])
             (users db ++ [registered_admin company_data env])
             (employees db) (time_entries db)).
Proof.
  destruct (name_taken db (Server.company_name company_data)) eqn:Hn.
  { left. now rewrite (register_name_taken db company_data env Hn). }
  destruct (username_taken db (Server.admin_username company_data)) eqn:Hu.
  { left. now rewrite (register_username_taken db company_data env Hn Hu). }
  rewrite (register_inserts db company_data env Hn Hu).
  destruct (admits companies_t _ _); [|now left].
  destruct (admits users_t _ _); [right; auto|now left].
Qed.

Lemma NoDup_snoc_key {R} (key : R -> string) l x :
  NoDup (map key l) ->
  existsb (fun y => key y =? key x) l = false ->
  NoDup (map key (l ++ [x])).
Proof.
  intros Hnd Hx. rewrite map_app. simpl.
  apply NoDup_app; [assumption | repeat constructor; intros [] | ].
  intros k Hk [<-|[]].
  apply (existsb_eqb_In key) in Hk. congruence.
Qed.

Lemma creation_keeps_unique db c u :
  name_taken db (co_name c) = false ->
  username_taken db (us_username u) = false ->
  admits companies_t (companies db) c = true ->
  let db' := mkDB (companies db ++ [c]) (users db ++ [u]) (employees db)
               (time_entries db) in
  (company_names_unique db -> company_names_unique db')
  /\ (usernames_unique db -> usernames_unique db')
  /\ (company_ids_unique db -> company_ids_unique db').
Proof.
  intros Hn Hu Ha db'. repeat split; intros Hnd.
  - now apply (NoDup_snoc_key co_name).
  - now apply (NoDup_snoc_key us_username).
  - apply (NoDup_snoc_key co_id); [assumption|].
    now apply negb_true_iff in Ha.
Qed.

(** The uniqueness of company names, usernames and company ids is kept by
    both creation handlers. *)
Lemma register_company_keeps_unique db company_data env :
  let db' := db_after (run (Server.register_company company_data env) db) in
  (company_names_unique db -> company_names_unique db')
  /\ (usernames_unique db -> usernames_unique db')
  /\ (company_ids_unique db -> company_ids_unique db').
Proof.
  intros db'. subst db'.
  destruct (register_db_cases db company_data env)
    as [-> | (Hn & Hu & Ha & ->)]; [tauto|].
  now apply creation_keeps_unique.
Qed.

Lemma create_company_keeps_unique db company_data current_owner env :
  let db' :=
    db_after (run (ServerMysql.create_company company_data current_owner env)
                db) in
  (company_names_unique db -> company_names_unique db')
  /\ (usernames_unique db -> usernames_unique db')
  /\ (company_ids_unique db -> company_ids_unique db').
Proof.
  intros db'. subst db'.
  destruct (create_db_cases db company_data current_owner env)
    as [-> | (Hn & Hu & Ha & ->)]; [tauto|].
  now apply creation_keeps_unique.
Qed.

(** C8. Company creation, self-service ([register_company]) and owner-driven
    ([create_company]): when the company name is taken, or else the admin
    username is taken, the handler fails with the 400 conflict rejection and
    the database is unchanged; when neither is taken and the two generated
    ids are fresh, it succeeds and the database gains exactly the company row
    and its admin user row; in every case the committed database is either
    the old one or the old one plus both rows, so every company keeps having
    an admin.  For [create_company] the conflict rejections are stated for
    databases with unique company names and unique usernames. *)
Theorem company_creation_conflict_or_atomic :
  (forall db company_data env,
     let result := run (Server.register_company company_data env) db in
     let company :=
       mkCompany (Server.company_uuid env) (Server.company_name company_data)
         "system" (Server.company_created_at env) in
     let admin :=
       mkUser (Server.admin_user_uuid env)
         (Server.admin_username company_data)
         (Server.admin_email company_data) (Server.password_hash env)
         "admin" (Server.company_uuid env) (Server.admin_created_at env) in
     let created :=
       mkDB (companies db ++ [company]) (users db ++ [admin]) (employees db)
         (time_entries db) in
     (name_taken db (Server.company_name company_data) = true ->
      outcome result
      = inl (HTTPException 400 (Text "Firma o tej nazwie już istnieje"))
      /\ db_after result = db)
     /\ (name_taken db (Server.company_name company_data) = false ->
         username_taken db (Server.admin_username company_data) = true ->
         outcome result
         = inl (HTTPException 400 (Text "Nazwa użytkownika już istnieje"))
         /\ db_after result = db)
     /\ (name_taken db (Server.company_name company_data) = false ->
         username_taken db (Server.admin_username company_data) = false ->
         ~ In (Server.company_uuid env) (map co_id (companies db)) ->
         ~ In (Server.admin_user_uuid env) (map us_id (users db)) ->
         (exists token, outcome result = inr token)
         /\ db_after result = created
         /\ statements result
            = [SELECT Companies; SELECT Users; INSERT Companies; INSERT Users;
               COMMIT])
     /\ (db_after result = db \/ db_after result = created)
     /\ (every_company_has_admin db ->
         every_company_has_admin (db_after result)))
  /\ (forall db company_data current_owner env,
        let result :=
          run (ServerMysql.create_company company_data current_owner env) db in
        let company :=
          mkCompany (ServerMysql.company_uuid env)
            (ServerMysql.name company_data) (ServerMysql.ow_id current_owner)
            (ServerMysql.company_created_at env) in
        let admin :=
          mkUser (ServerMysql.admin_user_uuid env)
            (ServerMysql.admin_username company_data)
            (ServerMysql.admin_email company_data)
            (ServerMysql.password_hash env) "admin"
            (ServerMysql.company_uuid env)
            (ServerMysql.admin_created_at env) in
        let created :=
          mkDB (companies db ++ [company]) (users db ++ [admin]) (employees db)
            (time_entries db) in
        (company_names_unique db ->
         name_taken db (ServerMysql.name company_data) = true ->
         outcome result
         = inl (HTTPException 400 (Text "Firma o tej nazwie już istnieje"))
         /\ db_after result = db)
        /\ (usernames_unique db ->
            name_taken db (ServerMysql.name company_data) = false ->
            username_taken db (ServerMysql.admin_username company_data) = true ->
            outcome result
            = inl (HTTPException 400 (Text "Nazwa użytkownika już istnieje"))
            /\ db_after result = db)
        /\ (name_taken db (ServerMysql.name company_data) = false ->
            username_taken db (ServerMysql.admin_username company_data) = false ->
            ~ In (ServerMysql.company_uuid env) (map co_id (companies db)) ->
            ~ In (ServerMysql.admin_user_uuid env) (map us_id (users db)) ->
            (exists response, outcome result = inr response)
            /\ db_after result = created
            /\ statements result
               = [SELECT Companies; SELECT Users; INSERT Companies;
                  INSERT Users; COMMIT])
        /\ (db_after result = db \/ db_after result = created)
        /\ (every_company_has_admin db ->
            every_company_has_admin (db_after result))).
Proof.
  split.
  - intros db company_data env. cbv zeta.
    pose proof (register_db_cases db company_data env) as Hcases.
    split; [|split; [|split; [|split]]].
    + intros Hn.
      now rewrite (register_name_taken db company_data env Hn).
    + intros Hn Hu.
      now rewrite (register_username_taken db company_data env Hn Hu).
    + intros Hn Hu Hc Ha.
      rewrite (register_inserts db company_data env Hn Hu).
      rewrite admits_company by exact Hc.
      rewrite admits_user by assumption.
      split; [eexists; reflexivity | split; reflexivity].
    + destruct Hcases as [H | (_ & _ & _ & H)]; [now left | now right].
    + intros Hinv. destruct Hcases as [-> | (_ & _ & _ & ->)]; [assumption|].
      now apply admin_added_keeps_invariant.
  - intros db company_data current_owner env. cbv zeta.
    pose proof (create_db_cases db company_data current_owner env) as Hcases.
    split; [|split; [|split; [|split]]].
    + intros Hnd Hn.
      now rewrite (create_name_taken db company_data current_owner env Hnd Hn).
    + intros Hnd Hn Hu.
      now rewrite (create_username_taken db company_data current_owner env
                     Hnd Hn Hu).
    + intros Hn Hu Hc Ha.
      rewrite (create_inserts db company_data current_owner env Hn Hu).
      rewrite admits_company by exact Hc.
      rewrite admits_user by assumption.
      split; [eexists; reflexivity | split; reflexivity].
    + destruct Hcases as [H | (_ & _ & _ & H)]; [now left | now right].
    + intros Hinv. destruct Hcases as [-> | (_ & _ & _ & ->)]; [assumption|].
      now apply admin_added_keeps_invariant.
Qed.

Lemma company_creation_conflict_or_atomic_witness :
  let db := mkDB [mkCompany "c1" "Acme" "system" 0]
              [mkUser "u1" "alice" "alice@acme.test" "hash1" "admin" "c1" 0]
              [] [] in
  let result :=
    run (Server.register_company
           (Server.mkCompanyRegistration "Acme" "bob" "bob@acme.test" "pw2")
           (Server.mkRegisterEnv "c2" 1 "u2" "hash2" 1)) db in
  outcome result
  = inl (HTTPException 400 (Text "Firma o tej nazwie już istnieje"))
  /\ db_after result = db.
Proof.
  intros db result.
  apply (proj1 (proj1 company_creation_conflict_or_atomic db
                  (Server.mkCompanyRegistration "Acme" "bob" "bob@acme.test"
                     "pw2")
                  (Server.mkRegisterEnv "c2" 1 "u2" "hash2" 1))).
  reflexivity.
Defined.

(** ** [delete_company] *)

Lemma filter_In_false {R} (p : R -> bool) l x :
  In x (filter (fun y => negb (p y)) l) -> p x = false.
Proof. intros H. apply filter_In in H as [_ H]. now apply negb_true_iff. Qed.

Lemma existsb_eqb_mem k ids :
  existsb (String.eqb k) ids = true <-> In k ids.
Proof.
  rewrite existsb_exists. split.
  - intros [x [Hx He]]. apply String.eqb_eq in He. now subst.
  - intros H. exists k. split; [assumption|apply String.eqb_refl].
Qed.

Section DeleteCompany.

Import ServerMysql.

Variables (db : DB) (company_id : string) (current_owner : Owner).

Lemma delete_company_unknown :
  ~ In company_id (map co_id (companies db)) ->
  run (delete_company company_id current_owner) db
  = (inl (HTTPException 404 (Text "Company not found")), db,
            [SELECT Companies]).
Proof.
  intros H.
  assert (Hf : filter (fun c => co_id c =? company_id) (companies db) = []).
  { apply existsb_filter_nil.
    destruct (existsb _ _) eqn:E; [|reflexivity].
    apply existsb_eqb_In in E. contradiction. }
  run_handler delete_company. rewrite Hf. reflexivity.
Qed.

Lemma delete_company_known :
  company_ids_unique db ->
  In company_id (map co_id (companies db)) ->
  run (delete_company company_id current_owner) db
  = (inr "Company and all its data deleted successfully",
     mkDB (filter (fun c => negb (co_id c =? company_id)) (companies db))
       (filter (fun u => negb (us_company_id u =? company_id)) (users db))
       (filter (fun e => negb (em_company_id e =? company_id)) (employees db))
       (filter (fun t => negb (existsb (String.eqb (te_employee_id t))
                                 (company_employee_ids db company_id)))
          (time_entries db)),
     [SELECT Companies; SELECT Employees]
     ++ match company_employee_ids db company_id with
        | [] => []
        | _ :: _ => [DELETE TimeEntries]
        end
     ++ [DELETE Users; DELETE Employees; DELETE Companies; COMMIT]).
Proof.
  intros Hnd Hin. apply (existsb_eqb_In co_id) in Hin.
  destruct (unique_key_filter co_id _ _ Hnd Hin) as [c Hc].
  unfold company_employee_ids. run_handler delete_company. rewrite Hc. mred.
  destruct (map em_id _) as [|id ids]; mred; [|reflexivity].
  cbn [existsb negb]. rewrite (filter_all (fun _ => true)); reflexivity.
Qed.

End DeleteCompany.

(** C9. [delete_company] fails with the 404 rejection, touching nothing, when
    no company has the id; otherwise (company ids being unique, as the primary
    key makes them) it deletes, in this order, the time entries of the
    company's employees (found through their ids; the statement is skipped
    when the company has no employee), the company's users, its employees,
    then the company, and commits: afterwards no user, no employee and no
    time entry of an employee of that company remains, nor the company. *)
Theorem delete_company_cascade
  (db : DB) (company_id : string) (current_owner : ServerMysql.Owner) :
  let result := run (ServerMysql.delete_company company_id current_owner) db in
  let employee_ids :=
    map em_id
      (filter (fun e => em_company_id e =? company_id) (employees db)) in
  (~ In company_id (map co_id (companies db)) ->
   result = (inl (HTTPException 404 (Text "Company not found")), db,
             [SELECT Companies]))
  /\ (In company_id (map co_id (companies db)) ->
      company_ids_unique db ->
      outcome result = inr "Company and all its data deleted successfully"
      /\ statements result
         = [SELECT Companies; SELECT Employees]
           ++ match employee_ids with
              | [] => []
              | _ :: _ => [DELETE TimeEntries]
              end
           ++ [DELETE Users; DELETE Employees; DELETE Companies; COMMIT]
      /\ db_after result
         = mkDB
             (filter (fun c => negb (co_id c =? company_id)) (companies db))
             (filter (fun u => negb (us_company_id u =? company_id)) (users db))
             (filter (fun e => negb (em_company_id e =? company_id))
                (employees db))
             (filter (fun t => negb (existsb (String.eqb (te_employee_id t))
                                       employee_ids))
                (time_entries db))
      /\ (forall u, In u (users (db_after result)) ->
                    us_company_id u <> company_id)
      /\ (forall e, In e (employees (db_after result)) ->
                    em_company_id e <> company_id)
      /\ (forall t e, In t (time_entries (db_after result)) ->
                      In e (employees db) -> em_company_id e = company_id ->
                      te_employee_id t <> em_id e)
      /\ ~ In company_id (map co_id (companies (db_after result)))).
Proof.
  intros result employee_ids. split.
  - intros H. now apply delete_company_unknown.
  - intros Hin Hnd. unfold result.
    rewrite (delete_company_known db company_id current_owner Hnd Hin).
    cbn [outcome statements db_after fst snd users employees time_entries
         companies].
    repeat split.
    + intros u Hu. apply filter_In_false in Hu. now apply String.eqb_neq.
    + intros e He. apply filter_In_false in He. now apply String.eqb_neq.
    + intros t e Ht He Hc Heq.
      apply (filter_In_false
               (fun t => existsb (String.eqb (te_employee_id t)) _)) in Ht.
      unfold company_employee_ids in Ht.
      assert (Hmem : existsb (String.eqb (te_employee_id t))
                       (map em_id
                          (filter (fun e => em_company_id e =? company_id)
                             (employees db))) = true).
      { apply existsb_eqb_mem. rewrite Heq. apply in_map.
        apply filter_In. split; [assumption|]. now apply String.eqb_eq. }
      congruence.
    + intros H. apply in_map_iff in H as [c [Hid Hc]].
      apply filter_In_false in Hc. apply String.eqb_neq in Hc. contradiction.
Qed.

Lemma delete_company_cascade_witness :
  let db := mkDB [mkCompany "c1" "Acme" "o1" 0; mkCompany "c2" "Bolt" "o1" 0]
              [mkUser "u1" "alice" "alice@acme.test" "hash1" "admin" "c1" 0;
               mkUser "u2" "bob" "bob@bolt.test" "hash2" "admin" "c2" 0]
              [mkEmployee "e1" "Jan" "Kowalski" "dev" "007" "png" "c1" 0;
               mkEmployee "e2" "Ola" "Nowak" "qa" "007" "png" "c2" 0]
              [mkTimeEntry "t1" "e1" (Some 0%Z) None "2024-01-01" "working"
                 (Some 0%Z);
               mkTimeEntry "t2" "e2" (Some 0%Z) None "2024-01-01" "working"
                 (Some 0%Z)] in
  let result :=
    run (ServerMysql.delete_company "c1"
           (ServerMysql.mkOwner "o1" "owner" "owner@system.com" "hash0" 0)) db in
  statements result
  = [SELECT Companies; SELECT Employees; DELETE TimeEntries; DELETE Users;
     DELETE Employees; DELETE Companies; COMMIT]
  /\ db_after result
     = mkDB [mkCompany "c2" "Bolt" "o1" 0]
         [mkUser "u2" "bob" "bob@bolt.test" "hash2" "admin" "c2" 0]
         [mkEmployee "e2" "Ola" "Nowak" "qa" "007" "png" "c2" 0]
         [mkTimeEntry "t2" "e2" (Some 0%Z) None "2024-01-01" "working"
            (Some 0%Z)].
Proof.
  intros db result.
  destruct (proj2 (delete_company_cascade db "c1"
                     (ServerMysql.mkOwner "o1" "owner" "owner@system.com"
                        "hash0" 0)))
    as [_ [Hs [Hdb _]]].
  - simpl. tauto.
  - repeat constructor; simpl; intuition discriminate.
  - split; [exact Hs | exact Hdb].
Defined.

(** * Further handlers *)

Ltac mred' :=
  cbv beta iota delta
      [bind ret raise Server.lift Server.try_except
       select insert update delete commit add session_commit insert_row flush
       scalar_one_or_none tell set_pending connect
       committed pending log session_new
       tbl rows with_rows admits
       companies_t users_t employees_t time_entries_t
       ServerEmployees.raised ServerEmployees.employee_of_row
       ServerEmployees.update_employees];
  cbn [companies users employees time_entries fst snd app negb].

Lemma run'_unfold {A} (m : ServerEmployees.M' A) db :
  ServerEmployees.run' m db
  = (snd (m (connect db)), committed (fst (m (connect db))),
     log (fst (m (connect db)))).
Proof. unfold ServerEmployees.run'. now destruct (m (connect db)). Qed.

(** ** [create_employee] *)


Section CreateEmployee.

Import ServerEmployees.

Variables (png_base64 : string -> string) (db : DB)
          (employee_data : EmployeeCreate) (company_id : string)
          (env : CreateEnv).

Lemma create_employee_taken :
  number_taken db (number employee_data) company_id = true ->
  run (create_employee png_base64 employee_data company_id env) db
  = (inl (HTTPException 400
            (Text "Numer pracownika już istnieje w tej firmie")),
     db, [SELECT Employees]).
Proof.
  intros H. apply existsb_fetchone in H as [e He].
  run_handler create_employee. rewrite He. reflexivity.
Qed.

Lemma create_employee_inserts :
  number_taken db (number employee_data) company_id = false ->
  run (create_employee png_base64 employee_data company_id env) db
  = if admits employees_t (employees db)
         (new_employee png_base64 employee_data company_id env)
    then (inr (mkEmployee (employee_uuid env) (name employee_data)
                 (surname employee_data) (position employee_data)
                 (number employee_data)
                 (generate_qr_code png_base64
                    (qr_data company_id employee_data env))
                 company_id (response_created_at env)),
          mkDB (companies db) (users db)
            (employees db
             ++ [new_employee png_base64 employee_data company_id env])
            (time_entries db),
          [SELECT Employees; INSERT Employees; COMMIT])
    else (inl IntegrityError, db, [SELECT Employees; INSERT Employees]).
Proof.
  intros H. apply existsb_filter_nil in H.
  run_handler create_employee. rewrite H, fetchone_nil. mred.
  unfold new_employee, admits, employees_t.
  destruct (negb (existsb _ (employees db)) && _); reflexivity.
Qed.

End CreateEmployee.

Lemma admits_employee db e :
  ~ In (em_id e) (map em_id (employees db)) ->
  number_taken db (em_number e) (em_company_id e) = false ->
  admits employees_t (employees db) e = true.
Proof.
  intros Hid Hn. unfold admits, employees_t.
  apply andb_true_iff. split; apply negb_true_iff.
  - destruct (existsb (fun x => em_id x =? em_id e) (employees db)) eqn:E;
      [|reflexivity].
    apply existsb_eqb_In in E. contradiction.
  - exact Hn.
Qed.

(** X1. [create_employee] answers 400 and changes nothing when the caller's
    company already has an employee with the number (employees of other
    companies with that number do not matter); otherwise, with a fresh uuid,
    it appends exactly one employee row, bound to the caller's company, and
    returns it. *)
Theorem create_employee_conflict_or_added
  (png_base64 : string -> string) (db : DB)
  (employee_data : ServerEmployees.EmployeeCreate) (company_id : string)
  (env : ServerEmployees.CreateEnv) :
  let result :=
    run (ServerEmployees.create_employee png_base64 employee_data company_id
           env) db in
  let row :=
    mkEmployee (ServerEmployees.employee_uuid env)
      (ServerEmployees.name employee_data)
      (ServerEmployees.surname employee_data)
      (ServerEmployees.position employee_data)
      (ServerEmployees.number employee_data)
      (ServerEmployees.generate_qr_code png_base64
         (ServerEmployees.qr_data company_id employee_data env))
      company_id (ServerEmployees.created_at env) in
  ((exists e, In e (employees db)
              /\ em_number e = ServerEmployees.number employee_data
              /\ em_company_id e = company_id) ->
   result
   = (inl (HTTPException 400
             (Text "Numer pracownika już istnieje w tej firmie")),
      db, [SELECT Employees]))
  /\ ((forall e, In e (employees db) ->
                 em_number e = ServerEmployees.number employee_data ->
                 em_company_id e <> company_id) ->
      ~ In (ServerEmployees.employee_uuid env) (map em_id (employees db)) ->
      outcome result
      = inr (mkEmployee (ServerEmployees.employee_uuid env)
               (ServerEmployees.name employee_data)
               (ServerEmployees.surname employee_data)
               (ServerEmployees.position employee_data)
               (ServerEmployees.number employee_data)
               (ServerEmployees.generate_qr_code png_base64
                  (ServerEmployees.qr_data company_id employee_data env))
               company_id (ServerEmployees.response_created_at env))
      /\ db_after result
         = mkDB (companies db) (users db) (employees db ++ [row])
             (time_entries db)
      /\ statements result = [SELECT Employees; INSERT Employees; COMMIT]).
Proof.
  intros result row. split.
  - intros [e (Hin & Hn & Hc)]. apply create_employee_taken.
    apply existsb_exists. exists e. split; [assumption|].
    unfold where_number. now rewrite Hn, Hc, !String.eqb_refl.
  - intros Hfree Hfresh.
    assert (Hn : number_taken db (ServerEmployees.number employee_data)
                   company_id = false).
    { unfold number_taken. destruct (existsb _ _) eqn:E; [|reflexivity].
      apply existsb_exists in E as [e [Hin Hw]].
      unfold where_number in Hw. apply andb_true_iff in Hw as [H1 H2].
      apply String.eqb_eq in H1, H2. now apply Hfree in Hin. }
    unfold result.
    rewrite (create_employee_inserts png_base64 db employee_data company_id
               env Hn).
    rewrite (admits_employee db
               (ServerEmployees.new_employee png_base64 employee_data
                  company_id env)) by assumption.
    repeat split.
Qed.

Lemma create_employee_conflict_or_added_witness :
  let db := mkDB [] []
              [mkEmployee "e1" "Jan" "Kowalski" "dev" "007" "png" "coA" 0] [] in
  let data := ServerEmployees.mkEmployeeCreate "Ola" "Nowak" "qa" "007" in
  let env := ServerEmployees.mkCreateEnv
               "a1b2c3d4-0000-4000-8000-000000000000" "e2" 5 6 in
  db_after (run (ServerEmployees.create_employee (fun s => s) data "coB" env)
              db)
  = mkDB [] []
      [mkEmployee "e1" "Jan" "Kowalski" "dev" "007" "png" "coA" 0;
       mkEmployee "e2" "Ola" "Nowak" "qa" "007"
         "data:image/png;base64,EMP_coB_007_a1b2c3d4" "coB" 5] [].
Proof.
  intros db data env.
  refine (proj1 (proj2 (proj2 (create_employee_conflict_or_added
                                 (fun s => s) db data "coB" env) _ _))).
  - intros e [<-|[]] _. discriminate.
  - simpl. intros [H|[]]. discriminate.
Defined.



(** ** Scans of issued payloads *)

Lemma scan_by_decode db scan_data1 scan_data2 company_id env :
  Codec.decode (Server.qr_data scan_data1)
  = Codec.decode (Server.qr_data scan_data2) ->
  run (Server.scan_qr scan_data1 company_id env) db
  = run (Server.scan_qr scan_data2 company_id env) db.
Proof. intros H. unfold run, Server.scan_qr. now rewrite H. Qed.

Lemma decode_qr_data_roundtrip_general company_id number suffix :
  Py.contains Codec.underscore company_id = false ->
  Py.contains Codec.underscore number = false ->
  Codec.decode (Codec.qr_data company_id number suffix)
  = inr (company_id, number).
Proof.
  intros Hc Hn. unfold Codec.decode.
  rewrite (qr_data_split _ _ suffix Hc Hn).
  unfold Py.startswith, Codec.qr_data.
  rewrite prefix_app. simpl negb. cbv iota.
  destruct (Py.split Codec.underscore suffix) eqn:E;
    [now apply split_nonempty in E | reflexivity].
Qed.

(** X3. The payload issued by [create_employee] works: for a company id and
    a number without the separator, once the employee is created (number
    free in the company, fresh uuid), a scan of the issued payload by a
    caller of that company checks the new employee in, provided no time
    entry is open under the new id and the entry uuid is fresh. *)
Theorem created_employee_checks_in
  (png_base64 : string -> string) (db : DB)
  (employee_data : ServerEmployees.EmployeeCreate) (company_id : string)
  (env : ServerEmployees.CreateEnv) (scan_env : Server.ScanEnv) :
  Py.contains Codec.underscore company_id = false ->
  Py.contains Codec.underscore (ServerEmployees.number employee_data) = false ->
  number_taken db (ServerEmployees.number employee_data) company_id = false ->
  ~ In (ServerEmployees.employee_uuid env) (map em_id (employees db)) ->
  working_entry db (ServerEmployees.employee_uuid env)
    (Server.today scan_env) = None ->
  ~ In (Server.entry_id scan_env) (map te_id (time_entries db)) ->
  let created :=
    db_after (run (ServerEmployees.create_employee png_base64 employee_data
                     company_id env) db) in
  run (Server.scan_qr
         (Server.mkQRScanRequest
            (ServerEmployees.qr_data company_id employee_data env))
         company_id scan_env) created
  = (inr (Server.mkScanResponse "check_in"
            (ServerEmployees.name employee_data ++ " "
             ++ ServerEmployees.surname employee_data)
            (Server.stamp_time scan_env) "Pomyślnie rozpoczęto pracę" 5),
     mkDB (companies created) (users created) (employees created)
       (time_entries db
        ++ [mkTimeEntry (Server.entry_id scan_env)
              (ServerEmployees.employee_uuid env)
              (Some (Server.stamp_time scan_env)) None
              (Server.today scan_env) "working"
              (Some (Server.stamp_time scan_env))]),
     [SELECT Employees; SELECT TimeEntries; INSERT TimeEntries; COMMIT]).
Proof.
  intros Hc Hn Hfree Hfresh Hw Hid created.
  set (row := ServerEmployees.new_employee png_base64 employee_data
                company_id env).
  assert (Hcreated : created
                     = mkDB (companies db) (users db) (employees db ++ [row])
                         (time_entries db)).
  { unfold created.
    rewrite (create_employee_inserts png_base64 db employee_data company_id
               env Hfree).
    fold row. now rewrite (admits_employee db row) by assumption. }
  rewrite Hcreated.
  assert (Hd : Codec.decode
                 (Server.qr_data
                    (Server.mkQRScanRequest
                       (ServerEmployees.qr_data company_id employee_data env)))
               = inr (company_id, ServerEmployees.number employee_data))
    by now apply decode_qr_data_roundtrip_general.
  assert (He : employee_by_number
                 (mkDB (companies db) (users db) (employees db ++ [row])
                    (time_entries db))
                 (ServerEmployees.number employee_data) company_id
               = Some row).
  { unfold employee_by_number. simpl. rewrite filter_app.
    unfold number_taken in Hfree.
    rewrite (existsb_filter_nil _ _ Hfree). simpl.
    unfold where_number. simpl. now rewrite !String.eqb_refl. }
  apply (scan_check_in _ _ _ _ _ _ Hd He).
  - exact Hw.
  - now apply admits_entry_fresh.
Qed.

Lemma created_employee_checks_in_witness :
  let data := ServerEmployees.mkEmployeeCreate "Ola" "Nowak" "qa" "007" in
  let env := ServerEmployees.mkCreateEnv
               "a1b2c3d4-0000-4000-8000-000000000000" "e2" 5 6 in
  let created :=
    db_after (run (ServerEmployees.create_employee (fun s => s) data "coB"
                     env) (mkDB [] [] [] [])) in
  outcome
    (run (Server.scan_qr
            (Server.mkQRScanRequest (ServerEmployees.qr_data "coB" data env))
            "coB" (Server.mkScanEnv "2024-01-01" 10 11 "t1")) created)
  = inr (Server.mkScanResponse "check_in" "Ola Nowak" 11
           "Pomyślnie rozpoczęto pracę" 5).
Proof.
  intros data env created. unfold created.
  rewrite (created_employee_checks_in (fun s => s) (mkDB [] [] [] []) data
             "coB" env (Server.mkScanEnv "2024-01-01" 10 11 "t1"));
    try reflexivity; simpl; tauto.
Defined.

Lemma decode_without_suffix company_id number :
  Py.contains Codec.underscore company_id = false ->
  Py.contains Codec.underscore number = false ->
  Codec.decode ("EMP_" ++ company_id ++ "_" ++ number)%string
  = inr (company_id, number).
Proof.
  intros Hc Hn. unfold Codec.decode.
  assert (Hs : Py.split Codec.underscore
                 ("EMP_" ++ company_id ++ "_" ++ number)%string
               = ["EMP"; company_id; number]).
  { change ("EMP_" ++ company_id ++ "_" ++ number)%string
      with ("EMP" ++ String Codec.underscore
              (company_id ++ String Codec.underscore number))%string.
    rewrite split_app_sep by reflexivity.
    rewrite split_app_sep by exact Hc.
    now rewrite split_no_sep by exact Hn. }
  rewrite Hs. unfold Py.startswith. now rewrite prefix_app.
Qed.

(** X4. The suffix of a payload carries nothing: for a company id and a
    number without the separator, a scan gives the same result, database and
    statements for every suffix, and for the payload without any suffix. *)
Theorem scan_ignores_suffix
  (db : DB) (company_id number suffix1 suffix2 caller : string)
  (env : Server.ScanEnv) :
  Py.contains Codec.underscore company_id = false ->
  Py.contains Codec.underscore number = false ->
  run (Server.scan_qr
         (Server.mkQRScanRequest (Codec.qr_data company_id number suffix1))
         caller env) db
  = run (Server.scan_qr
           (Server.mkQRScanRequest (Codec.qr_data company_id number suffix2))
           caller env) db
  /\ run (Server.scan_qr
            (Server.mkQRScanRequest (Codec.qr_data company_id number suffix1))
            caller env) db
     = run (Server.scan_qr
              (Server.mkQRScanRequest
                 ("EMP_" ++ company_id ++ "_" ++ number)%string)
              caller env) db.
Proof.
  intros Hc Hn. split; apply scan_by_decode; cbn [Server.qr_data].
  - now rewrite !decode_qr_data_roundtrip_general.
  - now rewrite decode_qr_data_roundtrip_general, decode_without_suffix.
Qed.

Lemma scan_ignores_suffix_witness :
  let db := mkDB [] []
              [mkEmployee "e1" "Jan" "Kowalski" "dev" "007" "png" "co1" 0] [] in
  let env := Server.mkScanEnv "2024-01-01" 0 1 "t1" in
  run (Server.scan_qr (Server.mkQRScanRequest "EMP_co1_007_a1b2c3d4") "co1"
         env) db
  = run (Server.scan_qr (Server.mkQRScanRequest "EMP_co1_007") "co1" env) db.
Proof.
  intros db env.
  exact (proj2 (scan_ignores_suffix db "co1" "007" "a1b2c3d4" "" "co1" env
                  eq_refl eq_refl)).
Defined.

(** ** What a scan leaves alone *)

(** X5. A scan writes to [time_entries] only: companies, users and employees
    are unchanged.  With unique entry ids, every stored entry stays at its
    place, either untouched or (one working entry dated today) with
    check_out and last_scan_time set to the stamp and status completed; the
    table grows by at most one row. *)
Theorem scan_frame
  (db : DB) (scan_data : Server.QRScanRequest) (company_id : string)
  (env : Server.ScanEnv) :
  entry_ids_unique db ->
  let db' := db_after (run (Server.scan_qr scan_data company_id env) db) in
  companies db' = companies db
  /\ users db' = users db
  /\ employees db' = employees db
  /\ (forall i t,
        nth_error (time_entries db) i = Some t ->
        nth_error (time_entries db') i = Some t
        \/ (te_date t = Server.today env /\ te_status t = "working"
            /\ nth_error (time_entries db') i
               = Some (checked_out (Server.stamp_time env) t)))
  /\ (length (time_entries db') = length (time_entries db)
      \/ length (time_entries db') = S (length (time_entries db))).
Proof.
  intros Hu db'. subst db'.
  destruct (scan_db_cases db scan_data company_id env)
    as [-> | [[employee [_ [_ ->]]] | [employee [ex [Hw ->]]]]]; simpl.
  - repeat split; auto.
  - repeat split.
    + intros i t Hi. left. rewrite nth_error_app1; [assumption|].
      apply nth_error_Some. congruence.
    + right. rewrite length_app. simpl. lia.
  - repeat split.
    + intros i t Hi. unfold check_out_rows. rewrite nth_error_map, Hi. simpl.
      destruct (String.eqb_spec (te_id t) (te_id ex)) as [Heq|]; [|now left].
      right. apply fetchone_some in Hw as [Hex Hworking].
      assert (t = ex) as ->
        by (apply (key_unique te_id (time_entries db)); auto;
            eapply nth_error_In; eassumption).
      unfold where_working in Hworking.
      apply andb_true_iff in Hworking as [Hworking Hs].
      apply andb_true_iff in Hworking as [_ Hd].
      apply String.eqb_eq in Hs, Hd. auto.
    + left. unfold check_out_rows. apply length_map.
Qed.

Lemma scan_frame_witness :
  let stale := mkTimeEntry "t0" "e1" (Some 0%Z) None "2023-12-31" "working"
                 (Some 0%Z) in
  let db := mkDB [] []
              [mkEmployee "e1" "Jan" "Kowalski" "dev" "007" "png" "co1" 0]
              [stale] in
  nth_error
    (time_entries
       (db_after
          (run (Server.scan_qr (Server.mkQRScanRequest "EMP_co1_007_a1b2c3d4")
                  "co1" (Server.mkScanEnv "2024-01-01" 90000000000 90000000000
                           "t1")) db))) 0
  = Some stale.
Proof.
  intros stale db.
  destruct (proj1 (proj2 (proj2 (proj2
              (scan_frame db (Server.mkQRScanRequest "EMP_co1_007_a1b2c3d4")
                 "co1" (Server.mkScanEnv "2024-01-01" 90000000000 90000000000
                          "t1")
                 ltac:(repeat constructor; simpl; tauto))))) 0%nat stale
              eq_refl) as [H | [H _]].
  - exact H.
  - discriminate H.
Defined.

(** ** A working day *)

(** X6. Check-in then check-out: when a scan opens a session for an employee
    and a second scan of the same payload comes on the same day at least 5
    seconds after the first stamp, the second scan answers check_out and the
    table ends with one completed entry carrying the first stamp as check_in
    and the second as check_out. *)
Theorem check_in_then_check_out
  (db : DB) (scan_data : Server.QRScanRequest) (company_id : string)
  (env1 env2 : Server.ScanEnv) (employee_number : string)
  (employee : Employee) :
  Codec.decode (Server.qr_data scan_data) = inr (company_id, employee_number) ->
  employee_by_number db employee_number company_id = Some employee ->
  working_entry db (em_id employee) (Server.today env1) = None ->
  ~ In (Server.entry_id env1) (map te_id (time_entries db)) ->
  Server.today env2 = Server.today env1 ->
  (Server.COOLDOWN_SECONDS * Server.microseconds
   <= Server.current_time env2 - Server.stamp_time env1)%Z ->
  let opened := db_after (run (Server.scan_qr scan_data company_id env1) db) in
  run (Server.scan_qr scan_data company_id env2) opened
  = (inr (Server.mkScanResponse "check_out"
            (em_name employee ++ " " ++ em_surname employee)
            (Server.stamp_time env2) "Pomyślnie zakończono pracę" 5),
     mkDB (companies db) (users db) (employees db)
       (time_entries db
        ++ [mkTimeEntry (Server.entry_id env1) (em_id employee)
              (Some (Server.stamp_time env1))
              (Some (Server.stamp_time env2)) (Server.today env1)
              "completed" (Some (Server.stamp_time env2))]),
     [SELECT Employees; SELECT TimeEntries; UPDATE TimeEntries; COMMIT]).
Proof.
  intros Hd He Hw Hfresh Htoday Hlater opened.
  pose proof Hfresh as Ha.
  apply (admits_entry_fresh _ (check_in_entry employee env1)) in Ha.
  assert (Hopened : opened
                    = mkDB (companies db) (users db) (employees db)
                        (time_entries db ++ [check_in_entry employee env1]))
    by (unfold opened; now rewrite (scan_check_in _ _ _ _ _ _ Hd He Hw Ha)).
  rewrite Hopened.
  assert (Hw2 : working_entry
                  (mkDB (companies db) (users db) (employees db)
                     (time_entries db ++ [check_in_entry employee env1]))
                  (em_id employee) (Server.today env2)
                = Some (check_in_entry employee env1)).
  { unfold working_entry. simpl. rewrite filter_app, Htoday.
    rewrite (fetchone_none _ _ Hw). simpl.
    unfold where_working, check_in_entry. simpl.
    now rewrite !String.eqb_refl. }
  assert (Hc : cooling_down (Server.current_time env2)
                 (check_in_entry employee env1) = false).
  { unfold cooling_down, check_in_entry. simpl. apply Z.ltb_ge. exact Hlater. }
  rewrite (scan_check_out
             (mkDB (companies db) (users db) (employees db)
                (time_entries db ++ [check_in_entry employee env1]))
             scan_data company_id env2 employee_number employee
             Hd He _ Hw2 Hc).
  simpl. unfold check_out_rows at 1. rewrite map_app.
  fold (check_out_rows (check_in_entry employee env1) env2 (time_entries db)).
  rewrite check_out_rows_other.
  - simpl. now rewrite String.eqb_refl.
  - intros t Ht Heq. apply Hfresh. simpl in Heq. rewrite <- Heq.
    now apply in_map.
Qed.

Lemma check_in_then_check_out_witness :
  let employee := mkEmployee "e1" "Jan" "Kowalski" "dev" "007" "png" "co1" 0 in
  let db := mkDB [] [] [employee] [] in
  let scan_data := Server.mkQRScanRequest "EMP_co1_007_a1b2c3d4" in
  let morning := Server.mkScanEnv "2024-01-01" 0 1 "t1" in
  let evening := Server.mkScanEnv "2024-01-01" 28800000000 28800000001 "t2" in
  time_entries
    (db_after
       (run (Server.scan_qr scan_data "co1" evening)
          (db_after (run (Server.scan_qr scan_data "co1" morning) db))))
  = [mkTimeEntry "t1" "e1" (Some 1%Z) (Some 28800000001%Z) "2024-01-01"
       "completed" (Some 28800000001%Z)].
Proof.
  intros employee db scan_data morning evening.
  rewrite (check_in_then_check_out db scan_data "co1" morning evening "007"
             employee); try reflexivity.
  - simpl. tauto.
  - vm_compute. discriminate.
Defined.

(** ** [delete_employee] inside the company *)

Lemma numbers_unique_same l x y :
  ServerEmployees.numbers_unique l = true ->
  In x l -> In y l ->
  em_number x = em_number y -> em_company_id x = em_company_id y -> x = y.
Proof.
  induction l as [|z l IH]; simpl; [tauto|].
  intros Hu Hx Hy Hn Hc. apply andb_true_iff in Hu as [Hz Hl].
  apply negb_true_iff in Hz.
  assert (Hclash : forall w, In w l -> em_number w = em_number z ->
                             em_company_id w = em_company_id z -> False).
  { intros w Hw H1 H2.
    assert (existsb (where_number (em_number z) (em_company_id z)) l = true);
      [|congruence].
    apply existsb_exists. exists w. split; [assumption|].
    unfold where_number. now rewrite H1, H2, !String.eqb_refl. }
  destruct Hx as [->|Hx], Hy as [->|Hy]; auto.
  - exfalso. now apply (Hclash y).
  - exfalso. now apply (Hclash x).
Qed.

(** X7. Deleting an employee of the caller's company removes it together
    with every time entry under its id, leaves the other employees in place,
    and (numbers being unique within a company) makes later scans of its
    payload answer 404. *)
Theorem deleted_employee_qr_stops
  (db : DB) (e : Employee) (scan_data : Server.QRScanRequest)
  (env : Server.ScanEnv) :
  In e (employees db) ->
  employee_numbers_unique db ->
  Codec.decode (Server.qr_data scan_data)
  = inr (em_company_id e, em_number e) ->
  let db' :=
    db_after (run (Server.delete_employee (em_id e) (em_company_id e)) db) in
  ~ In e (employees db')
  /\ (forall t, In t (time_entries db') -> te_employee_id t <> em_id e)
  /\ (forall e', In e' (employees db) -> em_id e' <> em_id e ->
                 In e' (employees db'))
  /\ run (Server.scan_qr scan_data (em_company_id e) env) db'
     = (inl (HTTPException 404 (Text "Employee not found")), db',
        [SELECT Employees]).
Proof.
  intros Hin Hu Hd db'. subst db'. rewrite delete_employee_run.
  cbn [db_after fst snd employees time_entries].
  split; [|split; [|split]].
  - intros H. apply filter_In in H as [_ H].
    now rewrite !String.eqb_refl in H.
  - intros t Ht. apply filter_In in Ht as [_ Ht].
    apply negb_true_iff in Ht. now apply String.eqb_neq.
  - intros e' He' Hne. apply filter_In. split; [assumption|].
    apply String.eqb_neq in Hne. now rewrite Hne.
  - apply (scan_unknown_employee _ _ _ _ (em_number e)); [assumption|].
    unfold employee_by_number. cbn [employees].
    destruct (filter _ (filter _ _)) as [|e' l] eqn:E; [reflexivity|].
    exfalso.
    assert (He' : In e' (e' :: l)) by now left.
    rewrite <- E in He'. apply filter_In in He' as [He' Hw].
    apply filter_In in He' as [He' Hkeep].
    unfold where_number in Hw. apply andb_true_iff in Hw as [Hn Hc].
    apply String.eqb_eq in Hn, Hc.
    assert (e' = e) as -> by now apply (numbers_unique_same (employees db)).
    now rewrite !String.eqb_refl in Hkeep.
Qed.

Lemma deleted_employee_qr_stops_witness :
  let e := mkEmployee "e1" "Jan" "Kowalski" "dev" "007" "png" "co1" 0 in
  let db := mkDB [] [] [e]
              [mkTimeEntry "t1" "e1" (Some 0%Z) None "2024-01-01" "working"
                 (Some 0%Z)] in
  outcome
    (run (Server.scan_qr (Server.mkQRScanRequest "EMP_co1_007_a1b2c3d4") "co1"
            (Server.mkScanEnv "2024-01-01" 9 9 "t2"))
       (db_after (run (Server.delete_employee "e1" "co1") db)))
  = inl (HTTPException 404 (Text "Employee not found")).
Proof.
  intros e db.
  destruct (deleted_employee_qr_stops db e
              (Server.mkQRScanRequest "EMP_co1_007_a1b2c3d4")
              (Server.mkScanEnv "2024-01-01" 9 9 "t2"))
    as (_ & _ & _ & H).
  - now left.
  - reflexivity.
  - reflexivity.
  - cbn [em_id em_company_id e] in H. now rewrite H.
Defined.

(** ** [update_employee] *)

Ltac run_handler' h := rewrite run'_unfold; unfold h; mred'.

Lemma where_number_key e l :
  existsb (where_number (em_number e) (em_company_id e)) l = true
  <-> In (number_key e) (map number_key l).
Proof.
  rewrite existsb_exists, in_map_iff. unfold where_number, number_key. split.
  - intros [x [Hx Hw]]. apply andb_true_iff in Hw as [H1 H2].
    apply String.eqb_eq in H1, H2. exists x. split; [congruence|assumption].
  - intros [x [Hk Hx]]. injection Hk as H1 H2. exists x.
    split; [assumption|]. now rewrite H1, H2, !String.eqb_refl.
Qed.

Lemma numbers_unique_NoDup l :
  ServerEmployees.numbers_unique l = true <-> NoDup (map number_key l).
Proof.
  induction l as [|e l IH]; simpl.
  - split; [constructor|reflexivity].
  - rewrite andb_true_iff, negb_true_iff, IH. split.
    + intros [Hn Hl]. constructor; [|assumption].
      rewrite <- where_number_key. congruence.
    + intros H. inversion H as [|? ? Hn Hl]; subst. split; [|assumption].
      destruct (existsb _ l) eqn:E; [|reflexivity].
      apply where_number_key in E. contradiction.
Qed.

Lemma fetchone_split {R} (p : R -> bool) l x :
  fetchone (filter p l) = Some x ->
  exists before after,
    l = before ++ x :: after /\ filter p before = [] /\ p x = true.
Proof.
  induction l as [|y l IH]; simpl; [discriminate|].
  destruct (p y) eqn:Hy.
  - intros [= ->]. exists [], l. auto.
  - intros H. destruct (IH H) as (before & after & -> & Hb & Hx).
    exists (y :: before), after. simpl. now rewrite Hy.
Qed.

Section UpdateEmployee.

Import ServerEmployees.

Variables (db : DB) (employee_id : string) (employee_data : EmployeeUpdate)
          (company_id : string).

Lemma update_employee_not_found :
  fetchone (filter (where_id employee_id company_id) (employees db)) = None ->
  run' (update_employee employee_id employee_data company_id) db
  = (inl (Raised (HTTPException 404 (Text "Employee not found"))), db,
     [SELECT Employees]).
Proof.
  intros H. run_handler' update_employee. rewrite H. reflexivity.
Qed.

Variable employee : Employee.
Hypothesis Hfound :
  fetchone (filter (where_id employee_id company_id) (employees db))
  = Some employee.

Lemma update_employee_conflict number existing :
  new_number employee_data = Some number ->
  fetchone (filter (fun e => where_number number company_id e
                             && negb (em_id e =? employee_id))
              (employees db)) = Some existing ->
  run' (update_employee employee_id employee_data company_id) db
  = (inl (Raised (HTTPException 400
                    (Text "Numer pracownika już istnieje w tej firmie"))),
     db, [SELECT Employees; SELECT Employees]).
Proof.
  intros Hn He. run_handler' update_employee.
  rewrite Hfound. mred'. rewrite Hn. mred'. rewrite He. reflexivity.
Qed.

Lemma update_employee_no_fields_run :
  has_fields employee_data = false ->
  run' (update_employee employee_id employee_data company_id) db
  = (inr employee, db, [SELECT Employees; SELECT Employees]).
Proof.
  intros Hf.
  assert (Hn : new_number employee_data = None).
  { revert Hf. unfold has_fields.
    destruct (new_name employee_data), (new_surname employee_data),
      (new_position employee_data), (new_number employee_data);
      congruence. }
  run_handler' update_employee. rewrite Hfound. mred'.
  rewrite Hn. mred'. rewrite Hf. mred'. rewrite Hfound. reflexivity.
Qed.

End UpdateEmployee.

Lemma where_id_set_fields employee_id company_id employee_data e :
  ServerEmployees.where_id employee_id company_id
    (ServerEmployees.set_fields employee_data e)
  = ServerEmployees.where_id employee_id company_id e.
Proof. reflexivity. Qed.

Lemma fetchone_filter_update {R} (p : R -> bool) (f : R -> R) l :
  (forall r, p (f r) = p r) ->
  fetchone (filter p (map (fun r => if p r then f r else r) l))
  = option_map f (fetchone (filter p l)).
Proof.
  intros Hp. induction l as [|x l IH]; simpl; [reflexivity|].
  destruct (p x) eqn:Hx.
  - rewrite Hp, Hx. reflexivity.
  - rewrite Hx. exact IH.
Qed.

Lemma update_employee_applied db employee_id employee_data company_id employee :
  fetchone (filter (ServerEmployees.where_id employee_id company_id)
              (employees db)) = Some employee ->
  match ServerEmployees.new_number employee_data with
  | Some number =>
      fetchone (filter (fun e => where_number number company_id e
                                 && negb (em_id e =? employee_id))
                  (employees db)) = None
  | None => True
  end ->
  ServerEmployees.has_fields employee_data = true ->
  ServerEmployees.numbers_unique
    (map (fun r => if ServerEmployees.where_id employee_id company_id r
                   then ServerEmployees.set_fields employee_data r else r)
       (employees db)) = true ->
  ServerEmployees.run'
    (ServerEmployees.update_employee employee_id employee_data company_id) db
  = (inr (ServerEmployees.set_fields employee_data employee),
     mkDB (companies db) (users db)
       (map (fun r => if ServerEmployees.where_id employee_id company_id r
                      then ServerEmployees.set_fields employee_data r else r)
          (employees db))
       (time_entries db),
     [SELECT Employees]
     ++ match ServerEmployees.new_number employee_data with
        | Some _ => [SELECT Employees]
        | None => []
        end
     ++ [UPDATE Employees; COMMIT; SELECT Employees]).
Proof.
  intros Hfound Hfree Hf Hu.
  run_handler' ServerEmployees.update_employee. rewrite Hfound. mred'.
  destruct (ServerEmployees.new_number employee_data) as [number|];
    [rewrite Hfree|]; mred'; rewrite Hf; mred'; rewrite Hu;
    rewrite andb_false_r; mred';
    rewrite (fetchone_filter_update _ _ _
               (where_id_set_fields employee_id company_id employee_data));
    rewrite Hfound; reflexivity.
Qed.

Lemma NoDup_middle {A} (x : A) before after :
  NoDup (before ++ after) -> ~ In x (before ++ after) ->
  NoDup (before ++ x :: after).
Proof.
  induction before as [|y before IH]; simpl; intros Hnd Hx.
  - now constructor.
  - inversion Hnd as [|? ? Hy Hnd']; subst. constructor.
    + intros H. apply in_app_or in H as [H|[H|H]].
      * apply Hy, in_or_app. now left.
      * subst. apply Hx. now left.
      * apply Hy, in_or_app. now right.
    + apply IH; [assumption|]. intros H. apply Hx. now right.
Qed.

Lemma unique_id_fetchone db employee company_id :
  employee_ids_unique db ->
  In employee (employees db) ->
  em_company_id employee = company_id ->
  fetchone (filter (ServerEmployees.where_id (em_id employee) company_id)
              (employees db)) = Some employee.
Proof.
  intros Hu Hin Hc.
  assert (Hin' : In employee
                   (filter (ServerEmployees.where_id (em_id employee)
                              company_id) (employees db))).
  { apply filter_In. split; [assumption|].
    unfold ServerEmployees.where_id. now rewrite Hc, !String.eqb_refl. }
  destruct (filter _ (employees db)) as [|x l] eqn:E; [destruct Hin'|].
  simpl. f_equal.
  assert (Hx : In x (x :: l)) by now left.
  rewrite <- E in Hx. apply filter_In in Hx as [Hx Hw].
  unfold ServerEmployees.where_id in Hw. apply andb_true_iff in Hw as [Hid _].
  apply String.eqb_eq in Hid.
  now apply (key_unique em_id (employees db)).
Qed.

Lemma update_rows_split employee_id company_id employee_data before e after :
  em_id e = employee_id -> em_company_id e = company_id ->
  (forall x, In x (before ++ after) -> em_id x <> employee_id) ->
  map (fun r => if ServerEmployees.where_id employee_id company_id r
                then ServerEmployees.set_fields employee_data r else r)
    (before ++ e :: after)
  = before ++ ServerEmployees.set_fields employee_data e :: after.
Proof.
  intros Hid Hc Hother.
  assert (Hkeep : forall l, (forall x, In x l -> em_id x <> employee_id) ->
            map (fun r => if ServerEmployees.where_id employee_id company_id r
                          then ServerEmployees.set_fields employee_data r
                          else r) l = l).
  { intros l Hl. rewrite <- (map_id l) at 2. apply map_ext_in.
    intros x Hx. unfold ServerEmployees.where_id.
    apply Hl, String.eqb_neq in Hx. now rewrite Hx. }
  rewrite map_app. simpl.
  rewrite !Hkeep by (intros x Hx; apply Hother, in_or_app; tauto).
  unfold ServerEmployees.where_id at 1.
  now rewrite Hid, Hc, !String.eqb_refl.
Qed.

(** The state an accepted update starts from and the one it leaves. *)
Lemma update_employee_split db employee_data employee :
  employee_ids_unique db ->
  employee_numbers_unique db ->
  In employee (employees db) ->
  ServerEmployees.has_fields employee_data = true ->
  (forall number e',
     ServerEmployees.new_number employee_data = Some number ->
     In e' (employees db) -> em_number e' = number ->
     em_company_id e' = em_company_id employee ->
     em_id e' = em_id employee) ->
  exists before after,
    employees db = before ++ employee :: after
    /\ (forall x, In x (before ++ after) -> em_id x <> em_id employee)
    /\ ~ In (number_key employee) (map number_key (before ++ after))
    /\ NoDup (map number_key
                (before ++ ServerEmployees.set_fields employee_data employee
                 :: after))
    /\ ServerEmployees.run'
         (ServerEmployees.update_employee (em_id employee) employee_data
            (em_company_id employee)) db
       = (inr (ServerEmployees.set_fields employee_data employee),
          mkDB (companies db) (users db)
            (before ++ ServerEmployees.set_fields employee_data employee
             :: after)
            (time_entries db),
          [SELECT Employees]
          ++ match ServerEmployees.new_number employee_data with
             | Some _ => [SELECT Employees]
             | None => []
             end
          ++ [UPDATE Employees; COMMIT; SELECT Employees]).
Proof.
  intros Hid Hnum Hin Hf Hfree.
  destruct (in_split _ _ Hin) as (before & after & Hl).
  exists before, after.
  unfold employee_ids_unique in Hid. unfold employee_numbers_unique in Hnum.
  apply numbers_unique_NoDup in Hnum.
  assert (Hother : forall x, In x (before ++ after) ->
                             em_id x <> em_id employee).
  { intros x Hx Heq. rewrite Hl, map_app in Hid. simpl in Hid.
    apply NoDup_remove_2 in Hid. apply Hid.
    rewrite <- map_app, <- Heq. now apply in_map. }
  assert (Hkey : ~ In (number_key employee)
                     (map number_key (before ++ after))).
  { rewrite Hl, map_app in Hnum. simpl in Hnum.
    apply NoDup_remove_2 in Hnum. now rewrite map_app. }
  assert (Hnew : NoDup (map number_key
                          (before
                           ++ ServerEmployees.set_fields employee_data employee
                           :: after))).
  { rewrite map_app. simpl. apply NoDup_middle.
    - rewrite Hl, map_app in Hnum. simpl in Hnum.
      now apply NoDup_remove_1 in Hnum.
    - rewrite <- map_app. unfold number_key at 1. simpl.
      destruct (ServerEmployees.new_number employee_data) as [number|] eqn:Hn;
        [|exact Hkey].
      intros H. apply in_map_iff in H as (e' & Hk & He').
      injection Hk as H1 H2.
      apply (Hother e' He').
      apply (Hfree number e' eq_refl); auto.
      rewrite Hl. apply in_app_or in He'. apply in_or_app. simpl. tauto. }
  repeat split; try assumption.
  rewrite (update_employee_applied db (em_id employee) employee_data
             (em_company_id employee) employee).
  - rewrite Hl, (update_rows_split _ _ _ _ _ _ eq_refl eq_refl Hother).
    reflexivity.
  - now apply unique_id_fetchone.
  - destruct (ServerEmployees.new_number employee_data) as [number|] eqn:Hn;
      [|exact I].
    destruct (filter _ (employees db)) as [|e' l] eqn:E; [reflexivity|].
    exfalso.
    assert (He' : In e' (e' :: l)) by now left.
    rewrite <- E in He'. apply filter_In in He' as [He' Hw].
    apply andb_true_iff in Hw as [Hw Hne].
    unfold where_number in Hw. apply andb_true_iff in Hw as [H1 H2].
    apply String.eqb_eq in H1, H2.
    apply negb_true_iff, String.eqb_neq in Hne.
    apply Hne. now apply (Hfree number e' eq_refl).
  - exact Hf.
  - rewrite Hl, (update_rows_split _ _ _ _ _ _ eq_refl eq_refl Hother).
    now apply numbers_unique_NoDup.
Qed.

(** X8. [update_employee] on an id that names no employee of the caller's
    company (none at all, or an employee of another company) answers 404
    after one SELECT and changes nothing, whatever fields were sent. *)
Theorem update_employee_foreign_id
  (db : DB) (employee_id : string)
  (employee_data : ServerEmployees.EmployeeUpdate) (company_id : string) :
  (forall e, In e (employees db) ->
             em_id e = employee_id -> em_company_id e <> company_id) ->
  ServerEmployees.run'
    (ServerEmployees.update_employee employee_id employee_data company_id) db
  = (inl (ServerEmployees.Raised
            (HTTPException 404 (Text "Employee not found"))),
     db, [SELECT Employees]).
Proof.
  intros Hforeign. apply update_employee_not_found.
  destruct (filter _ (employees db)) as [|e l] eqn:E; [reflexivity|].
  exfalso.
  assert (He : In e (e :: l)) by now left.
  rewrite <- E in He. apply filter_In in He as [He Hw].
  unfold ServerEmployees.where_id in Hw. apply andb_true_iff in Hw as [H1 H2].
  apply String.eqb_eq in H1, H2. now apply (Hforeign e).
Qed.

Lemma update_employee_foreign_id_witness :
  let db := mkDB [] []
              [mkEmployee "e1" "Jan" "Kowalski" "dev" "007" "png" "coA" 0] [] in
  ServerEmployees.run'
    (ServerEmployees.update_employee "e1"
       (ServerEmployees.mkEmployeeUpdate (Some "X") None None None) "coB") db
  = (inl (ServerEmployees.Raised
            (HTTPException 404 (Text "Employee not found"))),
     db, [SELECT Employees]).
Proof.
  intros db. apply (update_employee_foreign_id db).
  intros e [<-|[]] _. discriminate.
Defined.

(** X9. No partial update: when the new number already belongs to another
    employee of the company, [update_employee] answers 400 and nothing is
    written, also when a new name, surname or position came with it. *)
Theorem update_employee_number_conflict
  (db : DB) (employee_data : ServerEmployees.EmployeeUpdate)
  (employee other : Employee) (number : string) :
  employee_ids_unique db ->
  In employee (employees db) ->
  In other (employees db) ->
  em_id other <> em_id employee ->
  em_company_id other = em_company_id employee ->
  em_number other = number ->
  ServerEmployees.new_number employee_data = Some number ->
  ServerEmployees.run'
    (ServerEmployees.update_employee (em_id employee) employee_data
       (em_company_id employee)) db
  = (inl (ServerEmployees.Raised
            (HTTPException 400
               (Text "Numer pracownika już istnieje w tej firmie"))),
     db, [SELECT Employees; SELECT Employees]).
Proof.
  intros Hid Hin Hother Hne Hc Hnum Hn.
  assert (Hex : existsb (fun e => where_number number (em_company_id employee) e
                                  && negb (em_id e =? em_id employee))
                  (employees db) = true).
  { apply existsb_exists. exists other. split; [assumption|].
    unfold where_number. rewrite Hnum, Hc, !String.eqb_refl.
    apply String.eqb_neq in Hne. now rewrite Hne. }
  apply existsb_fetchone in Hex as [existing Hex].
  apply (update_employee_conflict db (em_id employee) employee_data
           (em_company_id employee) employee
           (unique_id_fetchone db employee _ Hid Hin eq_refl)
           number existing Hn Hex).
Qed.

Lemma update_employee_number_conflict_witness :
  let jan := mkEmployee "e1" "Jan" "Kowalski" "dev" "007" "png" "co1" 0 in
  let ola := mkEmployee "e2" "Ola" "Nowak" "qa" "008" "png" "co1" 0 in
  let db := mkDB [] [] [jan; ola] [] in
  ServerEmployees.run'
    (ServerEmployees.update_employee "e1"
       (ServerEmployees.mkEmployeeUpdate (Some "Janusz") None None
          (Some "008")) "co1") db
  = (inl (ServerEmployees.Raised
            (HTTPException 400
               (Text "Numer pracownika już istnieje w tej firmie"))),
     db, [SELECT Employees; SELECT Employees]).
Proof.
  intros jan ola db.
  apply (update_employee_number_conflict db _ jan ola "008");
    try reflexivity.
  - repeat constructor; simpl; intuition discriminate.
  - now left.
  - right. now left.
  - discriminate.
Defined.

(** X10. An accepted update rewrites one row: for a stored employee of the
    caller's company, a request with at least one field whose new number (if
    any) is held by no other employee of the company replaces that row, at
    its place, by itself with the sent fields, keeping its id, company, QR
    image and creation time; every other row is unchanged, the updated row is
    returned, and both keys of [employees] still hold. *)
Theorem update_employee_rewrites_one_row
  (db : DB) (employee_data : ServerEmployees.EmployeeUpdate)
  (employee : Employee) :
  employee_ids_unique db ->
  employee_numbers_unique db ->
  In employee (employees db) ->
  ServerEmployees.has_fields employee_data = true ->
  (forall number e',
     ServerEmployees.new_number employee_data = Some number ->
     In e' (employees db) -> em_number e' = number ->
     em_company_id e' = em_company_id employee ->
     em_id e' = em_id employee) ->
  let result :=
    ServerEmployees.run'
      (ServerEmployees.update_employee (em_id employee) employee_data
         (em_company_id employee)) db in
  let updated :=
    mkEmployee (em_id employee)
      (match ServerEmployees.new_name employee_data with
       | Some v => v | None => em_name employee end)
      (match ServerEmployees.new_surname employee_data with
       | Some v => v | None => em_surname employee end)
      (match ServerEmployees.new_position employee_data with
       | Some v => v | None => em_position employee end)
      (match ServerEmployees.new_number employee_data with
       | Some v => v | None => em_number employee end)
      (em_qr_code employee) (em_company_id employee)
      (em_created_at employee) in
  exists before after,
    employees db = before ++ employee :: after
    /\ fst (fst result) = inr updated
    /\ snd (fst result)
       = mkDB (companies db) (users db) (before ++ updated :: after)
           (time_entries db)
    /\ employee_ids_unique (snd (fst result))
    /\ employee_numbers_unique (snd (fst result)).
Proof.
  intros Hid Hnum Hin Hf Hfree result updated.
  destruct (update_employee_split db employee_data employee Hid Hnum Hin Hf
              Hfree) as (before & after & Hl & Hother & Hkey & Hnew & Hrun).
  exists before, after. unfold result. rewrite Hrun.
  cbn [fst snd]. repeat split; try assumption.
  - unfold employee_ids_unique in *. cbn [employees].
    rewrite Hl in Hid. rewrite map_app in *. exact Hid.
  - unfold employee_numbers_unique. cbn [employees].
    now apply numbers_unique_NoDup.
Qed.

Lemma update_employee_rewrites_one_row_witness :
  let jan := mkEmployee "e1" "Jan" "Kowalski" "dev" "007" "png" "co1" 0 in
  let ola := mkEmployee "e2" "Ola" "Nowak" "qa" "008" "png" "co1" 0 in
  exists before after,
    [jan; ola] = before ++ ola :: after
    /\ snd (fst (ServerEmployees.run'
                   (ServerEmployees.update_employee "e2"
                      (ServerEmployees.mkEmployeeUpdate None None
                         (Some "lead") (Some "009")) "co1")
                   (mkDB [] [] [jan; ola] [])))
       = mkDB [] []
           (before ++ mkEmployee "e2" "Ola" "Nowak" "lead" "009" "png" "co1" 0
            :: after) [].
Proof.
  intros jan ola.
  destruct (update_employee_rewrites_one_row (mkDB [] [] [jan; ola] [])
              (ServerEmployees.mkEmployeeUpdate None None (Some "lead")
                 (Some "009")) ola)
    as (before & after & Hl & _ & Hdb & _).
  - repeat constructor; simpl; intuition discriminate.
  - reflexivity.
  - right. now left.
  - reflexivity.
  - intros number e' [= <-] [<-|[<-|[]]] Hn _; [discriminate Hn|reflexivity].
  - exists before, after. split; [exact Hl | exact Hdb].
Defined.

(** X11. Renumbering does not reissue the QR code: after an accepted update
    that changes an employee's number, the stored QR image is the old one
    and a scan of the payload issued for the old number answers 404. *)
Theorem renumbered_employee_qr_stops
  (db : DB) (employee_data : ServerEmployees.EmployeeUpdate)
  (employee : Employee) (number : string)
  (scan_data : Server.QRScanRequest) (env : Server.ScanEnv) :
  employee_ids_unique db ->
  employee_numbers_unique db ->
  In employee (employees db) ->
  ServerEmployees.new_number employee_data = Some number ->
  number <> em_number employee ->
  (forall e', In e' (employees db) -> em_number e' = number ->
              em_company_id e' <> em_company_id employee) ->
  Codec.decode (Server.qr_data scan_data)
  = inr (em_company_id employee, em_number employee) ->
  let result :=
    ServerEmployees.run'
      (ServerEmployees.update_employee (em_id employee) employee_data
         (em_company_id employee)) db in
  (exists updated,
     fst (fst result) = inr updated
     /\ em_number updated = number
     /\ em_qr_code updated = em_qr_code employee)
  /\ run (Server.scan_qr scan_data (em_company_id employee) env)
       (snd (fst result))
     = (inl (HTTPException 404 (Text "Employee not found")),
        snd (fst result), [SELECT Employees]).
Proof.
  intros Hid Hnum Hin Hn Hne Hfree Hd result.
  assert (Hf : ServerEmployees.has_fields employee_data = true).
  { unfold ServerEmployees.has_fields. rewrite Hn.
    now destruct (ServerEmployees.new_name employee_data),
      (ServerEmployees.new_surname employee_data),
      (ServerEmployees.new_position employee_data). }
  destruct (update_employee_split db employee_data employee Hid Hnum Hin Hf)
    as (before & after & Hl & Hother & Hkey & Hnew & Hrun).
  { intros n e' Hn' He' H1 H2. exfalso.
    rewrite Hn in Hn'. injection Hn' as <-. now apply (Hfree e'). }
  unfold result. rewrite Hrun. cbn [fst snd]. split.
  - eexists. split; [reflexivity|].
    unfold ServerEmployees.set_fields. cbn [em_number em_qr_code].
    now rewrite Hn.
  - apply (scan_unknown_employee _ _ _ _ (em_number employee)); [assumption|].
    unfold employee_by_number. cbn [employees].
    destruct (filter _ _) as [|e' l] eqn:E; [reflexivity|].
    exfalso.
    assert (He' : In e' (e' :: l)) by now left.
    rewrite <- E in He'. apply filter_In in He' as [He' Hw].
    unfold where_number in Hw. apply andb_true_iff in Hw as [H1 H2].
    apply String.eqb_eq in H1, H2.
    apply in_app_or in He' as [He'|[<-|He']].
    + apply Hkey. apply in_map_iff. exists e'.
      split; [unfold number_key; congruence | apply in_or_app; now left].
    + unfold ServerEmployees.set_fields in H1. cbn [em_number] in H1.
      rewrite Hn in H1. contradiction.
    + apply Hkey. apply in_map_iff. exists e'.
      split; [unfold number_key; congruence | apply in_or_app; now right].
Qed.

Lemma renumbered_employee_qr_stops_witness :
  let jan := mkEmployee "e1" "Jan" "Kowalski" "dev" "007" "png" "co1" 0 in
  let db := mkDB [] [] [jan] [] in
  outcome
    (run (Server.scan_qr (Server.mkQRScanRequest "EMP_co1_007_a1b2c3d4") "co1"
            (Server.mkScanEnv "2024-01-01" 0 1 "t1"))
       (snd (fst (ServerEmployees.run'
                    (ServerEmployees.update_employee "e1"
                       (ServerEmployees.mkEmployeeUpdate None None None
                          (Some "700")) "co1") db))))
  = inl (HTTPException 404 (Text "Employee not found")).
Proof.
  intros jan db.
  destruct (renumbered_employee_qr_stops db
              (ServerEmployees.mkEmployeeUpdate None None None (Some "700"))
              jan "700" (Server.mkQRScanRequest "EMP_co1_007_a1b2c3d4")
              (Server.mkScanEnv "2024-01-01" 0 1 "t1")) as [_ H].
  - repeat constructor. simpl. tauto.
  - reflexivity.
  - now left.
  - reflexivity.
  - discriminate.
  - intros e' [<-|[]] Hn. discriminate Hn.
  - reflexivity.
  - cbn [em_id em_company_id jan] in H. now rewrite H.
Defined.

(** X12. An update without any field writes nothing: for a stored employee
    of the caller's company the handler sends two SELECTs, no UPDATE and no
    COMMIT, leaves the database as it is and returns the stored row. *)
Theorem update_employee_without_fields
  (db : DB) (employee : Employee) :
  employee_ids_unique db ->
  In employee (employees db) ->
  ServerEmployees.run'
    (ServerEmployees.update_employee (em_id employee)
       (ServerEmployees.mkEmployeeUpdate None None None None)
       (em_company_id employee)) db
  = (inr employee, db, [SELECT Employees; SELECT Employees]).
Proof.
  intros Hid Hin.
  apply update_employee_no_fields_run; [|reflexivity].
  now apply unique_id_fetchone.
Qed.

Lemma update_employee_without_fields_witness :
  let jan := mkEmployee "e1" "Jan" "Kowalski" "dev" "007" "png" "co1" 0 in
  ServerEmployees.run'
    (ServerEmployees.update_employee "e1"
       (ServerEmployees.mkEmployeeUpdate None None None None) "co1")
    (mkDB [] [] [jan] [])
  = (inr jan, mkDB [] [] [jan] [], [SELECT Employees; SELECT Employees]).
Proof.
  intros jan.
  apply (update_employee_without_fields (mkDB [] [] [jan] []) jan).
  - repeat constructor. simpl. tauto.
  - now left.
Defined.

(** ** Users of a company *)

Lemma create_company_user_taken db user_data current_user env :
  username_taken db (ServerUsers.username user_data) = true ->
  run (ServerUsers.create_company_user user_data current_user env) db
  = (inl (HTTPException 400 (Text "Nazwa użytkownika już istnieje")), db,
     [SELECT Users]).
Proof.
  intros H. apply existsb_fetchone in H as [u Hu].
  run_handler ServerUsers.create_company_user. rewrite Hu. reflexivity.
Qed.

Lemma create_company_user_inserts db user_data current_user env :
  username_taken db (ServerUsers.username user_data) = false ->
  run (ServerUsers.create_company_user user_data current_user env) db
  = if negb (existsb (fun x => us_id x =? ServerUsers.new_user_uuid env)
               (users db))
    then (inr (ServerUsers.mkUserInfo (ServerUsers.new_user_uuid env)
                 (ServerUsers.username user_data)
                 (ServerUsers.email user_data) (ServerUsers.role user_data)
                 (us_company_id current_user)),
          mkDB (companies db)
            (users db ++ [ServerUsers.new_user user_data current_user env])
            (employees db) (time_entries db),
          [SELECT Users; INSERT Users; COMMIT])
    else (inl IntegrityError, db, [SELECT Users; INSERT Users]).
Proof.
  intros H. unfold username_taken in H. pose proof H as Hf.
  apply existsb_filter_nil in Hf.
  run_handler ServerUsers.create_company_user. rewrite Hf, fetchone_nil. mred.
  cbn [us_id us_username]. rewrite H. cbn [negb andb]. rewrite andb_true_r.
  destruct (negb (existsb _ (users db))); reflexivity.
Qed.

(** X13. [create_company_user] answers 400 and writes nothing when the
    username exists anywhere (in any company); otherwise, with a fresh uuid,
    it appends one user, always in the calling admin's company and with the
    role of the request.  In every case usernames stay unique and every
    company keeps an admin. *)
Theorem create_company_user_conflict_or_added
  (db : DB) (user_data : ServerUsers.UserCreate) (current_user : User)
  (env : ServerUsers.CreateEnv) :
  let result :=
    run (ServerUsers.create_company_user user_data current_user env) db in
  ((exists u, In u (users db)
              /\ us_username u = ServerUsers.username user_data) ->
   result
   = (inl (HTTPException 400 (Text "Nazwa użytkownika już istnieje")), db,
      [SELECT Users]))
  /\ (~ In (ServerUsers.username user_data) (map us_username (users db)) ->
      ~ In (ServerUsers.new_user_uuid env) (map us_id (users db)) ->
      result
      = (inr (ServerUsers.mkUserInfo (ServerUsers.new_user_uuid env)
                (ServerUsers.username user_data)
                (ServerUsers.email user_data) (ServerUsers.role user_data)
                (us_company_id current_user)),
         mkDB (companies db)
           (users db
            ++ [mkUser (ServerUsers.new_user_uuid env)
                  (ServerUsers.username user_data)
                  (ServerUsers.email user_data)
                  (ServerUsers.password_hash env)
                  (ServerUsers.role user_data) (us_company_id current_user)
                  (ServerUsers.created_at env)])
           (employees db) (time_entries db),
         [SELECT Users; INSERT Users; COMMIT]))
  /\ (usernames_unique db -> usernames_unique (db_after result))
  /\ (every_company_has_admin db -> every_company_has_admin (db_after result)).
Proof.
  intros result. unfold result.
  destruct (username_taken db (ServerUsers.username user_data)) eqn:Ht.
  - rewrite (create_company_user_taken db user_data current_user env Ht).
    repeat split; auto.
    intros Hfree. exfalso. apply Hfree.
    now apply (existsb_eqb_In us_username).
  - rewrite (create_company_user_inserts db user_data current_user env Ht).
    split; [|split; [|split]].
    + intros (u & Hu & Hn). exfalso.
      assert (username_taken db (ServerUsers.username user_data) = true);
        [|congruence].
      apply (existsb_eqb_In us_username). rewrite <- Hn. now apply in_map.
    + intros _ Hfresh.
      destruct (existsb (fun x => us_id x =? ServerUsers.new_user_uuid env)
                  (users db)) eqn:E; [|reflexivity].
      apply (existsb_eqb_In us_id) in E. contradiction.
    + intros Hu. destruct (negb _); [|exact Hu].
      unfold usernames_unique. cbn [db_after fst snd users].
      now apply (NoDup_snoc_key us_username).
    + intros Hinv. destruct (negb _); [|exact Hinv].
      cbn [db_after fst snd]. intros c Hc.
      now apply has_admin_grows, Hinv.
Qed.

Lemma create_company_user_conflict_or_added_witness :
  let alice := mkUser "u1" "alice" "alice@acme.test" "hash1" "admin" "c1" 0 in
  let db := mkDB [mkCompany "c1" "Acme" "system" 0] [alice] [] [] in
  db_after
    (run (ServerUsers.create_company_user
            (ServerUsers.mkUserCreate "bob" "bob@acme.test" "pw" "user") alice
            (ServerUsers.mkCreateEnv "u2" "hash2" 7)) db)
  = mkDB [mkCompany "c1" "Acme" "system" 0]
      [alice; mkUser "u2" "bob" "bob@acme.test" "hash2" "user" "c1" 7] [] [].
Proof.
  intros alice db.
  rewrite (proj1 (proj2 (create_company_user_conflict_or_added db
                           (ServerUsers.mkUserCreate "bob" "bob@acme.test"
                              "pw" "user") alice
                           (ServerUsers.mkCreateEnv "u2" "hash2" 7)))).
  - reflexivity.
  - simpl. intros [H|[]]. discriminate.
  - simpl. intros [H|[]]. discriminate.
Defined.

Lemma delete_company_user_run db user_id current_user :
  run (ServerUsers.delete_company_user user_id current_user) db
  = match fetchone (filter (ServerUsers.where_user user_id
                              (us_company_id current_user)) (users db)) with
    | None =>
        (inl (HTTPException 404 (Text "User not found")), db, [SELECT Users])
    | Some _ =>
        if user_id =? us_id current_user
        then (inl (HTTPException 400
                     (Text "Nie możesz usunąć własnego konta")),
              db, [SELECT Users])
        else (inr "User deleted successfully",
              mkDB (companies db)
                (filter (fun u => negb (ServerUsers.where_user user_id
                                          (us_company_id current_user) u))
                   (users db))
                (employees db) (time_entries db),
              [SELECT Users; DELETE Users; COMMIT])
    end.
Proof.
  run_handler ServerUsers.delete_company_user.
  destruct (fetchone _); [|reflexivity].
  destruct (user_id =? us_id current_user); reflexivity.
Qed.

(** X14. [delete_company_user] answers 404, changing nothing, when the id
    names no user of the caller's company (users of other companies cannot
    be reached), and 400 when it is the caller's own id; otherwise it deletes
    the users of that company with that id.  It never deletes the caller nor
    a user of another company, so with the caller a stored admin every
    company keeps an admin. *)
Theorem delete_company_user_scoped
  (db : DB) (user_id : string) (current_user : User) :
  let result := run (ServerUsers.delete_company_user user_id current_user) db in
  ((forall u, In u (users db) -> us_id u = user_id ->
              us_company_id u <> us_company_id current_user) ->
   result
   = (inl (HTTPException 404 (Text "User not found")), db, [SELECT Users]))
  /\ (In current_user (users db) -> user_id = us_id current_user ->
      result
      = (inl (HTTPException 400 (Text "Nie możesz usunąć własnego konta")),
         db, [SELECT Users]))
  /\ (forall u, In u (users db) ->
                us_id u <> user_id
                \/ us_company_id u <> us_company_id current_user
                \/ u = current_user ->
                In u (users (db_after result)))
  /\ (forall u, In u (users (db_after result)) -> In u (users db))
  /\ ((exists u, In u (users db) /\ us_id u = user_id
                 /\ us_company_id u = us_company_id current_user) ->
      user_id <> us_id current_user ->
      outcome result = inr "User deleted successfully"
      /\ forall u, In u (users (db_after result)) ->
                   us_id u = user_id ->
                   us_company_id u <> us_company_id current_user)
  /\ (In current_user (users db) -> us_role current_user = "admin" ->
      every_company_has_admin db ->
      every_company_has_admin (db_after result)).
Proof.
  intros result.
  assert (Hkeep : forall u, In u (users db) ->
            us_id u <> user_id
            \/ us_company_id u <> us_company_id current_user
            \/ u = current_user ->
            In u (users (db_after result))).
  { intros u Hu Hcase. unfold result. rewrite delete_company_user_run.
    destruct (fetchone _); [|exact Hu].
    destruct (String.eqb_spec user_id (us_id current_user)) as [Heq|Hne];
      [exact Hu|].
    cbn [db_after fst snd users]. apply filter_In. split; [assumption|].
    apply negb_true_iff. unfold ServerUsers.where_user.
    destruct Hcase as [H|[H|H]].
    - apply String.eqb_neq in H. now rewrite H.
    - apply String.eqb_neq in H. rewrite H. apply andb_false_r.
    - subst u. apply not_eq_sym, String.eqb_neq in Hne. now rewrite Hne. }
  assert (Hsub : forall u, In u (users (db_after result)) -> In u (users db)).
  { intros u. unfold result. rewrite delete_company_user_run.
    destruct (fetchone _); [|auto].
    destruct (user_id =? us_id current_user); [auto|].
    cbn [db_after fst snd users]. intros H. now apply filter_In in H. }
  split; [|split; [|split; [|split; [|split]]]]; try assumption.
  - intros Hforeign. unfold result. rewrite delete_company_user_run.
    destruct (fetchone _) as [u|] eqn:E; [|reflexivity].
    exfalso. apply fetchone_some in E as [Hu Hw].
    unfold ServerUsers.where_user in Hw. apply andb_true_iff in Hw as [H1 H2].
    apply String.eqb_eq in H1, H2. now apply (Hforeign u).
  - intros Hin ->. unfold result. rewrite delete_company_user_run.
    destruct (fetchone _) as [u|] eqn:E.
    + now rewrite String.eqb_refl.
    + exfalso. apply fetchone_none in E.
      assert (In current_user
                (filter (ServerUsers.where_user (us_id current_user)
                           (us_company_id current_user)) (users db))).
      { apply filter_In. split; [assumption|].
        unfold ServerUsers.where_user. now rewrite !String.eqb_refl. }
      rewrite E in H. destruct H.
  - intros (u & Hu & Hid & Hc) Hne. unfold result.
    rewrite delete_company_user_run.
    assert (Hex : existsb (ServerUsers.where_user user_id
                             (us_company_id current_user)) (users db) = true).
    { apply existsb_exists. exists u. split; [assumption|].
      unfold ServerUsers.where_user. now rewrite Hid, Hc, !String.eqb_refl. }
    apply existsb_fetchone in Hex as [u' ->].
    apply String.eqb_neq in Hne. rewrite Hne.
    cbn [outcome db_after fst snd users]. split; [reflexivity|].
    intros v Hv Hvid Hvc. apply filter_In in Hv as [_ Hv].
    unfold ServerUsers.where_user in Hv.
    now rewrite Hvid, Hvc, !String.eqb_refl in Hv.
  - intros Hin Hrole Hinv c Hc.
    assert (Hcs : companies (db_after result) = companies db).
    { unfold result. rewrite delete_company_user_run.
      destruct (fetchone _); [|reflexivity].
      now destruct (user_id =? us_id current_user). }
    rewrite Hcs in Hc. destruct (Hinv c Hc) as (u & Hu & Huc & Hur).
    destruct (String.eqb_spec (us_company_id u) (us_company_id current_user))
      as [Heq|Hne].
    + exists current_user. repeat split; [|congruence|assumption].
      apply Hkeep; auto.
    + exists u. repeat split; try assumption. apply Hkeep; auto.
Qed.

Lemma delete_company_user_scoped_witness :
  let alice := mkUser "u1" "alice" "alice@acme.test" "hash1" "admin" "c1" 0 in
  let carol := mkUser "u3" "carol" "carol@bolt.test" "hash3" "admin" "c2" 0 in
  run (ServerUsers.delete_company_user "u3" alice)
    (mkDB [] [alice; carol] [] [])
  = (inl (HTTPException 404 (Text "User not found")),
     mkDB [] [alice; carol] [] [], [SELECT Users]).
Proof.
  intros alice carol.
  apply (proj1 (delete_company_user_scoped (mkDB [] [alice; carol] [] []) "u3"
                  alice)).
  intros u [<-|[<-|[]]]; discriminate.
Defined.

(** ** Authentication *)

Ltac auth_red :=
  unfold ServerAuth.admin_dependencies, ServerAuth.get_current_user,
    ServerAuth.get_current_regular_user, ServerAuth.get_company_context,
    ServerAuth.get_admin_user, ServerAuth.credentials_exception;
  mred.

Lemma admin_dependencies_run owners db payload :
  run (ServerAuth.admin_dependencies owners (Some payload)) db
  = match ServerAuth.p_sub payload with
    | None =>
        (inl (HTTPException 401 (Text "Could not validate credentials")),
         db, [])
    | Some username =>
        if match ServerAuth.p_type payload with
           | Some t => t
           | None => "user"
           end =? "owner"
        then
          match fetchone
                  (filter (fun o => ServerMysql.ow_username o =? username)
                     owners) with
          | None =>
              (inl (HTTPException 401
                      (Text "Could not validate credentials")), db, [])
          | Some _ =>
              (inl (HTTPException 403 (Text "Regular user access required")),
               db, [])
          end
        else
          match ServerAuth.p_company_id payload with
          | None =>
              (inl (HTTPException 401
                      (Text "Could not validate credentials")), db, [])
          | Some company_id =>
              match fetchone
                      (filter (fun u => (us_username u =? username)
                                        && (us_company_id u =? company_id))
                         (users db)) with
              | None =>
                  (inl (HTTPException 401
                          (Text "Could not validate credentials")),
                   db, [SELECT Users])
              | Some user_row =>
                  if us_role user_row =? "admin"
                  then (inr (us_company_id user_row, user_row), db,
                        [SELECT Users])
                  else (inl (HTTPException 403
                               (Text "Not enough permissions")),
                        db, [SELECT Users])
              end
          end
    end.
Proof.
  rewrite run_unfold. auth_red.
  destruct (ServerAuth.p_sub payload) as [username|]; [|reflexivity].
  destruct (_ =? "owner").
  - destruct (fetchone _); reflexivity.
  - destruct (ServerAuth.p_company_id payload) as [company_id|];
      [|reflexivity].
    mred. destruct (fetchone _) as [user_row|]; [|reflexivity].
    mred. destruct (us_role user_row =? "admin"); reflexivity.
Qed.

Lemma admin_dependencies_success owners db payload company_id current_user :
  outcome (run (ServerAuth.admin_dependencies owners (Some payload)) db)
  = inr (company_id, current_user) ->
  In current_user (users db)
  /\ us_role current_user = "admin"
  /\ us_company_id current_user = company_id
  /\ ServerAuth.p_sub payload = Some (us_username current_user)
  /\ ServerAuth.p_company_id payload = Some company_id
  /\ ServerAuth.p_type payload <> Some "owner"
  /\ run (ServerAuth.admin_dependencies owners (Some payload)) db
     = (inr (company_id, current_user), db, [SELECT Users]).
Proof.
  rewrite admin_dependencies_run.
  destruct (ServerAuth.p_sub payload) as [username|]; [|discriminate].
  destruct (match ServerAuth.p_type payload with
            | Some t => t
            | None => "user"
            end =? "owner") eqn:Howner.
  { destruct (fetchone _); discriminate. }
  destruct (ServerAuth.p_company_id payload) as [cid|]; [|discriminate].
  destruct (fetchone _) as [user_row|] eqn:Hrow; [|discriminate].
  destruct (String.eqb_spec (us_role user_row) "admin") as [Hadmin|];
    [|discriminate].
  intros [= <- <-].
  apply fetchone_some in Hrow as [Hin Hw].
  apply andb_true_iff in Hw as [H1 H2]. apply String.eqb_eq in H1, H2.
  subst username cid. repeat split; try assumption.
  intros Htype. rewrite Htype in Howner. discriminate.
Qed.

(** X15. An admin endpoint gets its company and its caller from the store,
    not from the token: when the dependencies succeed, the caller is a stored
    user whose stored role is admin, found under the username and company of
    the token, and the company id handed to the handler is that row's; owner
    tokens never pass; the role claim of the token plays no part. *)
Theorem admin_dependencies_use_stored_role
  (owners : list ServerMysql.Owner) (db : DB)
  (decoded : option ServerAuth.Payload) (company_id : string)
  (current_user : User) :
  outcome (run (ServerAuth.admin_dependencies owners decoded) db)
  = inr (company_id, current_user) ->
  In current_user (users db)
  /\ us_role current_user = "admin"
  /\ us_company_id current_user = company_id
  /\ exists payload,
       decoded = Some payload
       /\ ServerAuth.p_sub payload = Some (us_username current_user)
       /\ ServerAuth.p_company_id payload = Some company_id
       /\ ServerAuth.p_type payload <> Some "owner"
       /\ forall role,
            run (ServerAuth.admin_dependencies owners
                   (Some (ServerAuth.mkPayload (ServerAuth.p_sub payload)
                            (ServerAuth.p_type payload)
                            (ServerAuth.p_company_id payload) role))) db
            = (inr (company_id, current_user), db, [SELECT Users]).
Proof.
  destruct decoded as [payload|];
    [|rewrite run_unfold; auth_red; discriminate].
  intros H.
  destruct (admin_dependencies_success _ _ _ _ _ H)
    as (Hin & Hrole & Hc & Hsub & Hcid & Htype & Hrun).
  repeat split; try assumption.
  exists payload. repeat split; try assumption.
  intros role. rewrite <- Hrun. now rewrite !admin_dependencies_run.
Qed.

Lemma admin_dependencies_use_stored_role_witness :
  let alice := mkUser "u1" "alice" "alice@acme.test" "hash1" "admin" "c1" 0 in
  run (ServerAuth.admin_dependencies []
         (Some (ServerAuth.mkPayload (Some "alice") (Some "user") (Some "c1")
                  (Some "user")))) (mkDB [] [alice] [] [])
  = (inr ("c1", alice), mkDB [] [alice] [] [], [SELECT Users]).
Proof.
  intros alice.
  destruct (admin_dependencies_use_stored_role [] (mkDB [] [alice] [] [])
              (Some (ServerAuth.mkPayload (Some "alice") (Some "user")
                       (Some "c1") (Some "admin"))) "c1" alice eq_refl)
    as (_ & _ & _ & payload & Hp & _ & _ & _ & Hrole).
  injection Hp as <-. exact (Hrole (Some "user")).
Defined.

Lemma filter_username_company_nil db username company_id :
  username_taken db username = false ->
  filter (fun u => (us_username u =? username)
                   && (us_company_id u =? company_id)) (users db) = [].
Proof.
  unfold username_taken. induction (users db) as [|u l IH]; simpl;
    [reflexivity|].
  intros H. apply orb_false_iff in H as [Hu Hl]. rewrite Hu. simpl. auto.
Qed.

(** X16. The token answered by [register_company] opens the admin endpoints
    of the new company: after a successful registration, the dependencies of
    an admin endpoint, given the claims of that token, resolve to the new
    company's id and its admin row. *)
Theorem registered_admin_is_authorized
  (owners : list ServerMysql.Owner) (db : DB)
  (company_data : Server.CompanyRegistration) (env : Server.RegisterEnv) :
  name_taken db (Server.company_name company_data) = false ->
  username_taken db (Server.admin_username company_data) = false ->
  ~ In (Server.company_uuid env) (map co_id (companies db)) ->
  ~ In (Server.admin_user_uuid env) (map us_id (users db)) ->
  let result := run (Server.register_company company_data env) db in
  exists token,
    outcome result = inr token
    /\ run (ServerAuth.admin_dependencies owners
              (Some (ServerAuth.decoded_claims (Server.access_token token))))
         (db_after result)
       = (inr (Server.company_uuid env,
               mkUser (Server.admin_user_uuid env)
                 (Server.admin_username company_data)
                 (Server.admin_email company_data) (Server.password_hash env)
                 "admin" (Server.company_uuid env)
                 (Server.admin_created_at env)),
          db_after result, [SELECT Users]).
Proof.
  intros Hn Hu Hc Ha result. unfold result.
  rewrite (register_inserts db company_data env Hn Hu).
  rewrite admits_company by exact Hc.
  rewrite admits_user by assumption.
  eexists. split; [reflexivity|].
  cbn [db_after outcome fst snd Server.access_token].
  rewrite admin_dependencies_run.
  cbn [ServerAuth.decoded_claims ServerAuth.p_sub ServerAuth.p_type
       ServerAuth.p_company_id Server.sub Server.claim_type
       Server.claim_company_id users].
  change ("user" =? "owner") with false. cbv iota.
  rewrite filter_app, (filter_username_company_nil db _ _ Hu).
  cbn [filter app registered_admin us_username us_company_id].
  rewrite !String.eqb_refl. reflexivity.
Qed.

Lemma registered_admin_is_authorized_witness :
  let result :=
    run (Server.register_company
           (Server.mkCompanyRegistration "Acme" "alice" "alice@acme.test"
              "pw1")
           (Server.mkRegisterEnv "c1" 1 "u1" "hash1" 2)) (mkDB [] [] [] []) in
  exists token,
    outcome result = inr token
    /\ outcome
         (run (ServerAuth.admin_dependencies []
                 (Some (ServerAuth.decoded_claims
                          (Server.access_token token))))
            (db_after result))
       = inr ("c1", mkUser "u1" "alice" "alice@acme.test" "hash1" "admin"
                      "c1" 2).
Proof.
  intros result.
  destruct (registered_admin_is_authorized [] (mkDB [] [] [] [])
              (Server.mkCompanyRegistration "Acme" "alice" "alice@acme.test"
                 "pw1")
              (Server.mkRegisterEnv "c1" 1 "u1" "hash1" 2))
    as (token & Ht & Hrun); try reflexivity; try (simpl; tauto).
  exists token. split; [exact Ht|]. fold result in Hrun. now rewrite Hrun.
Defined.

(** ** Owner endpoints of the MySQL backend *)

(** X17. Deleting a company revokes its tokens: after [delete_company], the
    MySQL [get_current_user] answers 401 to every decoded user token whose
    company claim is the deleted company. *)
Theorem deleted_company_tokens_rejected
  (owners : list ServerMysql.Owner) (db : DB) (company_id : string)
  (current_owner : ServerMysql.Owner) (payload : ServerAuth.Payload) :
  In company_id (map co_id (companies db)) ->
  company_ids_unique db ->
  ServerAuth.p_company_id payload = Some company_id ->
  ServerAuth.p_type payload <> Some "owner" ->
  outcome
    (run (ServerMysqlOwner.get_current_user owners (Some payload))
       (db_after (run (ServerMysql.delete_company company_id current_owner)
                    db)))
  = inl (HTTPException 401 (Text "Could not validate credentials")).
Proof.
  intros Hin Hnd Hcid Htype.
  rewrite (delete_company_known db company_id current_owner Hnd Hin).
  cbn [db_after fst snd]. rewrite run_unfold.
  unfold ServerMysqlOwner.get_current_user, ServerAuth.credentials_exception.
  destruct (ServerAuth.p_sub payload) as [username|]; [|reflexivity].
  assert (Huser : (match ServerAuth.p_type payload with
                   | Some t => t
                   | None => "user"
                   end =? "owner") = false).
  { destruct (ServerAuth.p_type payload) as [t|]; [|reflexivity].
    apply String.eqb_neq. congruence. }
  rewrite Huser, Hcid. mred.
  assert (Hnone : filter (fun u => (us_username u =? username)
                                   && (us_company_id u =? company_id))
                    (filter (fun u => negb (us_company_id u =? company_id))
                       (users db)) = []).
  { induction (users db) as [|u l IH]; simpl; [reflexivity|].
    destruct (us_company_id u =? company_id) eqn:E; simpl; [exact IH|].
    rewrite E, andb_false_r. exact IH. }
  rewrite Hnone. reflexivity.
Qed.

Lemma deleted_company_tokens_rejected_witness :
  let db := mkDB [mkCompany "c1" "Acme" "o1" 0]
              [mkUser "u1" "alice" "alice@acme.test" "hash1" "admin" "c1" 0]
              [] [] in
  outcome
    (run (ServerMysqlOwner.get_current_user []
            (Some (ServerAuth.mkPayload (Some "alice") (Some "user")
                     (Some "c1") (Some "admin"))))
       (db_after
          (run (ServerMysql.delete_company "c1"
                  (ServerMysql.mkOwner "o1" "owner" "owner@system.com"
                     "hash0" 0)) db)))
  = inl (HTTPException 401 (Text "Could not validate credentials")).
Proof.
  intros db.
  apply (deleted_company_tokens_rejected [] db "c1"); try reflexivity.
  - simpl. tauto.
  - repeat constructor. simpl. tauto.
  - discriminate.
Defined.

Lemma company_lines_run l : forall c,
  exists lg,
    ServerMysqlOwner.company_lines l c
    = (mkConn (committed c) (pending c) (session_new c) lg,
       inr (map (company_line (pending c)) l)).
Proof.
  induction l as [|company l IH]; intros [cm pd sn lg0];
    cbn [ServerMysqlOwner.company_lines].
  - exists lg0. reflexivity.
  - mred.
    destruct (IH (mkConn cm pd sn
                    (((lg0 ++ [SELECT Users]) ++ [SELECT Users])
                     ++ [SELECT Employees]))) as [lg Hlg].
    cbn [committed pending session_new] in Hlg.
    rewrite Hlg. exists lg. reflexivity.
Qed.

Lemma get_all_companies_run db current_owner :
  outcome (run (ServerMysqlOwner.get_all_companies current_owner) db)
  = inr (map (company_line db) (companies db))
  /\ db_after (run (ServerMysqlOwner.get_all_companies current_owner) db) = db.
Proof.
  rewrite run_unfold. unfold ServerMysqlOwner.get_all_companies. mred.
  rewrite (filter_all (fun _ => true)) by reflexivity.
  destruct (company_lines_run (companies db)
              (mkConn db db [] [SELECT Companies])) as [lg Hlg].
  cbn [committed pending session_new] in Hlg. rewrite Hlg.
  split; reflexivity.
Qed.

Lemma filter_none {R} (p : R -> bool) l :
  (forall x, In x l -> p x = false) -> filter p l = [].
Proof.
  induction l as [|x l IH]; simpl; intros H; [reflexivity|].
  rewrite (H x) by now left. apply IH. intros y Hy. apply H. now right.
Qed.

Lemma create_company_succeeds db company_data current_owner env :
  name_taken db (ServerMysql.name company_data) = false ->
  username_taken db (ServerMysql.admin_username company_data) = false ->
  ~ In (ServerMysql.company_uuid env) (map co_id (companies db)) ->
  ~ In (ServerMysql.admin_user_uuid env) (map us_id (users db)) ->
  db_after (run (ServerMysql.create_company company_data current_owner env) db)
  = mkDB (companies db ++ [created_company company_data current_owner env])
      (users db ++ [created_admin company_data env]) (employees db)
      (time_entries db).
Proof.
  intros Hn Hu Hc Ha.
  rewrite (create_inserts db company_data current_owner env Hn Hu).
  rewrite admits_company by exact Hc.
  now rewrite admits_user by assumption.
Qed.

(** X18. A created company shows up in the owner's listing: after a
    successful [create_company] whose fresh company id no stored user or
    employee refers to, [get_all_companies] answers the former lines,
    unchanged, followed by the line of the new company with one admin, one
    user and no employee. *)
Theorem created_company_is_listed
  (db : DB) (company_data : ServerMysql.CompanyCreate)
  (current_owner viewer : ServerMysql.Owner) (env : ServerMysql.CreateEnv) :
  name_taken db (ServerMysql.name company_data) = false ->
  username_taken db (ServerMysql.admin_username company_data) = false ->
  ~ In (ServerMysql.company_uuid env) (map co_id (companies db)) ->
  ~ In (ServerMysql.admin_user_uuid env) (map us_id (users db)) ->
  (forall u, In u (users db) ->
             us_company_id u <> ServerMysql.company_uuid env) ->
  (forall e, In e (employees db) ->
             em_company_id e <> ServerMysql.company_uuid env) ->
  exists lines,
    outcome (run (ServerMysqlOwner.get_all_companies viewer) db) = inr lines
    /\ outcome
         (run (ServerMysqlOwner.get_all_companies viewer)
            (db_after (run (ServerMysql.create_company company_data
                              current_owner env) db)))
       = inr (lines
              ++ [ServerMysqlOwner.mkCompanyLine
                    (ServerMysql.company_uuid env)
                    (ServerMysql.name company_data)
                    (ServerMysql.ow_id current_owner)
                    (ServerMysql.company_created_at env) 1 1 0]).
Proof.
  intros Hn Hu Hc Ha Husers Hemps.
  exists (map (company_line db) (companies db)).
  split; [apply get_all_companies_run|].
  rewrite (create_company_succeeds db company_data current_owner env Hn Hu Hc
             Ha).
  rewrite (proj1 (get_all_companies_run _ viewer)).
  cbn [companies]. rewrite map_app. f_equal. f_equal.
  - apply map_ext_in. intros c Hin.
    assert (Hne : (ServerMysql.company_uuid env =? co_id c) = false).
    { apply String.eqb_neq. intros Heq. apply Hc. rewrite Heq.
      now apply in_map. }
    unfold company_line. cbn [users employees].
    rewrite !filter_app. cbn [filter created_admin us_company_id us_role].
    rewrite Hne. cbn [andb]. now rewrite !app_nil_r.
  - cbn [map]. unfold company_line.
    cbn [users employees created_company co_id co_name co_owner_id
         co_created_at].
    rewrite !filter_app. cbn [filter created_admin us_company_id us_role].
    rewrite String.eqb_refl. cbn [andb].
    change ("admin" =? "admin") with true. cbv iota.
    rewrite (filter_none (fun u => (us_company_id u
                                    =? ServerMysql.company_uuid env)
                                   && (us_role u =? "admin"))),
      (filter_none (fun u => us_company_id u =? ServerMysql.company_uuid env)),
      (filter_none (fun e => em_company_id e
                             =? ServerMysql.company_uuid env)).
    + reflexivity.
    + intros e He. apply String.eqb_neq. now apply Hemps.
    + intros u Hin. apply String.eqb_neq. now apply Husers.
    + intros u Hin. apply Husers, String.eqb_neq in Hin. now rewrite Hin.
Qed.

Lemma created_company_is_listed_witness :
  let owner := ServerMysql.mkOwner "o1" "owner" "owner@system.com" "hash0" 0 in
  outcome
    (run (ServerMysqlOwner.get_all_companies owner)
       (db_after
          (run (ServerMysql.create_company
                  (ServerMysql.mkCompanyCreate "Acme" "alice"
                     "alice@acme.test" "pw1") owner
                  (ServerMysql.mkCreateEnv "c1" "u1" "hash1" 3 4))
             (mkDB [] [] [] []))))
  = inr [ServerMysqlOwner.mkCompanyLine "c1" "Acme" "o1" 3 1 1 0].
Proof.
  intros owner.
  destruct (created_company_is_listed (mkDB [] [] [] [])
              (ServerMysql.mkCompanyCreate "Acme" "alice" "alice@acme.test"
                 "pw1") owner owner
              (ServerMysql.mkCreateEnv "c1" "u1" "hash1" 3 4)
              eq_refl eq_refl ltac:(simpl; tauto) ltac:(simpl; tauto)
              ltac:(intros u []) ltac:(intros e []))
    as (lines & Hl & Hafter).
  cbv in Hl. injection Hl as <-. exact Hafter.
Defined.

(** X19. [delete_company] undoes [create_company]: when a company is
    created under a fresh id that no stored user or employee refers to, and
    then deleted, the database is again the one before the creation. *)
Theorem create_then_delete_company
  (db : DB) (company_data : ServerMysql.CompanyCreate)
  (current_owner deleter : ServerMysql.Owner) (env : ServerMysql.CreateEnv) :
  company_ids_unique db ->
  name_taken db (ServerMysql.name company_data) = false ->
  username_taken db (ServerMysql.admin_username company_data) = false ->
  ~ In (ServerMysql.company_uuid env) (map co_id (companies db)) ->
  ~ In (ServerMysql.admin_user_uuid env) (map us_id (users db)) ->
  (forall u, In u (users db) ->
             us_company_id u <> ServerMysql.company_uuid env) ->
  (forall e, In e (employees db) ->
             em_company_id e <> ServerMysql.company_uuid env) ->
  run (ServerMysql.delete_company (ServerMysql.company_uuid env) deleter)
    (db_after (run (ServerMysql.create_company company_data current_owner env)
                 db))
  = (inr "Company and all its data deleted successfully", db,
     [SELECT Companies; SELECT Employees; DELETE Users; DELETE Employees;
      DELETE Companies; COMMIT]).
Proof.
  intros Hnd Hn Hu Hc Ha Husers Hemps.
  rewrite (create_company_succeeds db company_data current_owner env Hn Hu Hc
             Ha).
  assert (Hemp_none : filter (fun e => em_company_id e
                                       =? ServerMysql.company_uuid env)
                        (employees db) = []).
  { apply filter_none. intros e He. apply String.eqb_neq. now apply Hemps. }
  rewrite delete_company_known.
  - unfold company_employee_ids. cbn [companies users employees time_entries].
    rewrite Hemp_none. cbn [map app existsb negb].
    rewrite (filter_all (fun _ => true)) by reflexivity.
    rewrite !filter_app.
    cbn [filter created_company created_admin co_id us_company_id].
    rewrite String.eqb_refl. cbn [negb]. rewrite !app_nil_r.
    rewrite !filter_all; [now destruct db| | |].
    + intros e He. apply negb_true_iff, String.eqb_neq. now apply Hemps.
    + intros u Hin. apply negb_true_iff, String.eqb_neq. now apply Husers.
    + intros c Hin. apply negb_true_iff, String.eqb_neq. intros Heq.
      apply Hc. rewrite <- Heq. now apply in_map.
  - unfold company_ids_unique. cbn [companies].
    apply (NoDup_snoc_key co_id); [assumption|].
    destruct (existsb _ _) eqn:E; [|reflexivity].
    apply (existsb_eqb_In co_id) in E. contradiction.
  - cbn [companies]. rewrite map_app. apply in_or_app. right. now left.
Qed.

Lemma create_then_delete_company_witness :
  let owner := ServerMysql.mkOwner "o1" "owner" "owner@system.com" "hash0" 0 in
  let db := mkDB [mkCompany "c0" "Bolt" "o1" 0]
              [mkUser "u0" "bob" "bob@bolt.test" "hash2" "admin" "c0" 0]
              [] [] in
  db_after
    (run (ServerMysql.delete_company "c1" owner)
       (db_after
          (run (ServerMysql.create_company
                  (ServerMysql.mkCompanyCreate "Acme" "alice"
                     "alice@acme.test" "pw1") owner
                  (ServerMysql.mkCreateEnv "c1" "u1" "hash1" 3 4)) db)))
  = db.
Proof.
  intros owner db.
  pose proof (create_then_delete_company db
                (ServerMysql.mkCompanyCreate "Acme" "alice" "alice@acme.test"
                   "pw1") owner owner
                (ServerMysql.mkCreateEnv "c1" "u1" "hash1" 3 4)
                ltac:(repeat constructor; simpl; tauto) eq_refl eq_refl
                ltac:(simpl; intros [H|[]]; discriminate)
                ltac:(simpl; intros [H|[]]; discriminate)
                ltac:(intros u [<-|[]]; discriminate)
                ltac:(intros e [])) as H.
  cbn [ServerMysql.company_uuid] in H. now rewrite H.
Defined.

(** ** [login] *)

Lemma login_run verify_password owners db user_data :
  run (ServerAuth.login verify_password owners user_data) db
  = let as_user :=
      match fetchone (filter (fun u => us_username u
                                       =? ServerAuth.username user_data)
                        (users db)) with
      | Some user_row =>
          if verify_password (ServerAuth.password user_data)
               (us_password_hash user_row)
          then (inr (ServerAuth.mkLoginToken
                       (ServerAuth.mkPayload (Some (us_username user_row))
                          (Some "user") (Some (us_company_id user_row))
                          (Some (us_role user_row)))
                       "bearer"
                       (ServerAuth.mkLoginUser (us_id user_row)
                          (us_username user_row) (us_email user_row)
                          (Some (us_role user_row))
                          (Some (us_company_id user_row)) "user")),
                db, [SELECT Users])
          else (inl (HTTPException 401
                       (Text "Incorrect username or password")),
                db, [SELECT Users])
      | None =>
          (inl (HTTPException 401 (Text "Incorrect username or password")),
           db, [SELECT Users])
      end in
    match fetchone (filter (fun o => ServerMysql.ow_username o
                                     =? ServerAuth.username user_data)
                      owners) with
    | Some owner_row =>
        if verify_password (ServerAuth.password user_data)
             (ServerMysql.ow_password_hash owner_row)
        then (inr (ServerAuth.mkLoginToken
                     (ServerAuth.mkPayload
                        (Some (ServerMysql.ow_username owner_row))
                        (Some "owner") None None)
                     "bearer"
                     (ServerAuth.mkLoginUser (ServerMysql.ow_id owner_row)
                        (ServerMysql.ow_username owner_row)
                        (ServerMysql.ow_email owner_row) None None "owner")),
              db, [])
        else as_user
    | None => as_user
    end.
Proof.
  rewrite run_unfold. unfold ServerAuth.login. cbv zeta.
  destruct (fetchone (filter _ owners)) as [owner_row|].
  - destruct (verify_password _ (ServerMysql.ow_password_hash owner_row));
      [reflexivity|].
    mred. destruct (fetchone _) as [user_row|]; [|reflexivity].
    now destruct (verify_password _ _).
  - mred. destruct (fetchone _) as [user_row|]; [|reflexivity].
    now destruct (verify_password _ _).
Qed.

(** X20. [login] only answers a token to a verified password: a success
    names a stored row (an owner, or else a user) with the login's username
    whose stored hash verifies the password; an owner token carries no
    company, a user token carries the company and the role of that stored
    row; and no login changes the database. *)
Theorem login_sound
  (verify_password : string -> string -> bool)
  (owners : list ServerMysql.Owner) (db : DB)
  (user_data : ServerAuth.UserLogin) (token : ServerAuth.LoginToken) :
  let result := run (ServerAuth.login verify_password owners user_data) db in
  db_after result = db
  /\ (outcome result = inr token ->
      (exists owner_row,
         In owner_row owners
         /\ ServerMysql.ow_username owner_row = ServerAuth.username user_data
         /\ verify_password (ServerAuth.password user_data)
              (ServerMysql.ow_password_hash owner_row) = true
         /\ ServerAuth.access_token token
            = ServerAuth.mkPayload (Some (ServerAuth.username user_data))
                (Some "owner") None None)
      \/ (exists user_row,
            In user_row (users db)
            /\ us_username user_row = ServerAuth.username user_data
            /\ verify_password (ServerAuth.password user_data)
                 (us_password_hash user_row) = true
            /\ ServerAuth.access_token token
               = ServerAuth.mkPayload (Some (ServerAuth.username user_data))
                   (Some "user") (Some (us_company_id user_row))
                   (Some (us_role user_row)))).
Proof.
  intros result. unfold result. rewrite login_run. cbv zeta.
  assert (Huser :
    forall r,
      r = match fetchone (filter (fun u => us_username u
                                           =? ServerAuth.username user_data)
                            (users db)) with
          | Some user_row =>
              if verify_password (ServerAuth.password user_data)
                   (us_password_hash user_row)
              then (inr (ServerAuth.mkLoginToken
                           (ServerAuth.mkPayload (Some (us_username user_row))
                              (Some "user") (Some (us_company_id user_row))
                              (Some (us_role user_row)))
                           "bearer"
                           (ServerAuth.mkLoginUser (us_id user_row)
                              (us_username user_row) (us_email user_row)
                              (Some (us_role user_row))
                              (Some (us_company_id user_row)) "user")),
                    db, [SELECT Users])
              else (inl (HTTPException 401
                           (Text "Incorrect username or password")),
                    db, [SELECT Users])
          | None =>
              (inl (HTTPException 401
                      (Text "Incorrect username or password")),
               db, [SELECT Users])
          end ->
      db_after r = db
      /\ (outcome r = inr token ->
          exists user_row,
            In user_row (users db)
            /\ us_username user_row = ServerAuth.username user_data
            /\ verify_password (ServerAuth.password user_data)
                 (us_password_hash user_row) = true
            /\ ServerAuth.access_token token
               = ServerAuth.mkPayload (Some (ServerAuth.username user_data))
                   (Some "user") (Some (us_company_id user_row))
                   (Some (us_role user_row)))).
  { intros r ->. destruct (fetchone _) as [user_row|] eqn:E;
      [|split; [reflexivity|discriminate]].
    apply fetchone_some in E as [Hin Hn]. apply String.eqb_eq in Hn.
    destruct (verify_password _ _) eqn:Hv;
      [|split; [reflexivity|discriminate]].
    split; [reflexivity|]. intros [= <-]. exists user_row.
    repeat split; try assumption. cbn. now rewrite Hn. }
  destruct (fetchone (filter _ owners)) as [owner_row|] eqn:E.
  - apply fetchone_some in E as [Hin Hn]. apply String.eqb_eq in Hn.
    destruct (verify_password _ (ServerMysql.ow_password_hash owner_row))
      eqn:Hv.
    + split; [reflexivity|]. intros [= <-]. left. exists owner_row.
      repeat split; try assumption. cbn. now rewrite Hn.
    + destruct (Huser _ eq_refl) as [Hdb Hout]. split; [exact Hdb|].
      intros H. right. now apply Hout.
  - destruct (Huser _ eq_refl) as [Hdb Hout]. split; [exact Hdb|].
    intros H. right. now apply Hout.
Qed.

Lemma login_sound_witness :
  let alice :=
    mkUser "u1" "alice" "alice@acme.test" "hash-of-pw1" "admin" "c1" 0 in
  let verify := fun pw hash => (("hash-of-" ++ pw)%string =? hash) in
  exists user_row,
    In user_row [alice]
    /\ verify "pw1" (us_password_hash user_row) = true.
Proof.
  intros alice verify.
  destruct (proj2 (login_sound verify [] (mkDB [] [alice] [] [])
                     (ServerAuth.mkUserLogin "alice" "pw1")
                     (ServerAuth.mkLoginToken
                        (ServerAuth.mkPayload (Some "alice") (Some "user")
                           (Some "c1") (Some "admin")) "bearer"
                        (ServerAuth.mkLoginUser "u1" "alice" "alice@acme.test"
                           (Some "admin") (Some "c1") "user")))
              eq_refl)
    as [(o & [] & _) | (u & Hin & _ & Hv & _)].
  exists u. split; assumption.
Defined.

(** X21. A registered admin can log in: after a successful
    [register_company], a login with the admin's username and a password
    that verifies against the stored hash (no owner of that username taking
    the login) answers a user token whose claims are the admin's username,
    the new company and the role admin. *)
Theorem registered_admin_logs_in
  (verify_password : string -> string -> bool)
  (owners : list ServerMysql.Owner) (db : DB)
  (company_data : Server.CompanyRegistration) (env : Server.RegisterEnv) :
  name_taken db (Server.company_name company_data) = false ->
  username_taken db (Server.admin_username company_data) = false ->
  ~ In (Server.company_uuid env) (map co_id (companies db)) ->
  ~ In (Server.admin_user_uuid env) (map us_id (users db)) ->
  verify_password (Server.admin_password company_data)
    (Server.password_hash env) = true ->
  (forall o, In o owners ->
             ServerMysql.ow_username o = Server.admin_username company_data ->
             verify_password (Server.admin_password company_data)
               (ServerMysql.ow_password_hash o) = false) ->
  let registered :=
    db_after (run (Server.register_company company_data env) db) in
  run (ServerAuth.login verify_password owners
         (ServerAuth.mkUserLogin (Server.admin_username company_data)
            (Server.admin_password company_data))) registered
  = (inr (ServerAuth.mkLoginToken
            (ServerAuth.mkPayload
               (Some (Server.admin_username company_data)) (Some "user")
               (Some (Server.company_uuid env)) (Some "admin"))
            "bearer"
            (ServerAuth.mkLoginUser (Server.admin_user_uuid env)
               (Server.admin_username company_data)
               (Server.admin_email company_data) (Some "admin")
               (Some (Server.company_uuid env)) "user")),
     registered, [SELECT Users]).
Proof.
  intros Hn Hu Hc Ha Hv Howners registered. unfold registered.
  rewrite (register_inserts db company_data env Hn Hu).
  rewrite admits_company by exact Hc.
  rewrite admits_user by assumption.
  cbn [db_after fst snd]. rewrite login_run. cbv zeta.
  cbn [ServerAuth.username ServerAuth.password users].
  unfold username_taken in Hu.
  rewrite filter_app, (existsb_filter_nil _ _ Hu).
  cbn [filter app registered_admin us_username].
  rewrite String.eqb_refl.
  unfold registered_admin.
  cbn [fetchone hd_error us_password_hash us_company_id us_role us_id
       us_email us_username].
  rewrite Hv.
  destruct (fetchone (filter _ owners)) as [o|] eqn:E; [|reflexivity].
  apply fetchone_some in E as [Hin Ho]. apply String.eqb_eq in Ho.
  now rewrite (Howners o Hin Ho).
Qed.

Lemma registered_admin_logs_in_witness :
  let verify := fun pw hash => (("hash-of-" ++ pw)%string =? hash) in
  let data := Server.mkCompanyRegistration "Acme" "alice" "alice@acme.test"
                "pw1" in
  let env := Server.mkRegisterEnv "c1" 1 "u1" "hash-of-pw1" 2 in
  outcome
    (run (ServerAuth.login verify [] (ServerAuth.mkUserLogin "alice" "pw1"))
       (db_after (run (Server.register_company data env) (mkDB [] [] [] []))))
  = inr (ServerAuth.mkLoginToken
           (ServerAuth.mkPayload (Some "alice") (Some "user") (Some "c1")
              (Some "admin")) "bearer"
           (ServerAuth.mkLoginUser "u1" "alice" "alice@acme.test"
              (Some "admin") (Some "c1") "user")).
Proof.
  intros verify data env.
  pose proof (registered_admin_logs_in verify [] (mkDB [] [] [] []) data env
                eq_refl eq_refl ltac:(simpl; tauto) ltac:(simpl; tauto)
                eq_refl ltac:(intros o [])) as H.
  cbn [Server.admin_username Server.admin_password data] in H.
  now rewrite H.
Defined.

(** ** Startup *)

(** X22. [create_default_owner] is idempotent: once it has succeeded, the
    owners hold a row named owner, and running it again (with whatever new
    uuid, hash and time) leaves the rows exactly as they are. *)
Theorem create_default_owner_idempotent
  (owners owners' : list ServerMysql.Owner)
  (env env' : ServerStartup.OwnerEnv) :
  ServerStartup.create_default_owner owners env = inr owners' ->
  (exists o, In o owners' /\ ServerMysql.ow_username o = "owner")
  /\ ServerStartup.create_default_owner owners' env' = inr owners'.
Proof.
  unfold ServerStartup.create_default_owner.
  destruct (fetchone (filter _ owners)) as [existing|] eqn:E.
  - intros [= <-]. rewrite E. split; [|reflexivity].
    apply fetchone_some in E as [Hin Hn]. apply String.eqb_eq in Hn. eauto.
  - destruct (negb _ && _); [|discriminate].
    intros [= <-]. rewrite filter_app, (fetchone_none _ _ E).
    cbn. split; [|reflexivity].
    eexists. split; [apply in_or_app; right; now left | reflexivity].
Qed.

Lemma create_default_owner_idempotent_witness :
  let created :=
    [ServerMysql.mkOwner "o1" "owner" "owner@system.com" "hash0" 5] in
  ServerStartup.create_default_owner created
    (ServerStartup.mkOwnerEnv "o2" "hash9" 9)
  = inr created.
Proof.
  intros created.
  exact (proj2 (create_default_owner_idempotent [] created
                  (ServerStartup.mkOwnerEnv "o1" "hash0" 5)
                  (ServerStartup.mkOwnerEnv "o2" "hash9" 9) eq_refl)).
Defined.

(** ** References between the tables *)

Lemma delete_company_db_cases db company_id current_owner :
  let db' :=
    db_after (run (ServerMysql.delete_company company_id current_owner) db) in
  db' = db
  \/ db' = mkDB
             (filter (fun c => negb (co_id c =? company_id)) (companies db))
             (filter (fun u => negb (us_company_id u =? company_id))
                (users db))
             (filter (fun e => negb (em_company_id e =? company_id))
                (employees db))
             (filter (fun t => negb (existsb (String.eqb (te_employee_id t))
                                       (company_employee_ids db company_id)))
                (time_entries db)).
Proof.
  intros db'. subst db'.
  destruct (filter (fun c => co_id c =? company_id) (companies db))
    as [|c [|c' l]] eqn:E.
  - left. run_handler ServerMysql.delete_company. now rewrite E.
  - right. unfold company_employee_ids.
    run_handler ServerMysql.delete_company. rewrite E. mred.
    destruct (map em_id _) as [|id ids]; mred; [|reflexivity].
    cbn [existsb negb]. now rewrite (filter_all (fun _ => true)).
  - left. run_handler ServerMysql.delete_company. now rewrite E.
Qed.

(** X23. [delete_company] leaves no dangling reference: if every user and
    employee belongs to a stored company and every time entry to a stored
    employee, the same holds after the handler, whatever id it was given;
    and every remaining company keeps its admin. *)
Theorem delete_company_keeps_references
  (db : DB) (company_id : string) (current_owner : ServerMysql.Owner) :
  let db' :=
    db_after (run (ServerMysql.delete_company company_id current_owner) db) in
  (users_have_company db -> users_have_company db')
  /\ (employees_have_company db -> employees_have_company db')
  /\ (entries_have_employee db -> entries_have_employee db')
  /\ (every_company_has_admin db -> every_company_has_admin db').
Proof.
  intros db'. subst db'.
  destruct (delete_company_db_cases db company_id current_owner)
    as [-> | ->]; [tauto|].
  assert (Hco : forall id, id <> company_id ->
            In id (map co_id (companies db)) ->
            In id (map co_id
                     (filter (fun c => negb (co_id c =? company_id))
                        (companies db)))).
  { intros id Hne Hin. apply in_map_iff in Hin as (c & <- & Hc).
    apply in_map, filter_In. split; [assumption|].
    now apply negb_true_iff, String.eqb_neq. }
  split; [|split; [|split]].
  - intros H u Hu. cbn [users companies] in *.
    apply filter_In in Hu as [Hu Hne].
    apply negb_true_iff, String.eqb_neq in Hne. auto.
  - intros H e He. cbn [employees companies] in *.
    apply filter_In in He as [He Hne].
    apply negb_true_iff, String.eqb_neq in Hne. auto.
  - intros H t Ht. cbn [time_entries employees] in *.
    apply filter_In in Ht as [Ht Hne]. apply negb_true_iff in Hne.
    apply H, in_map_iff in Ht as (e & Hid & He).
    apply in_map_iff. exists e. split; [assumption|].
    apply filter_In. split; [assumption|].
    apply negb_true_iff. destruct (em_company_id e =? company_id) eqn:Hc;
      [|reflexivity].
    assert (existsb (String.eqb (te_employee_id t))
              (company_employee_ids db company_id) = true); [|congruence].
    apply existsb_eqb_mem. rewrite <- Hid. unfold company_employee_ids.
    apply in_map, filter_In. now split.
  - intros H c Hc. cbn [companies] in Hc.
    apply filter_In in Hc as [Hc Hne].
    destruct (H c Hc) as (u & Hu & Huc & Hrole).
    exists u. repeat split; try assumption.
    cbn [users]. apply filter_In. split; [assumption|]. now rewrite Huc.
Qed.

Lemma delete_company_keeps_references_witness :
  let db := mkDB [mkCompany "c1" "Acme" "o1" 0; mkCompany "c2" "Bolt" "o1" 0]
              [mkUser "u2" "bob" "bob@bolt.test" "hash2" "admin" "c2" 0]
              [mkEmployee "e1" "Jan" "Kowalski" "dev" "007" "png" "c1" 0]
              [mkTimeEntry "t1" "e1" (Some 0%Z) None "2024-01-01" "working"
                 (Some 0%Z)] in
  entries_have_employee
    (db_after
       (run (ServerMysql.delete_company "c1"
               (ServerMysql.mkOwner "o1" "owner" "owner@system.com" "hash0" 0))
          db)).
Proof.
  intros db.
  apply (proj1 (proj2 (proj2 (delete_company_keeps_references db "c1" _)))).
  intros t [<-|[]]. simpl. tauto.
Defined.

(** X24. [delete_employee] leaves no time entry without its employee: if
    every time entry belongs to a stored employee, the same holds after the
    handler, for every employee id and caller company. *)
Theorem delete_employee_keeps_references
  (db : DB) (employee_id company_id : string) :
  entries_have_employee db ->
  entries_have_employee
    (db_after (run (Server.delete_employee employee_id company_id) db)).
Proof.
  intros H t. rewrite delete_employee_run.
  cbn [db_after fst snd time_entries employees]. intros Ht.
  apply filter_In in Ht as [Ht Hne]. apply negb_true_iff in Hne.
  apply H, in_map_iff in Ht as (e & Hid & He).
  apply in_map_iff. exists e. split; [assumption|].
  apply filter_In. split; [assumption|].
  now rewrite Hid, Hne.
Qed.

Lemma delete_employee_keeps_references_witness :
  let db := mkDB [] []
              [mkEmployee "e1" "Jan" "Kowalski" "dev" "007" "png" "c1" 0;
               mkEmployee "e2" "Ola" "Nowak" "qa" "008" "png" "c1" 0]
              [mkTimeEntry "t1" "e1" (Some 0%Z) None "2024-01-01" "working"
                 (Some 0%Z);
               mkTimeEntry "t2" "e2" (Some 0%Z) None "2024-01-01" "working"
                 (Some 0%Z)] in
  entries_have_employee
    (db_after (run (Server.delete_employee "e1" "c1") db)).
Proof.
  intros db. apply (delete_employee_keeps_references db).
  intros t [<-|[<-|[]]]; simpl; tauto.
Defined.

Lemma scan_db_cases_stored db scan_data company_id env :
  let db' := db_after (run (Server.scan_qr scan_data company_id env) db) in
  db' = db
  \/ (exists employee,
        In employee (employees db)
        /\ em_company_id employee = company_id
        /\ db' = with_rows time_entries_t
                   (time_entries db ++ [check_in_entry employee env]) db)
  \/ (exists existing_entry,
        db' = with_rows time_entries_t
                (check_out_rows existing_entry env (time_entries db)) db).
Proof.
  intros db'. subst db'.
  destruct (Codec.decode (Server.qr_data scan_data)) as [e|[qc n]] eqn:Hd.
  { left. now rewrite (scan_malformed _ _ company_id env e Hd). }
  destruct (String.eqb_spec qc company_id) as [->|Hne].
  2:{ left. now rewrite (scan_cross_tenant _ _ _ env _ _ Hd Hne). }
  destruct (employee_by_number db n company_id) as [employee|] eqn:He.
  2:{ left. now rewrite (scan_unknown_employee _ _ _ env _ Hd He). }
  destruct (working_entry db (em_id employee) (Server.today env))
    as [ex|] eqn:Hw.
  - destruct (cooling_down (Server.current_time env) ex) eqn:Hc.
    + left. unfold cooling_down in Hc.
      destruct (te_last_scan_time ex) as [last|] eqn:Hl; [|discriminate].
      apply Z.ltb_lt in Hc.
      now rewrite (scan_cooldown _ _ _ _ _ _ Hd He _ _ Hw Hl Hc).
    + right. right. exists ex.
      now rewrite (scan_check_out _ _ _ _ _ _ Hd He _ Hw Hc).
  - destruct (admits time_entries_t (time_entries db)
                (check_in_entry employee env)) eqn:Ha.
    + right. left. exists employee.
      pose proof (fetchone_some _ _ _ He) as [Hin Hwn].
      unfold where_number in Hwn. apply andb_true_iff in Hwn as [_ Hco].
      apply String.eqb_eq in Hco. repeat split; try assumption.
      now rewrite (scan_check_in _ _ _ _ _ _ Hd He Hw Ha).
    + left. now rewrite (scan_id_collision _ _ _ _ _ _ Hd He Hw Ha).
Qed.

(** X25. A scan never records time for nobody: if every time entry belongs
    to a stored employee, the same holds after any scan, and an entry that a
    scan adds belongs to an employee of the caller's company. *)
Theorem scan_keeps_references
  (db : DB) (scan_data : Server.QRScanRequest) (company_id : string)
  (env : Server.ScanEnv) :
  let db' := db_after (run (Server.scan_qr scan_data company_id env) db) in
  (entries_have_employee db -> entries_have_employee db')
  /\ (forall t, In t (time_entries db') ->
                ~ In (te_id t) (map te_id (time_entries db)) ->
                exists employee,
                  In employee (employees db)
                  /\ em_company_id employee = company_id
                  /\ te_employee_id t = em_id employee).
Proof.
  intros db'. subst db'.
  destruct (scan_db_cases_stored db scan_data company_id env)
    as [-> | [(employee & Hin & Hco & ->) | (ex & ->)]];
    cbn [with_rows time_entries_t time_entries employees].
  - split; [tauto|]. intros t Ht Hnew. exfalso. apply Hnew. now apply in_map.
  - split.
    + intros H t Ht. apply in_app_or in Ht as [Ht|[<-|[]]]; [now apply H|].
      cbn [check_in_entry te_employee_id]. now apply in_map.
    + intros t Ht Hnew. apply in_app_or in Ht as [Ht|[<-|[]]].
      * exfalso. apply Hnew. now apply in_map.
      * exists employee. repeat split; assumption.
  - split.
    + intros H t Ht. unfold check_out_rows in Ht.
      apply in_map_iff in Ht as (t0 & <- & Ht0).
      destruct (te_id t0 =? te_id ex); [|now apply H].
      cbn [checked_out te_employee_id]. now apply H.
    + intros t Ht Hnew. exfalso. apply Hnew.
      rewrite <- (check_out_rows_ids ex env). now apply in_map.
Qed.

Lemma scan_keeps_references_witness :
  let employee := mkEmployee "e1" "Jan" "Kowalski" "dev" "007" "png" "co1" 0 in
  let db := mkDB [] [] [employee]
              [mkTimeEntry "t0" "e1" (Some 0%Z) (Some 9%Z) "2023-12-31"
                 "completed" (Some 9%Z)] in
  entries_have_employee
    (db_after
       (run (Server.scan_qr (Server.mkQRScanRequest "EMP_co1_007_a1b2c3d4")
               "co1" (Server.mkScanEnv "2024-01-01" 100 101 "t1")) db)).
Proof.
  intros employee db.
  apply (proj1 (scan_keeps_references db _ "co1" _)).
  intros t [<-|[]]. simpl. tauto.
Defined.
